(** * BKM-15Rduino: a shallow embedding of the coordination core

    The sketch (revision 0.4) bridges a web interface and physical keys to a
    monitor that speaks a line protocol.  This development embeds the parts
    of the sketch that the specification talks about:

    - [Queue<T>], the ring buffer holding outbound commands;
    - [WaiterQueue], the registry of long-poll clients;
    - [handleReq], the routes that enqueue commands and register waiters;
    - [checkStatusNotification], delivery and timeout of waiters;
    - [updateStatus], [connectMonitor] and the command part of [loop];
    - the command store of the first revision, for comparison;
    - the knob commands of the revision before the physical keys, whose
      [snprintf] and [packetBuf] have other sizes.

    Integers of the sketch are [Z] with the wrap-around of their C type
    written out; arrays are lists updated by index; an Arduino [String] is
    the sequence of its characters, of which the methods built on
    [strchr] and [strstr] see the part before the first NUL. *)

From Stdlib Require Import ZArith Lia String Ascii List Bool DecimalString.
From Stdlib Require DecimalPos DecimalZ.
From stdpp Require Import base list.
Import ListNotations.

Local Open Scope Z_scope.

(** ** Machine integers *)

Definition u8 (x : Z) : Z := x mod 256.
Definition u16 (x : Z) : Z := x mod 65536.
Definition u32 (x : Z) : Z := x mod 4294967296.

Definition MAX_QUEUELEN : Z := 8.
Definition COMMAND_LEN : Z := 25.
Definition MAX_WAITERS : Z := 2.
Definition RECV_TIMEOUT : Z := 1000.

(** ** The command ring buffer: [template <typename T> class Queue] *)

Module CmdQueue.
Section Ring.
Context {T : Type} `{Inhabited T}.

(** The private members.  [m_queueData] is the malloc'ed array of
    [queueLen] elements. *)
Record Queue : Type := mkQueue {
  m_maxCount : Z;
  m_tail : Z;
  m_head : Z;
  m_count : Z;
  m_queueData : list T
}.

(** The constructor leaves the array uninitialised: [mem] is whatever the
    allocation holds. *)
Definition Queue_new (queueLen : Z) (mem : list T) : Queue :=
  mkQueue (u8 queueLen) 0 0 0 mem.

Definition getCount (q : Queue) : Z := m_count q.

Definition peek (q : Queue) : option T :=
  if m_count q =? 0 then None
  else Some (m_queueData q !!! Z.to_nat (m_tail q)).

(** [pop] copies the slot at [m_tail] out, then advances [m_tail]. *)
Definition pop (q : Queue) : option T * Queue :=
  if m_count q =? 0 then (None, q)
  else
    let t := m_queueData q !!! Z.to_nat (m_tail q) in
    let tail1 := u8 (m_tail q + 1) in
    let count1 := u8 (m_count q - 1) in
    let tail2 := if tail1 >=? m_maxCount q then 0 else tail1 in
    (Some t, mkQueue (m_maxCount q) tail2 (m_head q) count1 (m_queueData q)).

(** [push] returns at once when the buffer is full, otherwise it copies
    into the slot at [m_head] and advances [m_head]. *)
Definition push (t : T) (q : Queue) : Queue :=
  if m_count q + 1 >? m_maxCount q then q
  else
    let data := <[Z.to_nat (m_head q) := t]> (m_queueData q) in
    let head1 := u8 (m_head q + 1) in
    let count1 := u8 (m_count q + 1) in
    let head2 := if head1 >=? m_maxCount q then 0 else head1 in
    mkQueue (m_maxCount q) (m_tail q) head2 count1 data.

Definition push_all (ts : list T) (q : Queue) : Queue :=
  fold_left (fun acc t => push t acc) ts q.

(** [n] consecutive calls of [pop], with the results in call order. *)
Fixpoint pop_n (n : nat) (q : Queue) : list (option T) * Queue :=
  match n with
  | O => ([], q)
  | S k =>
      let '(r, q1) := pop q in
      let '(rs, q2) := pop_n k q1 in
      (r :: rs, q2)
  end.

(** The representation invariant of the ring. *)
Record wf (q : Queue) : Prop := mkWf {
  wf_max : 0 < m_maxCount q <= 255;
  wf_len : Z.of_nat (length (m_queueData q)) = m_maxCount q;
  wf_tail : 0 <= m_tail q < m_maxCount q;
  wf_count : 0 <= m_count q <= m_maxCount q;
  wf_head : m_head q = (m_tail q + m_count q) mod m_maxCount q
}.

(** The entries that were pushed and not yet popped, oldest first. *)
Definition slot_at (q : Queue) (i : nat) : T :=
  m_queueData q !!! Z.to_nat ((m_tail q + Z.of_nat i) mod m_maxCount q).

Definition contents (q : Queue) : list T :=
  map (slot_at q) (seq 0 (Z.to_nat (m_count q))).

End Ring.
Arguments Queue T : clear implicits.
End CmdQueue.


(** ** C strings and the Arduino [String] methods the sketch calls *)

Local Open Scope string_scope.
Local Open Scope list_scope.
Local Open Scope Z_scope.

Definition i32 (x : Z) : Z := (x + 2147483648) mod 4294967296 - 2147483648.

(** What a C function sees of a character buffer: the text before the
    first NUL. *)
Fixpoint c_str (s : string) : string :=
  match s with
  | EmptyString => EmptyString
  | String c r => if Ascii.eqb c "000"%char then EmptyString else String c (c_str r)
  end.

Definition strlen (s : string) : Z := Z.of_nat (String.length (c_str s)).

Definition bytes_of (s : string) : list Z :=
  map (fun c => Z.of_nat (nat_of_ascii c)) (list_ascii_of_string s).

(** Results of code that can write past a fixed array. *)
Inductive Outcome (A : Type) : Type :=
| Done (a : A)
| BufferOverflow (written capacity : Z).
Arguments Done {A} a.
Arguments BufferOverflow {A} written capacity.

Definition is_done {A : Type} (o : Outcome A) : bool :=
  match o with Done _ => true | BufferOverflow _ _ => false end.

(** [strcpy(dst, src)] into [char dst[capacity]]: the text and its NUL are
    written, whatever the capacity. *)
Definition strcpy (capacity : Z) (src : string) : Outcome string :=
  if strlen src + 1 <=? capacity then Done (c_str src)
  else BufferOverflow (strlen src + 1) capacity.

Definition startsWith (s s2 : string) : bool := String.prefix s2 s.

(** [buffer() + n]: the characters of [s] from index [n] on. *)
Fixpoint buffer_from (n : nat) (s : string) : string :=
  match n, s with
  | S n', String _ r => buffer_from n' r
  | _, _ => s
  end.

(** [strchr(s, ch)]: the offset of the first [ch] in the C string that
    starts at [s].  The search ends at the first NUL, and that NUL is
    itself found when [ch] is NUL. *)
Fixpoint strchr (s : string) (ch : ascii) : option nat :=
  match s with
  | EmptyString => if Ascii.eqb ch "000"%char then Some 0%nat else None
  | String c r =>
      if Ascii.eqb c ch then Some 0%nat
      else if Ascii.eqb c "000"%char then None
      else option_map S (strchr r ch)
  end.

(** [String::indexOf(char, unsigned int fromIndex)]: [-1] when [fromIndex]
    is not below the length, else [strchr(buffer() + fromIndex, ch)], so a
    character behind a NUL is not found. *)
Definition indexOf (ch : ascii) (fromIndex : Z) (s : string) : Z :=
  let from := u32 fromIndex in
  if from >=? Z.of_nat (String.length s) then -1
  else match strchr (buffer_from (Z.to_nat from) s) ch with
       | Some i => from + Z.of_nat i
       | None => -1
       end.

(** [String::substring(unsigned int left, unsigned int right)]. *)
Definition substring (left right : Z) (s : string) : string :=
  let l0 := u32 left in
  let r0 := u32 right in
  let l := if l0 >? r0 then r0 else l0 in
  let r := if l0 >? r0 then l0 else r0 in
  let len := Z.of_nat (String.length s) in
  if l >=? len then EmptyString
  else
    let r1 := if r >? len then len else r in
    String.substring (Z.to_nat l) (Z.to_nat (r1 - l)) s.

Definition substring_from (beginIndex : Z) (s : string) : string :=
  substring beginIndex (Z.of_nat (String.length s)) s.

(** [String::toInt] is [atol]: blanks, a sign, then digits; the value
    saturates at the bounds of a 32-bit [long]. *)
Definition isspace (c : ascii) : bool :=
  let n := Z.of_nat (nat_of_ascii c) in
  (n =? 32) || ((9 <=? n) && (n <=? 13)).

Definition isdigit (c : ascii) : bool :=
  let n := Z.of_nat (nat_of_ascii c) in (48 <=? n) && (n <=? 57).

Fixpoint skip_spaces (s : string) : string :=
  match s with
  | String c r => if isspace c then skip_spaces r else s
  | EmptyString => s
  end.

Fixpoint digits_value (acc : Z) (s : string) : Z :=
  match s with
  | String c r =>
      if isdigit c then digits_value (10 * acc + (Z.of_nat (nat_of_ascii c) - 48)) r
      else acc
  | EmptyString => acc
  end.

Definition saturate_long (x : Z) : Z :=
  if x >? 2147483647 then 2147483647
  else if x <? -2147483648 then -2147483648 else x.

Definition atol (s : string) : Z :=
  match skip_spaces s with
  | String "-"%char r => saturate_long (- digits_value 0 r)
  | String "+"%char r => saturate_long (digits_value 0 r)
  | r => saturate_long (digits_value 0 r)
  end.

Definition toInt (s : string) : Z := atol s.

(** The text [printf] writes for [%d]. *)
Definition fmt_d (x : Z) : string := NilZero.string_of_int (Z.to_int x).

(** [snprintf(buf, size, ...)] keeps the first [size - 1] characters. *)
Definition snprintf (size : Z) (formatted : string) : string :=
  String.substring 0 (Z.to_nat (size - 1)) formatted.

(** ** Constants of the sketch *)

Definition POWER_ON_STATUS : Z := 0x8000.
Definition SCANMODE_STATUS : Z := 0x0400.
Definition HDELAY_STATUS : Z := 0x0200.
Definition VDELAY_STATUS : Z := 0x0100.
Definition MONOCHROME_STATUS : Z := 0x0080.
Definition CHAR_MUTE_STATUS : Z := 0x0040.
Definition MARKER_MODE_STATUS : Z := 0x0020.
Definition EXTSYNC_STATUS : Z := 0x0010.
Definition APT_STATUS : Z := 0x0008.
Definition CHROMA_UP_STATUS : Z := 0x0004.
Definition ASPECT_STATUS : Z := 0x0002.

Definition COL_TEMP_STATUS : Z := 0x0040.
Definition COMB_STATUS : Z := 0x0020.
Definition BLUE_ONLY_STATUS : Z := 0x0010.
Definition R_CUTOFF_STATUS : Z := 0x0004.
Definition G_CUTOFF_STATUS : Z := 0x0002.
Definition B_CUTOFF_STATUS : Z := 0x0001.

Definition MAN_PHASE_STATUS : Z := 0x0080.
Definition MAN_CHROMA_STATUS : Z := 0x0040.
Definition MAN_BRIGHT_STATUS : Z := 0x0020.
Definition MAN_CONTRAST_STATUS : Z := 0x0010.

Definition TOGGLE : string := "TOGGLE".
Definition STATUS_SET : string := "STATset".
Definition INFO_BUTTON : string := "INFObutton".
Definition INFO_KNOB : string := "INFOknob".

Definition toggleURL : string := "/toggle/".
Definition knobURL : string := "/turnknob/".
Definition infoPushURL : string := "/infopush/".
Definition statusGetURL : string := "/statusget".
Definition statusWaitURL : string := "/statuswait".

(** [sizeof(knobURL)] counts the terminating NUL. *)
Definition sizeof_knobURL : Z := strlen knobURL + 1.

Definition header : list Z :=
  [0x03; 0x0B; 0x53; 0x4F; 0x4E; 0x59; 0x00; 0x00; 0x00; 0xB0; 0x00; 0x00; 0x00].

Definition get_status : list Z :=
  [0x03; 0x0b; 0x53; 0x4f; 0x4e; 0x59; 0x00; 0x00; 0x00; 0xb0; 0x00; 0x00;
   0x12; 0x53; 0x54; 0x41; 0x54; 0x67; 0x65; 0x74; 0x20; 0x43; 0x55; 0x52;
   0x52; 0x45; 0x4e; 0x54; 0x20; 0x35; 0x00].

Definition sizeof_status_response : Z := 53.
Definition sizeof_button_response : Z := 13.
Definition sizeof_packetBuf : Z := 50.

(** ** Data of the sketch *)

Record State_t : Type := mkState {
  m_linkUp : bool;
  m_connected : bool;
  m_isValid : bool;
  m_isPowered : bool;
  m_scanmode : bool;
  m_hdelay : bool;
  m_vdelay : bool;
  m_charmute : bool;
  m_monochrome : bool;
  m_marker : bool;
  m_extsync : bool;
  m_apt : bool;
  m_chromaup : bool;
  m_aspect : bool;
  m_coltemp : bool;
  m_comb : bool;
  m_blueonly : bool;
  m_rcutoff : bool;
  m_gcutoff : bool;
  m_bcutoff : bool;
  m_man_phase : bool;
  m_man_chroma : bool;
  m_man_bright : bool;
  m_man_contrast : bool
}.

Inductive CommandType : Type := CT_STATUS | CT_INFO | CT_INFOKNOB.

(** [m_command] is the text held in the [char[COMMAND_LEN]] array. *)
Record Command_t : Type := mkCommand {
  m_commandType : CommandType;
  m_command : string
}.

#[global] Instance Command_t_inhabited : Inhabited Command_t :=
  populate (mkCommand CT_STATUS EmptyString).

(** A [WiFiClient] shares its socket with its copies; [None] is a client
    without a socket (default-constructed, or after [stop]). *)
Definition WiFiClient : Type := option nat.

(** What the sketch prints on a web client.  Page and JSON bodies are kept
    as data. *)
Inductive Content : Type :=
| MainPage
| StatusJson (state : State_t) (packetNo : Z).

Inductive Output : Type :=
| Println (line : string)
| PrintContentLength (c : Content)
| PrintlnContent (c : Content).

(** The lines a client with a socket receives. *)
Definition client_print (c : WiFiClient) (outs : list Output) : list (nat * Output) :=
  match c with
  | Some fd => map (fun o => (fd, o)) outs
  | None => []
  end.

Definition http_200_none : list Output :=
  [Println "HTTP/1.1 200 OK"; Println "Content-Type: none";
   Println "Connection: close"; Println EmptyString].

Definition http_200_content (ctype : string) (c : Content) : list Output :=
  [Println "HTTP/1.1 200 OK"; Println ("Content-Type: " ++ ctype)%string;
   PrintContentLength c; Println "Connection: close"; Println EmptyString;
   PrintlnContent c].

Definition http_204 : list Output :=
  [Println "HTTP/1.1 204 No Content"; Println "Content-Type: none";
   Println "Connection: close"; Println EmptyString].

Definition http_503 : list Output :=
  [Println "HTTP/1.1 503 Service Unavailable"; Println "Content-Type: none";
   Println "Connection: close"; Println EmptyString].

Definition http_404 : list Output :=
  [Println "HTTP/1.1 404 Not Found"; Println "Connection: close"; Println EmptyString].

(** ** The waiter registry: [class WaiterQueue] *)

Record StatusWaiter_t : Type := mkWaiter {
  m_client : WiFiClient;
  m_added_ms : Z
}.

#[global] Instance StatusWaiter_t_inhabited : Inhabited StatusWaiter_t :=
  populate (mkWaiter None 0).

Module Waiters.

Record WaiterQueue : Type := mkWaiterQueue {
  m_maxCount : Z;
  m_tail : Z;
  m_head : Z;
  m_count : Z;
  m_waiters : list StatusWaiter_t
}.

Definition WaiterQueue_new : WaiterQueue :=
  mkWaiterQueue (u8 MAX_WAITERS) 0 0 0
    (replicate (Z.to_nat MAX_WAITERS) (mkWaiter None 0)).

Definition getCount (q : WaiterQueue) : Z := m_count q.

Definition peek (q : WaiterQueue) : option StatusWaiter_t :=
  if m_count q =? 0 then None
  else Some (m_waiters q !!! Z.to_nat (m_tail q)).

(** [pop] copies the slot at [m_tail] out and stops the slot's own client. *)
Definition pop (q : WaiterQueue) : option StatusWaiter_t * WaiterQueue :=
  if m_count q =? 0 then (None, q)
  else
    let t := m_waiters q !!! Z.to_nat (m_tail q) in
    let waiters :=
      <[Z.to_nat (m_tail q) := mkWaiter None (m_added_ms t)]> (m_waiters q) in
    let tail1 := u8 (m_tail q + 1) in
    let count1 := u8 (m_count q - 1) in
    let tail2 := if tail1 >=? m_maxCount q then 0 else tail1 in
    (Some t, mkWaiterQueue (m_maxCount q) tail2 (m_head q) count1 waiters).

(** [push] stores into the slot at [m_tail] and advances [m_head]. *)
Definition push (t : StatusWaiter_t) (q : WaiterQueue) : WaiterQueue :=
  if m_count q + 1 >? m_maxCount q then q
  else
    let waiters := <[Z.to_nat (m_tail q) := t]> (m_waiters q) in
    let head1 := u8 (m_head q + 1) in
    let count1 := u8 (m_count q + 1) in
    let head2 := if head1 >=? m_maxCount q then 0 else head1 in
    mkWaiterQueue (m_maxCount q) (m_tail q) head2 count1 waiters.

(** The sockets the registry still holds. *)
Definition held (q : WaiterQueue) : list nat :=
  omap m_client (m_waiters q).

End Waiters.

(** ** The connection to the monitor

    [rxbuf] holds the bytes received and not yet read; [arrivals] lists what
    the monitor delivers during each coming millisecond; [written] logs the
    frames handed to [write]; [accepts] tells whether [write] takes them. *)
Record EthernetClient : Type := mkClient {
  rxbuf : list Z;
  arrivals : list (list Z);
  written : list (list Z);
  accepts : bool
}.

Definition available (cl : EthernetClient) : Z := Z.of_nat (length (rxbuf cl)).

Definition delay1 (cl : EthernetClient) : EthernetClient :=
  match arrivals cl with
  | [] => cl
  | a :: rest => mkClient (rxbuf cl ++ a) rest (written cl) (accepts cl)
  end.

Definition client_read (cl : EthernetClient) : Z * EthernetClient :=
  match rxbuf cl with
  | [] => (-1, cl)
  | b :: rest => (b, mkClient rest (arrivals cl) (written cl) (accepts cl))
  end.

Definition client_write (frame : list Z) (cl : EthernetClient) : Z * EthernetClient :=
  if accepts cl
  then (Z.of_nat (length frame),
        mkClient (rxbuf cl) (arrivals cl) (written cl ++ [frame]) (accepts cl))
  else (0, cl).

(** [while(available() < need) { delay(1); ++wait_ms; if(wait_ms >=
    RECV_TIMEOUT) break; }] with [n] bounding the iterations. *)
Fixpoint wait_available (n : nat) (need : Z) (cl : EthernetClient) (wait_ms : Z)
  : EthernetClient * Z :=
  if available cl <? need then
    match n with
    | O => (cl, wait_ms)
    | S k =>
        let cl1 := delay1 cl in
        let w := wait_ms + 1 in
        if w >=? RECV_TIMEOUT then (cl1, w) else wait_available k need cl1 w
    end
  else (cl, wait_ms).

(** [while(bytesRead < n) buf[bytesRead++] = read();] *)
Fixpoint read_into (n : nat) (bytesRead : Z) (cl : EthernetClient) (buf : list Z)
  : EthernetClient * list Z :=
  match n with
  | O => (cl, buf)
  | S k =>
      let '(b, cl1) := client_read cl in
      read_into k (u8 (bytesRead + 1)) cl1 (<[Z.to_nat bytesRead := u8 b]> buf)
  end.

(** ** Global variables of the sketch *)

Record Globals : Type := mkGlobals {
  currentState : State_t;
  stateCopy : State_t;
  statusUpdated : bool;
  updateWaiters : bool;
  statusw1 : Z;
  statusw2 : Z;
  statusw3 : Z;
  statusw4 : Z;
  statusw5 : Z;
  _statusw1 : Z;
  _statusw2 : Z;
  _statusw3 : Z;
  _statusw4 : Z;
  _statusw5 : Z;
  status_response : list Z;
  button_response : list Z;
  packetBuf : list Z;
  wait_ms : Z;
  lastStatusUpdate_ms : Z;
  statusPacketNo : Z;
  commandQueue : CmdQueue.Queue Command_t;
  statusWaiters : Waiters.WaiterQueue;
  monitorClient : EthernetClient
}.

Definition set_currentState (v : State_t) (g : Globals) : Globals :=
  mkGlobals v (stateCopy g) (statusUpdated g) (updateWaiters g)
    (statusw1 g) (statusw2 g) (statusw3 g) (statusw4 g) (statusw5 g)
    (_statusw1 g) (_statusw2 g) (_statusw3 g) (_statusw4 g) (_statusw5 g)
    (status_response g) (button_response g) (packetBuf g) (wait_ms g)
    (lastStatusUpdate_ms g) (statusPacketNo g) (commandQueue g)
    (statusWaiters g) (monitorClient g).

Definition set_stateCopy (v : State_t) (g : Globals) : Globals :=
  mkGlobals (currentState g) v (statusUpdated g) (updateWaiters g)
    (statusw1 g) (statusw2 g) (statusw3 g) (statusw4 g) (statusw5 g)
    (_statusw1 g) (_statusw2 g) (_statusw3 g) (_statusw4 g) (_statusw5 g)
    (status_response g) (button_response g) (packetBuf g) (wait_ms g)
    (lastStatusUpdate_ms g) (statusPacketNo g) (commandQueue g)
    (statusWaiters g) (monitorClient g).

Definition set_statusUpdated (v : bool) (g : Globals) : Globals :=
  mkGlobals (currentState g) (stateCopy g) v (updateWaiters g)
    (statusw1 g) (statusw2 g) (statusw3 g) (statusw4 g) (statusw5 g)
    (_statusw1 g) (_statusw2 g) (_statusw3 g) (_statusw4 g) (_statusw5 g)
    (status_response g) (button_response g) (packetBuf g) (wait_ms g)
    (lastStatusUpdate_ms g) (statusPacketNo g) (commandQueue g)
    (statusWaiters g) (monitorClient g).

Definition set_updateWaiters (v : bool) (g : Globals) : Globals :=
  mkGlobals (currentState g) (stateCopy g) (statusUpdated g) v
    (statusw1 g) (statusw2 g) (statusw3 g) (statusw4 g) (statusw5 g)
    (_statusw1 g) (_statusw2 g) (_statusw3 g) (_statusw4 g) (_statusw5 g)
    (status_response g) (button_response g) (packetBuf g) (wait_ms g)
    (lastStatusUpdate_ms g) (statusPacketNo g) (commandQueue g)
    (statusWaiters g) (monitorClient g).

(** The five decoded words [statusw1] .. [statusw5]. *)
Definition set_statusw (v1 v2 v3 v4 v5 : Z) (g : Globals) : Globals :=
  mkGlobals (currentState g) (stateCopy g) (statusUpdated g) (updateWaiters g)
    v1 v2 v3 v4 v5
    (_statusw1 g) (_statusw2 g) (_statusw3 g) (_statusw4 g) (_statusw5 g)
    (status_response g) (button_response g) (packetBuf g) (wait_ms g)
    (lastStatusUpdate_ms g) (statusPacketNo g) (commandQueue g)
    (statusWaiters g) (monitorClient g).

(** The five cached words [_statusw1] .. [_statusw5]. *)
Definition set__statusw (v1 v2 v3 v4 v5 : Z) (g : Globals) : Globals :=
  mkGlobals (currentState g) (stateCopy g) (statusUpdated g) (updateWaiters g)
    (statusw1 g) (statusw2 g) (statusw3 g) (statusw4 g) (statusw5 g)
    v1 v2 v3 v4 v5
    (status_response g) (button_response g) (packetBuf g) (wait_ms g)
    (lastStatusUpdate_ms g) (statusPacketNo g) (commandQueue g)
    (statusWaiters g) (monitorClient g).

Definition set_status_response (v : list Z) (g : Globals) : Globals :=
  mkGlobals (currentState g) (stateCopy g) (statusUpdated g) (updateWaiters g)
    (statusw1 g) (statusw2 g) (statusw3 g) (statusw4 g) (statusw5 g)
    (_statusw1 g) (_statusw2 g) (_statusw3 g) (_statusw4 g) (_statusw5 g)
    v (button_response g) (packetBuf g) (wait_ms g)
    (lastStatusUpdate_ms g) (statusPacketNo g) (commandQueue g)
    (statusWaiters g) (monitorClient g).

Definition set_button_response (v : list Z) (g : Globals) : Globals :=
  mkGlobals (currentState g) (stateCopy g) (statusUpdated g) (updateWaiters g)
    (statusw1 g) (statusw2 g) (statusw3 g) (statusw4 g) (statusw5 g)
    (_statusw1 g) (_statusw2 g) (_statusw3 g) (_statusw4 g) (_statusw5 g)
    (status_response g) v (packetBuf g) (wait_ms g)
    (lastStatusUpdate_ms g) (statusPacketNo g) (commandQueue g)
    (statusWaiters g) (monitorClient g).

Definition set_packetBuf (v : list Z) (g : Globals) : Globals :=
  mkGlobals (currentState g) (stateCopy g) (statusUpdated g) (updateWaiters g)
    (statusw1 g) (statusw2 g) (statusw3 g) (statusw4 g) (statusw5 g)
    (_statusw1 g) (_statusw2 g) (_statusw3 g) (_statusw4 g) (_statusw5 g)
    (status_response g) (button_response g) v (wait_ms g)
    (lastStatusUpdate_ms g) (statusPacketNo g) (commandQueue g)
    (statusWaiters g) (monitorClient g).

Definition set_wait_ms (v : Z) (g : Globals) : Globals :=
  mkGlobals (currentState g) (stateCopy g) (statusUpdated g) (updateWaiters g)
    (statusw1 g) (statusw2 g) (statusw3 g) (statusw4 g) (statusw5 g)
    (_statusw1 g) (_statusw2 g) (_statusw3 g) (_statusw4 g) (_statusw5 g)
    (status_response g) (button_response g) (packetBuf g) v
    (lastStatusUpdate_ms g) (statusPacketNo g) (commandQueue g)
    (statusWaiters g) (monitorClient g).

Definition set_lastStatusUpdate_ms (v : Z) (g : Globals) : Globals :=
  mkGlobals (currentState g) (stateCopy g) (statusUpdated g) (updateWaiters g)
    (statusw1 g) (statusw2 g) (statusw3 g) (statusw4 g) (statusw5 g)
    (_statusw1 g) (_statusw2 g) (_statusw3 g) (_statusw4 g) (_statusw5 g)
    (status_response g) (button_response g) (packetBuf g) (wait_ms g)
    v (statusPacketNo g) (commandQueue g)
    (statusWaiters g) (monitorClient g).

Definition set_statusPacketNo (v : Z) (g : Globals) : Globals :=
  mkGlobals (currentState g) (stateCopy g) (statusUpdated g) (updateWaiters g)
    (statusw1 g) (statusw2 g) (statusw3 g) (statusw4 g) (statusw5 g)
    (_statusw1 g) (_statusw2 g) (_statusw3 g) (_statusw4 g) (_statusw5 g)
    (status_response g) (button_response g) (packetBuf g) (wait_ms g)
    (lastStatusUpdate_ms g) v (commandQueue g)
    (statusWaiters g) (monitorClient g).

Definition set_commandQueue (v : CmdQueue.Queue Command_t) (g : Globals) : Globals :=
  mkGlobals (currentState g) (stateCopy g) (statusUpdated g) (updateWaiters g)
    (statusw1 g) (statusw2 g) (statusw3 g) (statusw4 g) (statusw5 g)
    (_statusw1 g) (_statusw2 g) (_statusw3 g) (_statusw4 g) (_statusw5 g)
    (status_response g) (button_response g) (packetBuf g) (wait_ms g)
    (lastStatusUpdate_ms g) (statusPacketNo g) v
    (statusWaiters g) (monitorClient g).

Definition set_statusWaiters (v : Waiters.WaiterQueue) (g : Globals) : Globals :=
  mkGlobals (currentState g) (stateCopy g) (statusUpdated g) (updateWaiters g)
    (statusw1 g) (statusw2 g) (statusw3 g) (statusw4 g) (statusw5 g)
    (_statusw1 g) (_statusw2 g) (_statusw3 g) (_statusw4 g) (_statusw5 g)
    (status_response g) (button_response g) (packetBuf g) (wait_ms g)
    (lastStatusUpdate_ms g) (statusPacketNo g) (commandQueue g)
    v (monitorClient g).

Definition set_monitorClient (v : EthernetClient) (g : Globals) : Globals :=
  mkGlobals (currentState g) (stateCopy g) (statusUpdated g) (updateWaiters g)
    (statusw1 g) (statusw2 g) (statusw3 g) (statusw4 g) (statusw5 g)
    (_statusw1 g) (_statusw2 g) (_statusw3 g) (_statusw4 g) (_statusw5 g)
    (status_response g) (button_response g) (packetBuf g) (wait_ms g)
    (lastStatusUpdate_ms g) (statusPacketNo g) (commandQueue g)
    (statusWaiters g) v.

(** Assignments to single fields of a [State_t]. *)
Definition set_m_linkUp (v : bool) (s : State_t) : State_t :=
  {| m_linkUp := v;
     m_connected := m_connected s;
     m_isValid := m_isValid s;
     m_isPowered := m_isPowered s;
     m_scanmode := m_scanmode s;
     m_hdelay := m_hdelay s;
     m_vdelay := m_vdelay s;
     m_charmute := m_charmute s;
     m_monochrome := m_monochrome s;
     m_marker := m_marker s;
     m_extsync := m_extsync s;
     m_apt := m_apt s;
     m_chromaup := m_chromaup s;
     m_aspect := m_aspect s;
     m_coltemp := m_coltemp s;
     m_comb := m_comb s;
     m_blueonly := m_blueonly s;
     m_rcutoff := m_rcutoff s;
     m_gcutoff := m_gcutoff s;
     m_bcutoff := m_bcutoff s;
     m_man_phase := m_man_phase s;
     m_man_chroma := m_man_chroma s;
     m_man_bright := m_man_bright s;
     m_man_contrast := m_man_contrast s |}.

Definition set_m_connected (v : bool) (s : State_t) : State_t :=
  {| m_linkUp := m_linkUp s;
     m_connected := v;
     m_isValid := m_isValid s;
     m_isPowered := m_isPowered s;
     m_scanmode := m_scanmode s;
     m_hdelay := m_hdelay s;
     m_vdelay := m_vdelay s;
     m_charmute := m_charmute s;
     m_monochrome := m_monochrome s;
     m_marker := m_marker s;
     m_extsync := m_extsync s;
     m_apt := m_apt s;
     m_chromaup := m_chromaup s;
     m_aspect := m_aspect s;
     m_coltemp := m_coltemp s;
     m_comb := m_comb s;
     m_blueonly := m_blueonly s;
     m_rcutoff := m_rcutoff s;
     m_gcutoff := m_gcutoff s;
     m_bcutoff := m_bcutoff s;
     m_man_phase := m_man_phase s;
     m_man_chroma := m_man_chroma s;
     m_man_bright := m_man_bright s;
     m_man_contrast := m_man_contrast s |}.

Definition set_m_isValid (v : bool) (s : State_t) : State_t :=
  {| m_linkUp := m_linkUp s;
     m_connected := m_connected s;
     m_isValid := v;
     m_isPowered := m_isPowered s;
     m_scanmode := m_scanmode s;
     m_hdelay := m_hdelay s;
     m_vdelay := m_vdelay s;
     m_charmute := m_charmute s;
     m_monochrome := m_monochrome s;
     m_marker := m_marker s;
     m_extsync := m_extsync s;
     m_apt := m_apt s;
     m_chromaup := m_chromaup s;
     m_aspect := m_aspect s;
     m_coltemp := m_coltemp s;
     m_comb := m_comb s;
     m_blueonly := m_blueonly s;
     m_rcutoff := m_rcutoff s;
     m_gcutoff := m_gcutoff s;
     m_bcutoff := m_bcutoff s;
     m_man_phase := m_man_phase s;
     m_man_chroma := m_man_chroma s;
     m_man_bright := m_man_bright s;
     m_man_contrast := m_man_contrast s |}.

(** The variables as their initialisers and [setup] leave them: the state
    is all false but for the link flag that [setup] samples, and
    [packetBuf] starts with the header.  [mem] is the content of the
    command array that the constructor allocates. *)
Definition boot (linkUp : bool) (mem : list Command_t) (cl : EthernetClient) : Globals :=
  let s0 := mkState linkUp false false false false false false false false false
              false false false false false false false false false false
              false false false false in
  mkGlobals s0
    (mkState false false false false false false false false false false
       false false false false false false false false false false
       false false false false)
    false false
    0xFFFF 0xFFFF 0xFFFF 0xFFFF 0xFFFF
    0xFFFF 0xFFFF 0xFFFF 0xFFFF 0xFFFF
    (replicate 53 0) (replicate 13 0)
    (header ++ replicate 37 0) 0 0 0
    (CmdQueue.Queue_new MAX_QUEUELEN mem)
    Waiters.WaiterQueue_new cl.

(** ** Polling the monitor: [updateStatus] *)

(** One status word: four bytes, each lowered by 0x30, shifted into place
    and added, then stored in a [uint16_t]. *)
Definition status_word (buf : list Z) (i0 i1 i2 i3 : nat) : Z :=
  u16 (Z.shiftl (buf !!! i0 - 0x30) 12 +
       Z.shiftl (buf !!! i1 - 0x30) 8 +
       Z.shiftl (buf !!! i2 - 0x30) 4 +
       (buf !!! i3 - 0x30)).

(** Nibble [k] of a word, nibble 0 being the lowest. *)
Definition nibble (w k : Z) : Z := Z.land (Z.shiftr w (4 * k)) 0xF.

(** The bytes at four offsets are digits of the protocol: 0x30 .. 0x3F. *)
Definition digit_bytes (buf : list Z) (i0 i1 i2 i3 : nat) : Prop :=
  (0x30 <= buf !!! i0 <= 0x3F) /\ (0x30 <= buf !!! i1 <= 0x3F) /\
  (0x30 <= buf !!! i2 <= 0x3F) /\ (0x30 <= buf !!! i3 <= 0x3F).

(** The four nibbles of [w] are the bytes at the offsets, lowered by
    0x30, the first offset in the top nibble. *)
Definition nibbles_are (w : Z) (buf : list Z) (i0 i1 i2 i3 : nat) : Prop :=
  nibble w 3 = buf !!! i0 - 0x30 /\ nibble w 2 = buf !!! i1 - 0x30 /\
  nibble w 1 = buf !!! i2 - 0x30 /\ nibble w 0 = buf !!! i3 - 0x30.

(** Conversion of [word & mask] to [bool]. *)
Definition flag (word mask : Z) : bool := negb (Z.land word mask =? 0).

(** The request, the bounded wait and the read of the 53 bytes.  [None]
    is the return on time-out. *)
Definition recv_status (cl : EthernetClient) (buf : list Z)
  : EthernetClient * option (list Z) :=
  let '(_, cl0) := client_write get_status cl in
  let '(cl1, w) :=
    wait_available (Z.to_nat RECV_TIMEOUT) sizeof_status_response cl0 0 in
  if w >=? RECV_TIMEOUT then (cl1, None)
  else
    let '(cl2, resp) := read_into (Z.to_nat sizeof_status_response) 0 cl1 buf in
    (cl2, Some resp).

(** The assignments to [currentState] inside the changed branch. *)
Definition decoded_state (s : State_t) (w1 w3 w4 : Z) : State_t :=
  {| m_linkUp := m_linkUp s;
     m_connected := m_connected s;
     m_isValid := true;
     m_isPowered := flag w1 POWER_ON_STATUS;
     m_scanmode := flag w1 SCANMODE_STATUS;
     m_hdelay := flag w1 HDELAY_STATUS;
     m_vdelay := flag w1 VDELAY_STATUS;
     m_charmute := flag w1 CHAR_MUTE_STATUS;
     m_monochrome := flag w1 MONOCHROME_STATUS;
     m_marker := flag w1 MARKER_MODE_STATUS;
     m_extsync := flag w1 EXTSYNC_STATUS;
     m_apt := flag w1 APT_STATUS;
     m_chromaup := flag w1 CHROMA_UP_STATUS;
     m_aspect := flag w1 ASPECT_STATUS;
     m_coltemp := flag w3 COL_TEMP_STATUS;
     m_comb := flag w3 COMB_STATUS;
     m_blueonly := flag w3 BLUE_ONLY_STATUS;
     m_rcutoff := flag w3 R_CUTOFF_STATUS;
     m_gcutoff := flag w3 G_CUTOFF_STATUS;
     m_bcutoff := flag w3 B_CUTOFF_STATUS;
     m_man_phase := flag w4 MAN_PHASE_STATUS;
     m_man_chroma := flag w4 MAN_CHROMA_STATUS;
     m_man_bright := flag w4 MAN_BRIGHT_STATUS;
     m_man_contrast := flag w4 MAN_CONTRAST_STATUS |}.

(** The comparison of the decoded words with the cached ones. *)
Definition words_differ (g : Globals) : bool :=
  negb (statusw1 g =? _statusw1 g) || negb (statusw2 g =? _statusw2 g) ||
  negb (statusw3 g =? _statusw3 g) || negb (statusw4 g =? _statusw4 g) ||
  negb (statusw5 g =? _statusw5 g).

Definition updateStatus (g : Globals) : Globals :=
  match recv_status (monitorClient g) (status_response g) with
  | (cl, None) => set_monitorClient cl g
  | (cl, Some resp) =>
      let g1 := set_status_response resp (set_monitorClient cl g) in
      let g2 := set_statusw (status_word resp 29 30 31 32)
                            (status_word resp 34 35 36 37)
                            (status_word resp 39 40 41 42)
                            (status_word resp 44 45 46 47)
                            (status_word resp 49 50 51 52) g1 in
      if words_differ g2 then
        let s := decoded_state (currentState g2)
                   (statusw1 g2) (statusw3 g2) (statusw4 g2) in
        let g3 := set_statusUpdated true (set_currentState s g2) in
        set__statusw (statusw1 g3) (statusw2 g3) (statusw3 g3)
                     (statusw4 g3) (statusw5 g3) g3
      else g2
  end.

(** [connectMonitor]: the words are reset, a connection that was up is
    reported lost, the sketch retries [connect] until it returns 1, reports
    the connection ([connect_phase]) and polls once.  The retries are not
    modelled: [g] has the client as it is once [connect] has succeeded, and
    [now] is what [millis] returns at the end. *)
Definition connect_phase (g : Globals) : Globals :=
  let g1 := set__statusw 0xFFFF 0xFFFF 0xFFFF 0xFFFF 0xFFFF
              (set_statusw 0xFFFF 0xFFFF 0xFFFF 0xFFFF 0xFFFF g) in
  let g2 :=
    if m_connected (currentState g1) then
      set_statusUpdated true
        (set_currentState
           (set_m_isValid false (set_m_connected false (currentState g1))) g1)
    else g1 in
  set_statusUpdated true
    (set_currentState (set_m_connected true (currentState g2)) g2).

Definition connectMonitor (now : Z) (g : Globals) : Globals :=
  set_lastStatusUpdate_ms (u32 now) (updateStatus (connect_phase g)).

(** ** Frames to the monitor *)

(** [packetBuf[dataLength++] = b] *)
Definition put_byte (b : Z) (st : list Z * Z) : list Z * Z :=
  let '(buf, dataLength) := st in
  (<[Z.to_nat dataLength := u8 b]> buf, u8 (dataLength + 1)).

Definition put_bytes (bs : list Z) (st : list Z * Z) : list Z * Z :=
  fold_left (fun acc b => put_byte b acc) bs st.

(** [memcpy(packetBuf+dataLength, s, strlen(s)); dataLength += strlen(s);] *)
Definition put_text (s : string) (st : list Z * Z) : list Z * Z :=
  put_bytes (bytes_of (c_str s)) st.

(** The part the three send functions share: write the frame, wait for the
    13-byte acknowledgement within [RECV_TIMEOUT], read it.  The result is
    the function's return value.  Writing past [packetBuf] is reported. *)
Definition send_frame (st : list Z * Z) (g : Globals) : Outcome (Z * Globals) :=
  let '(buf, dataLength) := st in
  if dataLength >? sizeof_packetBuf then BufferOverflow dataLength sizeof_packetBuf
  else
    let g0 := set_packetBuf buf g in
    let '(n, cl) := client_write (take (Z.to_nat dataLength) buf) (monitorClient g0) in
    if n =? dataLength then
      let '(cl1, w) :=
        wait_available (Z.to_nat RECV_TIMEOUT) sizeof_button_response cl 0 in
      if w >=? RECV_TIMEOUT then
        Done (1, set_wait_ms w (set_monitorClient cl1 g0))
      else
        let '(cl2, resp) :=
          read_into (Z.to_nat sizeof_button_response) 0 cl1 (button_response g0) in
        Done (0, set_button_response resp
                   (set_wait_ms w (set_monitorClient cl2 g0)))
    else Done (1, set_monitorClient cl g0).

Definition sendInfoButtonPacket (button : string) (g : Globals) : Outcome (Z * Globals) :=
  let dataLength := Z.of_nat (length header) - 1 in
  let st := put_byte (strlen INFO_BUTTON + strlen button + 2) (packetBuf g, dataLength) in
  let st := put_text INFO_BUTTON st in
  let st := put_byte 0x20 st in
  let st := put_text button st in
  let st := put_byte 0x20 st in
  send_frame st g.

(** [button != DEGAUSS_BUTTON] compares the address of the popped
    command's array with that of a literal, so [TOGGLE] is always added. *)
Definition sendStatusButtonTogglePacket (button : string) (g : Globals)
  : Outcome (Z * Globals) :=
  let dataLength := Z.of_nat (length header) - 1 in
  let st := put_byte (strlen STATUS_SET + strlen button + strlen TOGGLE + 2)
              (packetBuf g, dataLength) in
  let st := put_text STATUS_SET st in
  let st := put_byte 0x20 st in
  let st := put_text button st in
  let st := put_byte 0x20 st in
  let st := put_text TOGGLE st in
  send_frame st g.

Definition sendInfoKnobPacket (knobcmd : string) (g : Globals) : Outcome (Z * Globals) :=
  let dataLength := Z.of_nat (length header) - 1 in
  let st := put_byte (strlen INFO_KNOB + strlen knobcmd + 1) (packetBuf g, dataLength) in
  let st := put_text INFO_KNOB st in
  let st := put_byte 0x20 st in
  let st := put_text knobcmd st in
  send_frame st g.

(** The command part of [loop] while the monitor is connected: pop one
    command and send it. *)
Definition loop_command (g : Globals) : Outcome Globals :=
  let '(cmd, q) := CmdQueue.pop (commandQueue g) in
  let g1 := set_commandQueue q g in
  match cmd with
  | None => Done g1
  | Some c =>
      let r :=
        match m_commandType c with
        | CT_INFO => sendInfoButtonPacket (m_command c) g1
        | CT_STATUS => sendStatusButtonTogglePacket (m_command c) g1
        | CT_INFOKNOB => sendInfoKnobPacket (m_command c) g1
        end in
      match r with
      | Done (_, g2) => Done g2
      | BufferOverflow n c => BufferOverflow n c
      end
  end.

(** ** Requests of the web interface: [handleReq] *)

(** The slashes and the four fields of a knob request; [None] stands for
    the [throw false] of the missing-slash case. *)
Definition knob_fields (url : string) : option (string * string * string * string) :=
  let p := indexOf "/"%char (sizeof_knobURL + 1) url in
  let p2 := indexOf "/"%char (p + 1) url in
  let p3 := indexOf "/"%char (p2 + 1) url in
  if negb (p =? -1) && negb (p2 =? -1) && negb (p3 =? -1) then
    Some (substring (strlen knobURL) p url,
          substring (p + 1) p2 url,
          substring (p2 + 1) p3 url,
          substring_from (p3 + 1) url)
  else None.

Definition valid_knob (knobstr : string) : bool :=
  String.eqb knobstr "PHASE" || String.eqb knobstr "CHROMA" ||
  String.eqb knobstr "BRIGHTNESS" || String.eqb knobstr "CONTRAST".

(** The text the format ["R %s 96/%d/%d"] (or ["R %s 96/-%d/%d"]) stands
    for, before [snprintf] cuts it.  The sketch hands the [String] object
    [knobstr] itself to [%s]; its text is taken here. *)
Definition knob_text (knobstr : string) (pos : bool) (factor value : Z) : string :=
  ("R " ++ knobstr ++ " 96/" ++ (if pos then EmptyString else "-") ++
   fmt_d factor ++ "/" ++ fmt_d value)%string.

(** Validation of the fields and construction of the command; [None]
    stands for [throw false]. *)
Definition knob_command (knobstr posstr factorstr valuestr : string) : option Command_t :=
  if negb (valid_knob knobstr) then None
  else
    let pos :=
      if String.eqb posstr "n" then Some false
      else if String.eqb posstr "p" then Some true
      else None in
    match pos with
    | None => None
    | Some pos =>
        let factor := toInt factorstr in
        let value := toInt valuestr in
        if (factor =? 0) || (value =? 0) then None
        else Some (mkCommand CT_INFOKNOB
                     (snprintf COMMAND_LEN (knob_text knobstr pos factor value)))
    end.

(** A toggle or info-push request: the rest of the URL is copied into the
    command with [strcpy] when the queue has room; the answer is the same
    either way. *)
Definition enqueue_text (ty : CommandType) (text : string) (g : Globals)
  : Outcome (Globals * list Output) :=
  if CmdQueue.getCount (commandQueue g) <? MAX_QUEUELEN then
    match strcpy COMMAND_LEN text with
    | Done m =>
        Done (set_commandQueue (CmdQueue.push (mkCommand ty m) (commandQueue g)) g,
              http_200_none)
    | BufferOverflow n c => BufferOverflow n c
    end
  else Done (g, http_200_none).

(** [handleReq(wlclient, url)]; [now] is what [millis] returns.  The result
    holds what is printed on [wlclient]. *)
Definition handleReq (wlclient : WiFiClient) (url : string) (now : Z) (g : Globals)
  : Outcome (Globals * list Output) :=
  if String.eqb url "/" then
    Done (g, http_200_content "text/html" MainPage)
  else if startsWith url toggleURL then
    enqueue_text CT_STATUS (substring_from (strlen toggleURL) url) g
  else if startsWith url infoPushURL then
    enqueue_text CT_INFO (substring_from (strlen infoPushURL) url) g
  else if startsWith url statusGetURL then
    let content := StatusJson (currentState g) (statusPacketNo g) in
    Done (set_statusPacketNo (i32 (statusPacketNo g + 1)) g,
          http_200_content "application/json" content)
  else if startsWith url statusWaitURL then
    if Waiters.getCount (statusWaiters g) <? MAX_WAITERS then
      let waiter := mkWaiter wlclient (u32 now) in
      Done (set_statusWaiters (Waiters.push waiter (statusWaiters g)) g, [])
    else Done (g, http_503)
  else if startsWith url knobURL then
    match knob_fields url with
    | None => Done (g, http_404)
    | Some (knobstr, posstr, factorstr, valuestr) =>
        match knob_command knobstr posstr factorstr valuestr with
        | None => Done (g, http_404)
        | Some cmd =>
            if CmdQueue.getCount (commandQueue g) <? MAX_QUEUELEN then
              Done (set_commandQueue (CmdQueue.push cmd (commandQueue g)) g,
                    http_200_none)
            else Done (g, http_503)
        end
    end
  else Done (g, http_404).

(** ** Delivery to the waiters: [checkStatusNotification] *)

(** [while(getCount() > 0) if(pop(w) != NULL) { ... 200 ... }]; the count
    drops by one in each round, so [n] rounds are the count on entry. *)
Fixpoint deliver_all (n : nat) (content : Content) (q : Waiters.WaiterQueue)
  : Waiters.WaiterQueue * list (nat * Output) :=
  match n with
  | O => (q, [])
  | S k =>
      if Waiters.getCount q >? 0 then
        match Waiters.pop q with
        | (Some w, q1) =>
            let '(q2, out) := deliver_all k content q1 in
            (q2, client_print (m_client w)
                   (http_200_content "application/json" content) ++ out)
        | (None, q1) => deliver_all k content q1
        end
      else (q, [])
  end.

(** [while(peek() != NULL) { if((ms - peek()->m_added_ms) < 30000) break;
    if(pop(w) != NULL) { ... 204 ... } }] *)
Fixpoint evict_old (n : nat) (ms : Z) (q : Waiters.WaiterQueue)
  : Waiters.WaiterQueue * list (nat * Output) :=
  match n with
  | O => (q, [])
  | S k =>
      match Waiters.peek q with
      | None => (q, [])
      | Some front =>
          if u32 (ms - m_added_ms front) <? 30000 then (q, [])
          else
            match Waiters.pop q with
            | (Some w, q1) =>
                let '(q2, out) := evict_old k ms q1 in
                (q2, client_print (m_client w) http_204 ++ out)
            | (None, q1) => evict_old k ms q1
            end
      end
  end.

(** [now] is what [millis] returns.  The result holds everything printed
    on the sockets of waiters, in order. *)
Definition checkStatusNotification (now : Z) (g : Globals)
  : Globals * list (nat * Output) :=
  let g1 :=
    if statusUpdated g then
      set_updateWaiters true
        (set_statusUpdated false (set_stateCopy (currentState g) g))
    else g in
  if negb (Waiters.getCount (statusWaiters g1) =? 0) then
    let n := Z.to_nat (Waiters.getCount (statusWaiters g1)) in
    if updateWaiters g1 then
      let content := StatusJson (currentState g1) (statusPacketNo g1) in
      let g2 := set_statusPacketNo (i32 (statusPacketNo g1 + 1)) g1 in
      let '(q, out) := deliver_all n content (statusWaiters g2) in
      (set_updateWaiters false (set_statusWaiters q g2), out)
    else
      let '(q, out) := evict_old n (u32 now) (statusWaiters g1) in
      (set_statusWaiters q g1, out)
  else (g1, []).

(** How many answers with the given status line a socket received. *)
Definition answers (status : string) (fd : nat) (out : list (nat * Output)) : nat :=
  length (List.filter (fun e =>
                    match e with
                    | (fd', Println l) => Nat.eqb fd fd' && String.eqb l status
                    | _ => false
                    end) out).

Definition deliveries (fd : nat) (out : list (nat * Output)) : nat :=
  answers "HTTP/1.1 200 OK" fd out.

Definition evictions (fd : nat) (out : list (nat * Output)) : nat :=
  answers "HTTP/1.1 204 No Content" fd out.

(** ** The command store of the first revision of the sketch

    Before [Queue<T>] existed the commands were kept in an array with a
    length: requests stored at index [m_queueLen], and [loop] took the
    entry at [m_queueLen - 1]. *)

Module FirstRevision.

Definition MAX_QUEUELEN : Z := 10.

Record CommandQueue_t : Type := mkCommandQueue {
  m_commands : list Command_t;
  m_queueLen : Z
}.

(** The store of a request in [handleReq]. *)
Definition enqueue (cmd : Command_t) (q : CommandQueue_t) : CommandQueue_t :=
  if m_queueLen q + 1 <? MAX_QUEUELEN then
    mkCommandQueue (<[Z.to_nat (m_queueLen q) := cmd]> (m_commands q))
                   (u8 (m_queueLen q + 1))
  else q.

(** The take of a command in [loop]. *)
Definition dequeue (q : CommandQueue_t) : option Command_t * CommandQueue_t :=
  if m_queueLen q >? 0 then
    (Some (m_commands q !!! Z.to_nat (m_queueLen q - 1)),
     mkCommandQueue (m_commands q) (u8 (m_queueLen q - 1)))
  else (None, q).

End FirstRevision.

(** ** Scenarios *)

(** The state a request leaves behind. *)
Definition after_request (wl : WiFiClient) (url : string) (now : Z) (g : Globals)
  : Globals :=
  match handleReq wl url now g with
  | Done (g', _) => g'
  | BufferOverflow _ _ => g
  end.

Definition idle_client : EthernetClient := mkClient [] [] [] true.

(** The state after eight accepted toggle requests. *)
Definition full_queue_state : Globals :=
  Nat.iter 8 (after_request (Some 1%nat) "/toggle/POWER" 0)
    (boot true (replicate 8 inhabitant) idle_client).

(** The frame the protocol expects for a knob command: the twelve header
    bytes, the length of the payload, and the payload [INFOknob], a space
    and the command text. *)
Definition knob_frame (prefix : list Z) (text : string) : list Z :=
  let payload := bytes_of (INFO_KNOB ++ " " ++ text)%string in
  prefix ++ [Z.of_nat (length payload)] ++ payload.

(** A status response: 29 bytes of preamble, then the given bytes. *)
Definition status_block (w : list Z) : list Z := replicate 29 0x20 ++ w.


(** ** The main loop: [waitLink] and [loop] *)

(** The assignments of [waitLink]: the state is marked down while the link
    is awaited and the link flag is raised once it is back.  The wait
    itself and the [stop] of the connection are not modelled. *)
Definition waitLink (g : Globals) : Globals :=
  let s := set_m_isValid false
             (set_m_connected false (set_m_linkUp false (currentState g))) in
  let g1 := set_statusUpdated true (set_currentState s g) in
  set_statusUpdated true
    (set_currentState (set_m_linkUp true (currentState g1)) g1).

(** One turn of [loop].  [linkOff] and [connected] are what
    [Ethernet.linkStatus] and [monitorClient.connected] report,
    [reconnected] is the connection as [connect] leaves it when the sketch
    has to reconnect, and [now], [now'] are what [millis] returns at the
    test of the poll period and after the poll. *)
Definition loop (linkOff connected : bool) (reconnected : EthernetClient)
    (now now' : Z) (g : Globals) : Outcome Globals :=
  let g1 := if linkOff then waitLink g else g in
  if negb connected then
    Done (connectMonitor now' (set_monitorClient reconnected g1))
  else
    match loop_command g1 with
    | Done g2 =>
        if u32 (u32 now - lastStatusUpdate_ms g2) >=? 150
        then Done (set_lastStatusUpdate_ms (u32 now') (updateStatus g2))
        else Done g2
    | BufferOverflow n c => BufferOverflow n c
    end.

(** The frames the protocol expects for a toggle and for an info button:
    the twelve header bytes, the length of the payload, and the payload. *)
Definition toggle_frame (prefix : list Z) (button : string) : list Z :=
  let payload := bytes_of (STATUS_SET ++ " " ++ button ++ " " ++ TOGGLE)%string in
  prefix ++ [Z.of_nat (length payload)] ++ payload.

Definition info_frame (prefix : list Z) (button : string) : list Z :=
  let payload := bytes_of (INFO_BUTTON ++ " " ++ button ++ " ")%string in
  prefix ++ [Z.of_nat (length payload)] ++ payload.

(** ** Sequences of queue operations *)

Inductive QueueOp (T : Type) : Type :=
| OpPush (t : T)
| OpPop
| OpPeek.
Arguments OpPush {T} t.
Arguments OpPop {T}.
Arguments OpPeek {T}.

(** The calls in order; the results of [pop] and [peek] are collected. *)
Fixpoint run_ops {T : Type} `{Inhabited T} (ops : list (QueueOp T))
    (q : CmdQueue.Queue T) : list (option T) * CmdQueue.Queue T :=
  match ops with
  | [] => ([], q)
  | OpPush t :: rest => run_ops rest (CmdQueue.push t q)
  | OpPop :: rest =>
      let '(r, q1) := CmdQueue.pop q in
      let '(rs, q2) := run_ops rest q1 in
      (r :: rs, q2)
  | OpPeek :: rest =>
      let '(rs, q2) := run_ops rest q in
      (CmdQueue.peek q :: rs, q2)
  end.

(** The same calls on a list that holds at most [cap] entries, oldest
    first: the reference the ring is compared with. *)
Fixpoint fifo_ops {T : Type} (cap : nat) (ops : list (QueueOp T)) (l : list T)
  : list (option T) * list T :=
  match ops with
  | [] => ([], l)
  | OpPush t :: rest =>
      fifo_ops cap rest (if (length l <? cap)%nat then l ++ [t] else l)
  | OpPop :: rest =>
      let '(rs, l2) := fifo_ops cap rest (tail l) in
      (head l :: rs, l2)
  | OpPeek :: rest =>
      let '(rs, l2) := fifo_ops cap rest l in
      (head l :: rs, l2)
  end.

(** ** Physical keys: [buttonHandler] *)

Definition INPUT_KEY_0 : Z := 34.
Definition INPUT_KEY_1 : Z := 14.
Definition INPUT_KEY_2 : Z := 12.
Definition INPUT_KEY_3 : Z := 13.
Definition INPUT_KEY_4 : Z := 25.
Definition INPUT_KEY_5 : Z := 26.
Definition INPUT_KEY_6 : Z := 27.
Definition INPUT_KEY_7 : Z := 35.
Definition INPUT_KEY_8 : Z := 32.
Definition INPUT_KEY_9 : Z := 33.
Definition INPUT_KEY_ENT : Z := 36.
Definition INPUT_KEY_DEL : Z := 39.
Definition NAV_KEY_UP : Z := 4.
Definition NAV_KEY_DOWN : Z := 22.
Definition NAV_KEY_MENU : Z := 15.
Definition NAV_KEY_ENTER : Z := 21.
Definition KEY_POWER : Z := 16.
Definition NUM_PHYSKEYS : Z := 17.

(** Each key: its pin and its bit in the key state. *)
Definition physicalKeys : list (Z * Z) :=
  [ (INPUT_KEY_0,   0x00000001);
    (INPUT_KEY_1,   0x00000002);
    (INPUT_KEY_2,   0x00000004);
    (INPUT_KEY_3,   0x00000008);
    (INPUT_KEY_4,   0x00000010);
    (INPUT_KEY_5,   0x00000020);
    (INPUT_KEY_6,   0x00000040);
    (INPUT_KEY_7,   0x00000080);
    (INPUT_KEY_8,   0x00000100);
    (INPUT_KEY_9,   0x00000200);
    (INPUT_KEY_DEL, 0x00000400);
    (INPUT_KEY_ENT, 0x00000800);
    (KEY_POWER,     0x00001000);
    (NAV_KEY_UP,    0x00002000);
    (NAV_KEY_DOWN,  0x00004000);
    (NAV_KEY_MENU,  0x00008000);
    (NAV_KEY_ENTER, 0x00010000) ].

Definition POWER_BUTTON : string := "POWER".
Definition DEGAUSS_BUTTON : string := "DEGAUSS".
Definition SCANMODE_BUTTON : string := "SCANMODE".
Definition HDELAY_BUTTON : string := "HDELAY".
Definition VDELAY_BUTTON : string := "VDELAY".
Definition MONOCHROME_BUTTON : string := "MONOCHR".
Definition APERTURE_BUTTON : string := "APERTURE".
Definition COMB_BUTTON : string := "COMB".
Definition CHAR_OFF_BUTTON : string := "CHARMUTE".
Definition COL_TEMP_BUTTON : string := "COLADJ".
Definition ASPECT_BUTTON : string := "ASPECT".
Definition EXTSYNC_BUTTON : string := "EXTSYNC".
Definition BLUE_ONLY_BUTTON : string := "BLUEONLY".
Definition R_CUTOFF_BUTTON : string := "RCUTOFF".
Definition G_CUTOFF_BUTTON : string := "GCUTOFF".
Definition B_CUTOFF_BUTTON : string := "BCUTOFF".
Definition MARKER_BUTTON : string := "MARKER".
Definition CHROMA_UP_BUTTON : string := "CHROMAUP".
Definition MAN_PHASE_BUTTON : string := "MANPHASE".
Definition MAN_CHROMA_BUTTON : string := "MANCHR".
Definition MAN_BRIGHT_BUTTON : string := "MANBRT".
Definition MAN_CONTRAST_BUTTON : string := "MANCONT".

Definition INFO_INP_ENTER : string := "ENTER".
Definition INFO_INP_DELETE : string := "DELETE".
Definition INFO_NAV_MENU : string := "MENU".
Definition INFO_NAV_MENUENT : string := "MENUENT".
Definition INFO_NAV_MENUUP : string := "MENUUP".
Definition INFO_NAV_MENUDOWN : string := "MENUDOWN".

(** The variables of the key scan: the two key states, and [ignore] of
    [buttonHandler]. *)
Record KeyScan : Type := mkKeyScan {
  physicalKeyState_prev : Z;
  physicalKeyState : Z;
  ignore : bool
}.

Definition keys_boot : KeyScan := mkKeyScan 0xFFFFFFFF 0 false.

(** The [switch] of [pushButton]: the command a pin stands for, [None] in
    the [default] case.  Every text is a literal shorter than
    [COMMAND_LEN], so [strcpy] leaves it in [m_command] as it is. *)
Definition key_command (buttonPushed : Z) : option Command_t :=
  if buttonPushed =? KEY_POWER then Some (mkCommand CT_STATUS POWER_BUTTON)
  else if buttonPushed =? INPUT_KEY_0 then Some (mkCommand CT_INFO "0")
  else if buttonPushed =? INPUT_KEY_1 then Some (mkCommand CT_INFO "1")
  else if buttonPushed =? INPUT_KEY_2 then Some (mkCommand CT_INFO "2")
  else if buttonPushed =? INPUT_KEY_3 then Some (mkCommand CT_INFO "3")
  else if buttonPushed =? INPUT_KEY_4 then Some (mkCommand CT_INFO "4")
  else if buttonPushed =? INPUT_KEY_5 then Some (mkCommand CT_INFO "5")
  else if buttonPushed =? INPUT_KEY_6 then Some (mkCommand CT_INFO "6")
  else if buttonPushed =? INPUT_KEY_7 then Some (mkCommand CT_INFO "7")
  else if buttonPushed =? INPUT_KEY_8 then Some (mkCommand CT_INFO "8")
  else if buttonPushed =? INPUT_KEY_9 then Some (mkCommand CT_INFO "9")
  else if buttonPushed =? INPUT_KEY_ENT then Some (mkCommand CT_INFO INFO_INP_ENTER)
  else if buttonPushed =? INPUT_KEY_DEL then Some (mkCommand CT_INFO INFO_INP_DELETE)
  else if buttonPushed =? NAV_KEY_MENU then Some (mkCommand CT_INFO INFO_NAV_MENU)
  else if buttonPushed =? NAV_KEY_ENTER then Some (mkCommand CT_INFO INFO_NAV_MENUENT)
  else if buttonPushed =? NAV_KEY_UP then Some (mkCommand CT_INFO INFO_NAV_MENUUP)
  else if buttonPushed =? NAV_KEY_DOWN then Some (mkCommand CT_INFO INFO_NAV_MENUDOWN)
  else None.

(** The lambda [pushButton]; the pair holds [ignore] and the globals. *)
Definition pushButton (buttonPushed : Z) (st : bool * Globals) : bool * Globals :=
  let '(ign, g) := st in
  if CmdQueue.getCount (commandQueue g) <? MAX_QUEUELEN then
    match key_command buttonPushed with
    | Some cmd =>
        (false,
         if negb ign
         then set_commandQueue (CmdQueue.push cmd (commandQueue g)) g
         else g)
    | None => (false, g)
    end
  else (ign, g).

(** One round of the [for] loop: the bit of the key follows its pin, and
    the key is pushed when its bit is set now and was clear in the
    previous scan.  [digitalRead] tells which pins read HIGH. *)
Definition scan_key (digitalRead : Z -> bool) (key : Z * Z)
    (st : KeyScan * Globals) : KeyScan * Globals :=
  let '(pin, mask) := key in
  let '(k, g) := st in
  let s :=
    if digitalRead pin then Z.lor (physicalKeyState k) mask
    else Z.land (physicalKeyState k) (u32 (Z.lnot mask)) in
  if negb (Z.land s mask =? 0) && (Z.land (physicalKeyState_prev k) mask =? 0)
  then
    let '(ign, g1) := pushButton pin (ignore k, g) in
    (mkKeyScan (physicalKeyState_prev k) s ign, g1)
  else (mkKeyScan (physicalKeyState_prev k) s (ignore k), g).

(** One pass of the [while(1)] of [buttonHandler]. *)
Definition buttonHandler_pass (digitalRead : Z -> bool) (st : KeyScan * Globals)
  : KeyScan * Globals :=
  let '(k, g) :=
    fold_left (fun acc key => scan_key digitalRead key acc) physicalKeys st in
  (mkKeyScan (physicalKeyState k) (physicalKeyState k) (ignore k), g).

(** The keys whose command a pass pushes when the queue has room: those
    that read HIGH and whose bit was clear in the previous scan. *)
Definition rising (digitalRead : Z -> bool) (prev : Z) (key : Z * Z) : bool :=
  digitalRead (fst key) && (Z.land prev (snd key) =? 0).

(** ** The status document: [addBool] and [addStatus] *)

Definition LF : string := String "010"%char EmptyString.
Definition CR : string := String "013"%char EmptyString.
Definition CRLF : string := String "013"%char (String "010"%char EmptyString).
Definition DQUOTE : string := String "034"%char EmptyString.

Definition addBool (content key : string) (val last : bool) : string :=
  let content := (content ++ DQUOTE)%string in
  let content := (content ++ key)%string in
  let content := (content ++ (DQUOTE ++ ":"))%string in
  let content := (content ++ (if val then "true" else "false"))%string in
  let content := if negb last then (content ++ ",")%string else content in
  (content ++ LF)%string.

(** [state] is the copy of [currentState] taken under the semaphore. *)
Definition addStatus (content : string) (state : State_t) (statusPacketNo : Z)
  : string :=
  let content := (content ++ ("{" ++ LF))%string in
  let content := (content ++ (DQUOTE ++ "m_linkUp" ++ DQUOTE ++ ":"))%string in
  let content := (content ++ (if m_linkUp state then "true" else "false"))%string in
  let content := (content ++ ("," ++ LF))%string in
  let content := (content ++ (DQUOTE ++ "m_connected" ++ DQUOTE ++ ":"))%string in
  let content := (content ++ (if m_connected state then "true" else "false"))%string in
  let content := (content ++ ("," ++ LF))%string in
  let content := (content ++ (DQUOTE ++ "m_isValid" ++ DQUOTE ++ ":"))%string in
  let content := (content ++ (if m_isValid state then "true" else "false"))%string in
  let content := (content ++ ("," ++ LF))%string in
  let content := (content ++ (DQUOTE ++ "m_packetNo" ++ DQUOTE ++ ":"))%string in
  let content := (content ++ fmt_d statusPacketNo)%string in
  let content := (content ++ ("," ++ LF))%string in
  let content := (content ++ (DQUOTE ++ "buttonStates" ++ DQUOTE ++ ":{" ++ LF))%string in
  let content := addBool content POWER_BUTTON (m_isPowered state) false in
  let content := addBool content SCANMODE_BUTTON (m_scanmode state) false in
  let content := addBool content HDELAY_BUTTON (m_hdelay state) false in
  let content := addBool content VDELAY_BUTTON (m_vdelay state) false in
  let content := addBool content CHAR_OFF_BUTTON (m_charmute state) false in
  let content := addBool content MONOCHROME_BUTTON (m_monochrome state) false in
  let content := addBool content MARKER_BUTTON (m_marker state) false in
  let content := addBool content EXTSYNC_BUTTON (m_extsync state) false in
  let content := addBool content APERTURE_BUTTON (m_apt state) false in
  let content := addBool content CHROMA_UP_BUTTON (m_chromaup state) false in
  let content := addBool content ASPECT_BUTTON (m_aspect state) false in
  let content := addBool content COL_TEMP_BUTTON (m_coltemp state) false in
  let content := addBool content COMB_BUTTON (m_comb state) false in
  let content := addBool content BLUE_ONLY_BUTTON (m_blueonly state) false in
  let content := addBool content R_CUTOFF_BUTTON (m_rcutoff state) false in
  let content := addBool content G_CUTOFF_BUTTON (m_gcutoff state) false in
  let content := addBool content B_CUTOFF_BUTTON (m_bcutoff state) false in
  let content := addBool content MAN_PHASE_BUTTON (m_man_phase state) false in
  let content := addBool content MAN_CHROMA_BUTTON (m_man_chroma state) false in
  let content := addBool content MAN_BRIGHT_BUTTON (m_man_bright state) false in
  let content := addBool content MAN_CONTRAST_BUTTON (m_man_contrast state) true in
  let content := (content ++ ("}" ++ LF))%string in
  (content ++ ("}" ++ LF))%string.

(** The text a [StatusJson] body stands for. *)
Definition status_text (state : State_t) (statusPacketNo : Z) : string :=
  addStatus EmptyString state statusPacketNo.

(** ** Reading a request: [webserverHandler] *)

(** What the peer of a web connection does during each coming
    millisecond: it sends bytes or it closes the connection. *)
Inductive NetEvent : Type :=
| Arrive (bytes : string)
| Hangup.

(** A web connection: its socket, the bytes received and not yet read,
    what the peer does next, and whether [connected] still holds. *)
Record WebClient : Type := mkWebClient {
  socket : WiFiClient;
  inbuf : string;
  events : list NetEvent;
  peer_open : bool
}.

Definition web_available (c : WebClient) : Z := Z.of_nat (String.length (inbuf c)).

Definition web_delay1 (c : WebClient) : WebClient :=
  match events c with
  | [] => c
  | Arrive bytes :: rest =>
      mkWebClient (socket c) (inbuf c ++ bytes)%string rest (peer_open c)
  | Hangup :: rest => mkWebClient (socket c) (inbuf c) rest false
  end.

Definition contentlengthstr : string := "Content-Length: ".

(** The locals of the handler: the line being read, the request, and the
    announced length of the body. *)
Record Reading : Type := mkReading {
  str : string;
  m_URL : string;
  m_content : string;
  contentLength : Z
}.

Definition Reading_new : Reading := mkReading EmptyString EmptyString EmptyString 0.

(** A complete line other than the empty one; [str] is cleared after. *)
Definition header_line (r : Reading) : Reading :=
  if startsWith (str r) "GET" then
    let s := substring 4 (indexOf " "%char 4 (str r)) (str r) in
    mkReading EmptyString s (m_content r) (contentLength r)
  else if startsWith (str r) contentlengthstr then
    let cl := substring (strlen contentlengthstr)
                (indexOf "013"%char 0 (str r)) (str r) in
    mkReading EmptyString (m_URL r) EmptyString (toInt cl)
  else mkReading EmptyString (m_URL r) (m_content r) (contentLength r).

Inductive Scan : Type :=
| MoreInput (r : Reading)
| HeadersDone (r : Reading) (rest : string).

(** [while (cl.available()) { c = cl.read(); str += c; ... }] up to the
    empty line or the end of the received bytes. *)
Fixpoint read_chars (input : string) (r : Reading) : Scan :=
  match input with
  | EmptyString => MoreInput r
  | String c rest =>
      let s := (str r ++ String c EmptyString)%string in
      let r1 := mkReading s (m_URL r) (m_content r) (contentLength r) in
      if Ascii.eqb c "010"%char then
        if String.eqb s CRLF then HeadersDone r1 rest
        else read_chars rest (header_line r1)
      else read_chars rest r1
  end.

Inductive Wait : Type :=
| Ready (c : WebClient)
| Gone
| Silent.

(** [while (cl.available() < contentLength) { delay(1);
    if(!cl.connected()) throw false; }]; [Silent] is a peer that stays
    connected and sends nothing more. *)
Fixpoint wait_body (n : nat) (need : Z) (c : WebClient) : Wait :=
  if web_available c <? need then
    match n with
    | O => Silent
    | S k =>
        let c1 := web_delay1 c in
        if negb (peer_open c1) then Gone else wait_body k need c1
    end
  else Ready c.

(** What became of a connection: [handleReq] was called with the request
    read, the handler gave up ([throw false]), or the peer stays connected
    and silent. *)
Inductive Served : Type :=
| Answered (r : Reading) (res : Outcome (Globals * list Output))
| Dropped
| Stalled.

(** The body is read when one was announced, then the request is
    handled. *)
Definition dispatch (c : WebClient) (r : Reading) (now : Z) (g : Globals) : Served :=
  if negb (contentLength r =? 0) then
    match wait_body (length (events c)) (contentLength r) c with
    | Ready c1 =>
        let body := String.substring 0 (Z.to_nat (contentLength r)) (inbuf c1) in
        let r1 := mkReading (str r) (m_URL r) (m_content r ++ body)%string
                    (contentLength r) in
        Answered r1 (handleReq (socket c) (m_URL r1) now g)
    | Gone => Dropped
    | Silent => Stalled
    end
  else Answered r (handleReq (socket c) (m_URL r) now g).

(** [while (!done) { if(!cl.connected()) throw false; ... delay(1); }];
    [n] bounds the rounds by the events the peer has left. *)
Fixpoint serve_loop (n : nat) (c : WebClient) (r : Reading) (now : Z) (g : Globals)
  : Served :=
  if negb (peer_open c) then Dropped
  else
    match read_chars (inbuf c) r with
    | HeadersDone r1 rest =>
        dispatch (mkWebClient (socket c) rest (events c) (peer_open c)) r1 now g
    | MoreInput r1 =>
        match n with
        | O => Stalled
        | S k =>
            serve_loop k
              (web_delay1 (mkWebClient (socket c) EmptyString (events c) (peer_open c)))
              r1 now g
        end
    end.

Definition serve (c : WebClient) (now : Z) (g : Globals) : Served :=
  serve_loop (length (events c)) c Reading_new now g.

(** One pass of the [while(true)] of [webserverHandler]: a client, when
    there is one, is served; then the waiters are looked after.
    [Completed] holds what was printed, on the client first; [Blocked] is
    a pass that does not end, the handler waiting on a silent client. *)
Inductive Pass : Type :=
| Completed (g : Globals) (out : list (nat * Output))
| Blocked
| Overrun (written capacity : Z).

Definition webserverHandler_pass (incoming : option WebClient) (now now' : Z)
    (g : Globals) : Pass :=
  let finish g1 out :=
    let '(g2, out2) := checkStatusNotification now' g1 in
    Completed g2 (out ++ out2) in
  match incoming with
  | Some c =>
      match serve c now g with
      | Answered _ (Done (g1, out)) => finish g1 (client_print (socket c) out)
      | Answered _ (BufferOverflow n cap) => Overrun n cap
      | Dropped => finish g []
      | Stalled => Blocked
      end
  | None => finish g []
  end.

(** The request a browser sends for [url], with further header lines. *)
Definition get_request (url : string) (headers : list string) : string :=
  ("GET " ++ url ++ " HTTP/1.1" ++ CRLF ++
   fold_right (fun h acc => h ++ CRLF ++ acc) CRLF headers)%string.

(** A character does not occur in a string. *)
Fixpoint lacks (ch : ascii) (s : string) : bool :=
  match s with
  | EmptyString => true
  | String c r => negb (Ascii.eqb c ch) && lacks ch r
  end.

(** A header line the handler passes over: it is not empty, and with its
    line end it starts neither with GET nor with Content-Length. *)
Definition plain_header (h : string) : bool :=
  lacks "010"%char h && negb (String.eqb h EmptyString) &&
  negb (startsWith (h ++ CRLF) "GET") &&
  negb (startsWith (h ++ CRLF) contentlengthstr).

(** ** The setup server: credentials in [setupWifi] and [setup] *)

(** [String::indexOf(const String&, unsigned int fromIndex)]: [-1] when
    [fromIndex] is not below the length, else
    [strstr(buffer() + fromIndex, s2.buffer())], a search in the text
    before the first NUL. *)
Definition indexOf_str (s2 : string) (fromIndex : Z) (s : string) : Z :=
  let from := u32 fromIndex in
  if from >=? Z.of_nat (String.length s) then -1
  else match String.index 0 (c_str s2) (c_str (buffer_from (Z.to_nat from) s)) with
       | Some i => from + Z.of_nat i
       | None => -1
       end.

Definition KEY_SSID : string := "ssid".
Definition KEY_PASSWORD : string := "password".

(** The namespace [credentials] of [Preferences]: keys with their
    values, the newest entry of a key first. *)
Definition Preferences : Type := list (string * string).

Definition isKey (key : string) (p : Preferences) : bool :=
  existsb (fun e => String.eqb (fst e) key) p.

Definition getString (key default : string) (p : Preferences) : string :=
  match List.find (fun e => String.eqb (fst e) key) p with
  | Some e => snd e
  | None => default
  end.

Definition putString (key value : string) (p : Preferences) : Preferences :=
  (key, value) :: p.

(** The two fields of the body of a [/setup] request. *)
Definition setup_fields (content : string) : string * string :=
  let b := indexOf "="%char 0 content in
  let p := indexOf_str CRLF (b + 1) content in
  let ssid := substring (b + 1) p content in
  let b := indexOf "="%char (p + 1) content in
  let p := indexOf_str CRLF (b + 1) content in
  let psk := substring (b + 1) p content in
  (ssid, psk).

(** The answers of the setup server: status lines, or the setup page. *)
Inductive SetupOutput : Type :=
| SetupLine (line : string)
| SetupPageLength
| SetupPage.

(** The request handling of [setupWifi]: what is printed, the preferences
    after, and whether the board restarts. *)
Definition setup_request (url content : string) (p : Preferences)
  : list SetupOutput * Preferences * bool :=
  if String.eqb url "/" then
    ([SetupLine "HTTP/1.1 200 OK"; SetupLine "Content-Type: text/html";
      SetupPageLength; SetupLine "Connection: close"; SetupLine EmptyString;
      SetupPage], p, false)
  else if String.eqb url "/setup" then
    let '(ssid, psk) := setup_fields content in
    if negb (String.eqb ssid EmptyString) then
      ([SetupLine "HTTP/1.1 200 OK"; SetupLine "Content-Type: none";
        SetupLine "Connection: close"],
       putString KEY_PASSWORD psk (putString KEY_SSID ssid p), true)
    else
      ([SetupLine "HTTP/1.1 400 Bad Request"; SetupLine "Content-Type: none";
        SetupLine "Connection: close"], p, false)
  else
    ([SetupLine "HTTP/1.1 404 Not Found"; SetupLine "Connection: close"], p, false).

(** The body the setup page sends. *)
Definition setup_body (ssid psk : string) : string :=
  ("ssid=" ++ ssid ++ CRLF ++ "psk=" ++ psk ++ CRLF)%string.

(** The mode [setup] chooses. *)
Record WifiSetup : Type := mkWifiSetup {
  wifiEnabled : bool;
  settingUp : bool;
  ssid : string;
  password : string
}.

(** The part of [setup] that decides between station mode and the setup
    access point.  [disableWifi] and [forceSetup] tell whether the pins
    DISABLE_WIFI and FORCE_SETUP read LOW. *)
Definition setup_credentials (disableWifi forceSetup : bool) (p : Preferences)
  : WifiSetup :=
  let wifiEnabled := negb disableWifi in
  let settingUp := forceSetup in
  if wifiEnabled then
    if settingUp then mkWifiSetup wifiEnabled settingUp EmptyString EmptyString
    else if negb (isKey KEY_SSID p) then
      mkWifiSetup wifiEnabled true EmptyString EmptyString
    else
      let ssid := getString KEY_SSID EmptyString p in
      let settingUp := if String.eqb ssid EmptyString then true else settingUp in
      mkWifiSetup wifiEnabled settingUp ssid (getString KEY_PASSWORD EmptyString p)
  else mkWifiSetup wifiEnabled settingUp EmptyString EmptyString.

(** ** Which variables a task writes *)

(** The variables of the monitor task are as before. *)
Definition monitor_side_kept (g g' : Globals) : Prop :=
  currentState g' = currentState g /\
  (statusw1 g', statusw2 g', statusw3 g', statusw4 g', statusw5 g')
    = (statusw1 g, statusw2 g, statusw3 g, statusw4 g, statusw5 g) /\
  (_statusw1 g', _statusw2 g', _statusw3 g', _statusw4 g', _statusw5 g')
    = (_statusw1 g, _statusw2 g, _statusw3 g, _statusw4 g, _statusw5 g) /\
  status_response g' = status_response g /\
  button_response g' = button_response g /\
  packetBuf g' = packetBuf g /\
  wait_ms g' = wait_ms g /\
  lastStatusUpdate_ms g' = lastStatusUpdate_ms g /\
  monitorClient g' = monitorClient g.

(** The variables of the web task are as before. *)
Definition web_side_kept (g g' : Globals) : Prop :=
  stateCopy g' = stateCopy g /\
  updateWaiters g' = updateWaiters g /\
  statusPacketNo g' = statusPacketNo g /\
  statusWaiters g' = statusWaiters g.

(** A registry that holds no waiter: the count is zero and no slot keeps
    a socket. *)
Definition registry_idle (q : Waiters.WaiterQueue) : Prop :=
  Waiters.m_maxCount q = MAX_WAITERS /\
  Waiters.m_count q = 0 /\
  0 <= Waiters.m_tail q < MAX_WAITERS /\
  length (Waiters.m_waiters q) = Z.to_nat MAX_WAITERS /\
  Waiters.held q = [].

(** The state after a run of [checkStatusNotification] at each of the
    given times. *)
Definition after_checks (times : list Z) (g : Globals) : Globals :=
  fold_left (fun acc t => fst (checkStatusNotification t acc)) times g.

(** ** Reading the key table *)

(** The keys with the number of their bit. *)
Definition key_bits : list (Z * Z) :=
  [ (INPUT_KEY_0, 0); (INPUT_KEY_1, 1); (INPUT_KEY_2, 2); (INPUT_KEY_3, 3);
    (INPUT_KEY_4, 4); (INPUT_KEY_5, 5); (INPUT_KEY_6, 6); (INPUT_KEY_7, 7);
    (INPUT_KEY_8, 8); (INPUT_KEY_9, 9); (INPUT_KEY_DEL, 10);
    (INPUT_KEY_ENT, 11); (KEY_POWER, 12); (NAV_KEY_UP, 13);
    (NAV_KEY_DOWN, 14); (NAV_KEY_MENU, 15); (NAV_KEY_ENTER, 16) ].

Definition key_mask (e : Z * Z) : Z * Z := (fst e, 2 ^ snd e).

(** What [pushButton] does with the command of a key. *)
Definition push_if_room (cmd : Command_t) (g : Globals) : Globals :=
  if CmdQueue.getCount (commandQueue g) <? MAX_QUEUELEN
  then set_commandQueue (CmdQueue.push cmd (commandQueue g)) g
  else g.

(** The key state after the bits of the given keys were set from their
    pins. *)
Definition keys_read (digitalRead : Z -> bool) (kb : list (Z * Z)) (s : Z) : Z :=
  fold_left (fun acc e =>
               if digitalRead (fst e) then Z.lor acc (2 ^ snd e)
               else Z.land acc (u32 (Z.lnot (2 ^ snd e)))) kb s.

(** The commands of the keys that rise, in the order of the table. *)
Definition rising_commands (digitalRead : Z -> bool) (prev : Z)
    (keys : list (Z * Z)) : list Command_t :=
  omap (fun key => key_command (fst key))
       (List.filter (rising digitalRead prev) keys).

(** ** The knob requests of the main page *)

(** The URL the script [turnKnob] of the main page opens: the radio value
    [v] is sent both as factor and as ticks. *)
Definition page_knob_url (knob : string) (positive : bool) (v : string) : string :=
  (knobURL ++ knob ++ "/" ++ (if positive then "p/" else "n/") ++ v ++ "/" ++ v)%string.

(** The names [addKnob] is called with, and the values of its radio
    buttons. *)
Definition page_knobs : list string := ["PHASE"; "CHROMA"; "BRIGHTNESS"; "CONTRAST"].
Definition page_knob_values : list string := ["1"; "10"; "100"].

(** ** Runs of the first revision's command store *)

Definition first_revision_enqueue_all (cmds : list Command_t)
    (q : FirstRevision.CommandQueue_t) : FirstRevision.CommandQueue_t :=
  fold_left (fun acc c => FirstRevision.enqueue c acc) cmds q.

(** [n] turns of [loop]: what each of them takes from the store. *)
Fixpoint first_revision_dequeue_n (n : nat) (q : FirstRevision.CommandQueue_t)
  : list (option Command_t) * FirstRevision.CommandQueue_t :=
  match n with
  | O => ([], q)
  | S k =>
      let '(r, q1) := FirstRevision.dequeue q in
      let '(rs, q2) := first_revision_dequeue_n k q1 in
      (r :: rs, q2)
  end.

(** The commands the store holds, oldest first. *)
Definition first_revision_held (q : FirstRevision.CommandQueue_t) : list Command_t :=
  take (Z.to_nat (FirstRevision.m_queueLen q)) (FirstRevision.m_commands q).

(** ** Knobs in the first revision of the sketch

    The first revision kept knob requests as numbers and built their
    text only when sending: [handleReq] stored a [KnobAction_t], [loop]
    took the newest and called [turnKnob].  Its [packetBuf] had 40
    bytes. *)

Inductive Knobs : Type := KNOB_PHASE | KNOB_CHROMA | KNOB_BRIGHT | KNOB_CONTRAST.

Record KnobAction_t : Type := mkKnobAction {
  m_knob : Knobs;
  m_positive : bool;
  m_factor : Z;
  m_value : Z
}.

Definition i8 (x : Z) : Z := (x + 128) mod 256 - 128.

Definition INFO_KNOB_PHASE : string := "R PHASE".
Definition INFO_KNOB_CHROMA : string := "R CHROMA".
Definition INFO_KNOB_BRIGHTNESS : string := "R BRIGHTNESS".
Definition INFO_KNOB_CONTRAST : string := "R CONTRAST".

Definition first_revision_sizeof_packetBuf : Z := 40.

(** The knob branch of the first [handleReq], from the four fields of the
    URL to the stored action; [None] stands for [throw false].  The
    factor and the ticks are stored in [uint8_t] members. *)
Definition first_revision_knob_action (knobstr posstr factorstr valuestr : string)
  : option KnobAction_t :=
  let knob :=
    if String.eqb knobstr "PHASE" then Some KNOB_PHASE
    else if String.eqb knobstr "CHROMA" then Some KNOB_CHROMA
    else if String.eqb knobstr "BRIGHTNESS" then Some KNOB_BRIGHT
    else if String.eqb knobstr "CONTRAST" then Some KNOB_CONTRAST
    else None in
  match knob with
  | None => None
  | Some knob =>
      let pos :=
        if String.eqb posstr "n" then Some false
        else if String.eqb posstr "p" then Some true
        else None in
      match pos with
      | None => None
      | Some pos =>
          let factor := toInt factorstr in
          let value := toInt valuestr in
          if (factor =? 0) || (value =? 0) then None
          else Some (mkKnobAction knob pos (u8 factor) (u8 value))
      end
  end.

(** [turnKnob(knob, dir, ticks)] up to the call of [write]: the text
    [knobStatus], the buffer and [dataLength]. *)
Definition first_revision_knobStatus (dir ticks : Z) : string :=
  snprintf 20 ("96/" ++ fmt_d dir ++ "/" ++ fmt_d ticks)%string.

Definition first_revision_knobstr (knob : Knobs) : string :=
  match knob with
  | KNOB_PHASE => INFO_KNOB_PHASE
  | KNOB_CHROMA => INFO_KNOB_CHROMA
  | KNOB_BRIGHT => INFO_KNOB_BRIGHTNESS
  | KNOB_CONTRAST => INFO_KNOB_CONTRAST
  end.

Definition first_revision_turnKnob (knob : Knobs) (dir ticks : Z)
    (packetBuf : list Z) : list Z * Z :=
  let dataLength := Z.of_nat (length header) - 1 in
  let knobStatus := first_revision_knobStatus dir ticks in
  let knobstr := first_revision_knobstr knob in
  let st := put_byte (strlen INFO_KNOB + strlen knobstr + strlen knobStatus + 2)
              (packetBuf, dataLength) in
  let st := put_text INFO_KNOB st in
  let st := put_byte 0x20 st in
  let st := put_text knobstr st in
  let st := put_byte 0x20 st in
  put_text knobStatus st.

(** The call of [turnKnob] in the first [loop]: the direction is the
    factor, negated for a backward turn, passed as an [int8_t]. *)
Definition first_revision_turn (a : KnobAction_t) (packetBuf : list Z)
  : list Z * Z :=
  first_revision_turnKnob (m_knob a)
    (i8 (m_factor a * (if m_positive a then 1 else -1))) (m_value a) packetBuf.

(** ** The revision before the physical keys

    The earlier revision of the sketch that already has [Queue<T>] and
    the knob commands differs on the way from a request to a frame in two
    sizes: [snprintf] is given the size 20 for the text of a knob
    command, and [packetBuf] has 40 bytes.  Its globals are the ones of
    [Globals]; [MainPage] stands for its own main page. *)
Module IntermediateRevision.

Definition sizeof_packetBuf : Z := 40.

(** The part the three send functions share, as above. *)
Definition send_frame (st : list Z * Z) (g : Globals) : Outcome (Z * Globals) :=
  let '(buf, dataLength) := st in
  if dataLength >? sizeof_packetBuf then BufferOverflow dataLength sizeof_packetBuf
  else
    let g0 := set_packetBuf buf g in
    let '(n, cl) := client_write (take (Z.to_nat dataLength) buf) (monitorClient g0) in
    if n =? dataLength then
      let '(cl1, w) :=
        wait_available (Z.to_nat RECV_TIMEOUT) sizeof_button_response cl 0 in
      if w >=? RECV_TIMEOUT then
        Done (1, set_wait_ms w (set_monitorClient cl1 g0))
      else
        let '(cl2, resp) :=
          read_into (Z.to_nat sizeof_button_response) 0 cl1 (button_response g0) in
        Done (0, set_button_response resp
                   (set_wait_ms w (set_monitorClient cl2 g0)))
    else Done (1, set_monitorClient cl g0).

Definition sendInfoButtonPacket (button : string) (g : Globals) : Outcome (Z * Globals) :=
  let dataLength := Z.of_nat (length header) - 1 in
  let st := put_byte (strlen INFO_BUTTON + strlen button + 2) (packetBuf g, dataLength) in
  let st := put_text INFO_BUTTON st in
  let st := put_byte 0x20 st in
  let st := put_text button st in
  let st := put_byte 0x20 st in
  send_frame st g.

(** [TOGGLE] is added without a test in this revision. *)
Definition sendStatusButtonTogglePacket (button : string) (g : Globals)
  : Outcome (Z * Globals) :=
  let dataLength := Z.of_nat (length header) - 1 in
  let st := put_byte (strlen STATUS_SET + strlen button + strlen TOGGLE + 2)
              (packetBuf g, dataLength) in
  let st := put_text STATUS_SET st in
  let st := put_byte 0x20 st in
  let st := put_text button st in
  let st := put_byte 0x20 st in
  let st := put_text TOGGLE st in
  send_frame st g.

Definition sendInfoKnobPacket (knobcmd : string) (g : Globals) : Outcome (Z * Globals) :=
  let dataLength := Z.of_nat (length header) - 1 in
  let st := put_byte (strlen INFO_KNOB + strlen knobcmd + 1) (packetBuf g, dataLength) in
  let st := put_text INFO_KNOB st in
  let st := put_byte 0x20 st in
  let st := put_text knobcmd st in
  send_frame st g.

Definition loop_command (g : Globals) : Outcome Globals :=
  let '(cmd, q) := CmdQueue.pop (commandQueue g) in
  let g1 := set_commandQueue q g in
  match cmd with
  | None => Done g1
  | Some c =>
      let r :=
        match m_commandType c with
        | CT_INFO => sendInfoButtonPacket (m_command c) g1
        | CT_STATUS => sendStatusButtonTogglePacket (m_command c) g1
        | CT_INFOKNOB => sendInfoKnobPacket (m_command c) g1
        end in
      match r with
      | Done (_, g2) => Done g2
      | BufferOverflow n c => BufferOverflow n c
      end
  end.

(** The same checks, then [snprintf] with the size 20 and the format
    ["R %s 96/%s%d/%d"], whose second [%s] is the empty text for a
    forward turn and ["-"] for a backward one. *)
Definition knob_command (knobstr posstr factorstr valuestr : string) : option Command_t :=
  if negb (valid_knob knobstr) then None
  else
    let pos :=
      if String.eqb posstr "n" then Some false
      else if String.eqb posstr "p" then Some true
      else None in
    match pos with
    | None => None
    | Some pos =>
        let factor := toInt factorstr in
        let value := toInt valuestr in
        if (factor =? 0) || (value =? 0) then None
        else Some (mkCommand CT_INFOKNOB
                     (snprintf 20 (knob_text knobstr pos factor value)))
    end.

Definition handleReq (wlclient : WiFiClient) (url : string) (now : Z) (g : Globals)
  : Outcome (Globals * list Output) :=
  if String.eqb url "/" then
    Done (g, http_200_content "text/html" MainPage)
  else if startsWith url toggleURL then
    enqueue_text CT_STATUS (substring_from (strlen toggleURL) url) g
  else if startsWith url infoPushURL then
    enqueue_text CT_INFO (substring_from (strlen infoPushURL) url) g
  else if startsWith url statusGetURL then
    let content := StatusJson (currentState g) (statusPacketNo g) in
    Done (set_statusPacketNo (i32 (statusPacketNo g + 1)) g,
          http_200_content "application/json" content)
  else if startsWith url statusWaitURL then
    if Waiters.getCount (statusWaiters g) <? MAX_WAITERS then
      let waiter := mkWaiter wlclient (u32 now) in
      Done (set_statusWaiters (Waiters.push waiter (statusWaiters g)) g, [])
    else Done (g, http_503)
  else if startsWith url knobURL then
    match knob_fields url with
    | None => Done (g, http_404)
    | Some (knobstr, posstr, factorstr, valuestr) =>
        match knob_command knobstr posstr factorstr valuestr with
        | None => Done (g, http_404)
        | Some cmd =>
            if CmdQueue.getCount (commandQueue g) <? MAX_QUEUELEN then
              Done (set_commandQueue (CmdQueue.push cmd (commandQueue g)) g,
                    http_200_none)
            else Done (g, http_503)
        end
    end
  else Done (g, http_404).

(** The variables after [setup]: as in [boot], with the smaller
    [packetBuf]. *)
Definition boot (linkUp : bool) (mem : list Command_t) (cl : EthernetClient) : Globals :=
  set_packetBuf (header ++ replicate 27 0) (boot linkUp mem cl).

End IntermediateRevision.
(** * Properties *)

Lemma u8_small x : 0 <= x < 256 -> u8 x = x.
Proof. intros H. unfold u8. apply Z.mod_small. lia. Qed.

Lemma mod_wrap_once x m :
  0 < m -> 0 <= x < 2 * m -> x mod m = if x <? m then x else x - m.
Proof.
  intros Hm Hx. destruct (x <? m) eqn:E.
  - apply Z.ltb_lt in E. apply Z.mod_small. lia.
  - apply Z.ltb_ge in E.
    replace x with ((x - m) + 1 * m) at 1 by lia.
    rewrite Z.mod_add by lia. apply Z.mod_small. lia.
Qed.

(** Boolean comparisons on [Z] turned into propositions. *)
Ltac zprop :=
  repeat match goal with
  | H : (_ >? _) = _ |- _ => rewrite Z.gtb_ltb in H
  | H : (_ >=? _) = _ |- _ => rewrite Z.geb_leb in H
  | H : (_ <? _) = true |- _ => apply Z.ltb_lt in H
  | H : (_ <? _) = false |- _ => apply Z.ltb_ge in H
  | H : (_ <=? _) = true |- _ => apply Z.leb_le in H
  | H : (_ <=? _) = false |- _ => apply Z.leb_gt in H
  | H : (_ =? _) = true |- _ => apply Z.eqb_eq in H
  | H : (_ =? _) = false |- _ => apply Z.eqb_neq in H
  end.

Ltac zcases :=
  repeat match goal with
  | |- context [?a <? ?b] => destruct (a <? b) eqn:?
  | |- context [?a <=? ?b] => destruct (a <=? b) eqn:?
  | |- context [?a >? ?b] => destruct (a >? b) eqn:?
  | |- context [?a >=? ?b] => destruct (a >=? b) eqn:?
  | |- context [?a =? ?b] => destruct (a =? b) eqn:?
  end; zprop.

(** ** The ring buffer refines a FIFO list *)

Module CmdQueueFacts.
Import CmdQueue.
Section RingFacts.
Context {T : Type} `{Inhabited T}.

Lemma Queue_new_wf queueLen (mem : list T) :
  0 < queueLen <= 255 ->
  Z.of_nat (length mem) = queueLen ->
  wf (Queue_new queueLen mem).
Proof.
  intros Hq Hl. unfold Queue_new. rewrite u8_small by lia.
  constructor; simpl; try lia.
  rewrite Z.mod_0_l; lia.
Qed.

Lemma contents_length (q : Queue T) :
  0 <= m_count q -> Z.of_nat (length (contents q)) = m_count q.
Proof.
  intros Hc. unfold contents. rewrite length_map, length_seq. lia.
Qed.

Lemma push_full (q : Queue T) (t : T) : m_count q + 1 > m_maxCount q -> push t q = q.
Proof.
  intros Hf. unfold push.
  destruct (m_count q + 1 >? m_maxCount q) eqn:E; [reflexivity|].
  zprop. lia.
Qed.

Lemma push_wf (q : Queue T) (t : T) : wf q -> wf (push t q).
Proof.
  intros [Hm Hl Ht Hc Hh]. unfold push.
  destruct (m_count q + 1 >? m_maxCount q) eqn:E; [constructor; assumption|].
  zprop.
  assert (Hhd : 0 <= m_head q < m_maxCount q)
    by (rewrite Hh; apply Z.mod_pos_bound; lia).
  rewrite !u8_small by lia.
  constructor; simpl; try lia.
  - rewrite length_insert. exact Hl.
  - rewrite Hh.
    rewrite (mod_wrap_once (m_tail q + m_count q)) by lia.
    rewrite (mod_wrap_once (m_tail q + (m_count q + 1))) by lia.
    zcases; lia.
Qed.

(** A push into a buffer that is not full appends to the contents. *)
Lemma push_contents (q : Queue T) (t : T) :
  wf q -> m_count q < m_maxCount q ->
  contents (push t q) = contents q ++ [t].
Proof.
  intros [Hm Hl Ht Hc Hh] Hlt. unfold push.
  destruct (m_count q + 1 >? m_maxCount q) eqn:E.
  { zprop. lia. }
  assert (Hhd : 0 <= m_head q < m_maxCount q)
    by (rewrite Hh; apply Z.mod_pos_bound; lia).
  unfold contents, slot_at. simpl.
  rewrite (u8_small (m_count q + 1)) by lia.
  replace (Z.to_nat (m_count q + 1)) with (S (Z.to_nat (m_count q))) by lia.
  rewrite seq_S, map_app. simpl. f_equal.
  - apply map_ext_in. intros i Hi. apply in_seq in Hi.
    apply list_lookup_total_insert_ne.
    rewrite Hh.
    rewrite (mod_wrap_once (m_tail q + m_count q)) by lia.
    rewrite (mod_wrap_once (m_tail q + Z.of_nat i)) by lia.
    zcases; lia.
  - f_equal. rewrite Z2Nat.id by lia. rewrite <- Hh.
    apply list_lookup_total_insert_eq. lia.
Qed.

Lemma push_count (q : Queue T) (t : T) :
  wf q -> m_count q < m_maxCount q -> m_count (push t q) = m_count q + 1.
Proof.
  intros [Hm Hl Ht Hc Hh] Hlt. unfold push.
  destruct (m_count q + 1 >? m_maxCount q) eqn:E.
  { zprop. lia. }
  simpl. apply u8_small. lia.
Qed.

Lemma push_maxCount (q : Queue T) (t : T) : m_maxCount (push t q) = m_maxCount q.
Proof. unfold push. destruct (_ >? _); reflexivity. Qed.

Lemma pop_empty (q : Queue T) : m_count q = 0 -> pop q = (None, q).
Proof. intros E. unfold pop. rewrite E. reflexivity. Qed.

(** A pop from a non-empty buffer returns the oldest entry and leaves
    the others in their order. *)
Lemma pop_contents (q : Queue T) :
  wf q -> 0 < m_count q ->
  exists t q',
    pop q = (Some t, q') /\ contents q = t :: contents q' /\ wf q' /\
    m_count q' = m_count q - 1 /\ m_maxCount q' = m_maxCount q.
Proof.
  intros [Hm Hl Ht Hc Hh] Hpos. unfold pop.
  destruct (m_count q =? 0) eqn:E.
  { zprop. lia. }
  eexists. eexists. split; [reflexivity|].
  rewrite (u8_small (m_tail q + 1)) by lia.
  rewrite (u8_small (m_count q - 1)) by lia.
  assert (Htl : (if m_tail q + 1 >=? m_maxCount q then 0 else m_tail q + 1)
                = (m_tail q + 1) mod m_maxCount q).
  { rewrite mod_wrap_once by lia. zcases; lia. }
  rewrite Htl.
  assert (Hb : 0 <= (m_tail q + 1) mod m_maxCount q < m_maxCount q)
    by (apply Z.mod_pos_bound; lia).
  split; [|split; [|split; [reflexivity|reflexivity]]].
  - unfold contents, slot_at. simpl.
    replace (Z.to_nat (m_count q)) with (S (Z.to_nat (m_count q - 1))) by lia.
    simpl. f_equal.
    + rewrite Z.add_0_r, Z.mod_small by lia. reflexivity.
    + rewrite <- seq_shift, map_map. apply map_ext. intros i.
      rewrite Z.add_mod_idemp_l by lia.
      replace (m_tail q + 1 + Z.of_nat i) with (m_tail q + Z.of_nat (S i)) by lia.
      reflexivity.
  - constructor; simpl; try lia.
    rewrite Hh. rewrite Z.add_mod_idemp_l by lia. f_equal. lia.
Qed.

Lemma push_all_contents (ts : list T) : forall q : Queue T,
  wf q -> m_count q + Z.of_nat (length ts) <= m_maxCount q ->
  wf (push_all ts q) /\
  contents (push_all ts q) = contents q ++ ts /\
  m_count (push_all ts q) = m_count q + Z.of_nat (length ts).
Proof.
  induction ts as [|t ts IH]; intros q Hwf Hlen.
  - simpl. rewrite app_nil_r. split; [assumption|]. split; [reflexivity|lia].
  - change (push_all (t :: ts) q) with (push_all ts (push t q)).
    rewrite length_cons, Nat2Z.inj_succ in *.
    assert (Hlt : m_count q < m_maxCount q) by lia.
    pose proof (push_wf q t Hwf) as Hwf1.
    pose proof (push_contents q t Hwf Hlt) as Hc1.
    pose proof (push_count q t Hwf Hlt) as Hcnt.
    pose proof (push_maxCount q t) as Hmax.
    destruct (IH (push t q) Hwf1) as (W & C & N); [lia|].
    split; [exact W|]. split.
    + rewrite C, Hc1, <- app_assoc. reflexivity.
    + rewrite N. lia.
Qed.

Lemma pop_n_contents n : forall q : Queue T,
  wf q -> Z.of_nat n = m_count q ->
  exists q', pop_n n q = (map Some (contents q), q') /\
             wf q' /\ m_count q' = 0.
Proof.
  induction n as [|n IH]; intros q Hwf Hn.
  - exists q. simpl. unfold contents. rewrite <- Hn. simpl.
    split; [reflexivity|]. split; [assumption|lia].
  - destruct (pop_contents q Hwf) as (t & q1 & Hp & Hc & Hw1 & Hn1 & _); [lia|].
    destruct (IH q1 Hw1) as (q2 & Hp2 & Hw2 & Hz); [lia|].
    exists q2. simpl. rewrite Hp, Hp2, Hc.
    split; [reflexivity|]. split; assumption.
Qed.

End RingFacts.
End CmdQueueFacts.

(** ** The command queue is first-in first-out *)

(** C1. Starting from an empty command queue of capacity [MAX_QUEUELEN],
    pushing at most [MAX_QUEUELEN] commands and then popping as many times
    returns exactly the pushed commands, in the order of the pushes, and
    leaves the queue empty: [pop] takes the oldest entry that was pushed and
    not yet popped. *)
Theorem command_queue_fifo (q : CmdQueue.Queue Command_t) (cs : list Command_t) :
  CmdQueue.wf q ->
  CmdQueue.m_maxCount q = MAX_QUEUELEN ->
  CmdQueue.m_count q = 0 ->
  Z.of_nat (length cs) <= MAX_QUEUELEN ->
  exists q',
    CmdQueue.pop_n (length cs) (CmdQueue.push_all cs q) = (map Some cs, q') /\
    CmdQueue.m_count q' = 0 /\
    CmdQueue.pop q' = (None, q').
Proof.
  intros Hwf Hmax Hempty Hlen.
  destruct (CmdQueueFacts.push_all_contents cs q Hwf) as (W & C & N); [lia|].
  destruct (CmdQueueFacts.pop_n_contents (length cs) (CmdQueue.push_all cs q) W)
    as (q' & Hp & Hw' & Hz); [lia|].
  exists q'. split; [|split].
  - rewrite Hp, C. unfold CmdQueue.contents. rewrite Hempty. reflexivity.
  - exact Hz.
  - apply CmdQueueFacts.pop_empty. exact Hz.
Qed.

Lemma command_queue_fifo_witness :
  let c1 := mkCommand CT_STATUS "POWER" in
  let c2 := mkCommand CT_INFO "MENU" in
  let c3 := mkCommand CT_INFOKNOB "R PHASE 96/10/5" in
  let q := CmdQueue.Queue_new MAX_QUEUELEN (replicate 8 inhabitant) in
  exists q',
    CmdQueue.pop_n 3 (CmdQueue.push_all [c1; c2; c3] q)
      = ([Some c1; Some c2; Some c3], q') /\
    CmdQueue.m_count q' = 0 /\
    CmdQueue.pop q' = (None, q').
Proof.
  intros c1 c2 c3 q.
  apply (command_queue_fifo q [c1; c2; c3]).
  - constructor; cbn; change (u8 MAX_QUEUELEN) with 8; first [lia | reflexivity].
  - reflexivity.
  - reflexivity.
  - unfold MAX_QUEUELEN. cbn. lia.
Defined.

(** The first revision of the sketch took the newest command instead. *)
Lemma first_revision_pops_newest (a b : Command_t) (mem : list Command_t) :
  length mem = 10%nat ->
  let q := FirstRevision.mkCommandQueue mem 0 in
  fst (FirstRevision.dequeue (FirstRevision.enqueue b (FirstRevision.enqueue a q)))
  = Some b.
Proof.
  intros Hlen q.
  change (FirstRevision.enqueue b (FirstRevision.enqueue a q))
    with (FirstRevision.mkCommandQueue (<[1%nat:=b]> (<[0%nat:=a]> mem)) 2).
  change (fst (FirstRevision.dequeue ?x))
    with (Some ((<[1%nat:=b]> (<[0%nat:=a]> mem)) !!! 1%nat)).
  f_equal. apply list_lookup_total_insert_eq.
  rewrite length_insert, Hlen. lia.
Qed.

(** ** Routing of requests *)

Lemma prefix_cons a s1 s2 :
  String.prefix (String a s1) s2 = true ->
  exists r, s2 = String a r /\ String.prefix s1 r = true.
Proof.
  destruct s2 as [|b r]; simpl; [discriminate|].
  destruct (ascii_dec a b) as [->|]; [|discriminate].
  intros Hp. exists r. split; [reflexivity|exact Hp].
Qed.

Lemma route_toggle url :
  startsWith url toggleURL = true -> String.eqb url "/" = false.
Proof.
  unfold startsWith, toggleURL. intros H.
  apply prefix_cons in H. destruct H as (r & -> & H).
  apply prefix_cons in H. destruct H as (r1 & -> & H).
  reflexivity.
Qed.

Lemma route_infoPush url :
  startsWith url infoPushURL = true ->
  String.eqb url "/" = false /\ startsWith url toggleURL = false.
Proof.
  unfold startsWith, infoPushURL. intros H.
  apply prefix_cons in H. destruct H as (r & -> & H).
  apply prefix_cons in H. destruct H as (r1 & -> & H).
  split; reflexivity.
Qed.

Lemma route_statusWait url :
  startsWith url statusWaitURL = true ->
  String.eqb url "/" = false /\ startsWith url toggleURL = false /\
  startsWith url infoPushURL = false /\ startsWith url statusGetURL = false.
Proof.
  unfold startsWith, statusWaitURL. intros H.
  do 8 (let r := fresh "r" in
        apply prefix_cons in H; destruct H as (r & -> & H)).
  repeat split; reflexivity.
Qed.

Lemma route_knob url :
  startsWith url knobURL = true ->
  String.eqb url "/" = false /\ startsWith url toggleURL = false /\
  startsWith url infoPushURL = false /\ startsWith url statusGetURL = false /\
  startsWith url statusWaitURL = false.
Proof.
  unfold startsWith, knobURL. intros H.
  do 3 (let r := fresh "r" in
        apply prefix_cons in H; destruct H as (r & -> & H)).
  repeat split; reflexivity.
Qed.

Lemma handleReq_toggle wl url now g :
  startsWith url toggleURL = true ->
  handleReq wl url now g
  = enqueue_text CT_STATUS (substring_from (strlen toggleURL) url) g.
Proof.
  intros H. unfold handleReq. rewrite (route_toggle url H), H. reflexivity.
Qed.

Lemma handleReq_infoPush wl url now g :
  startsWith url infoPushURL = true ->
  handleReq wl url now g
  = enqueue_text CT_INFO (substring_from (strlen infoPushURL) url) g.
Proof.
  intros H. unfold handleReq.
  destruct (route_infoPush url H) as (-> & ->). rewrite H. reflexivity.
Qed.

Lemma handleReq_statusWait wl url now g :
  startsWith url statusWaitURL = true ->
  handleReq wl url now g
  = if Waiters.getCount (statusWaiters g) <? MAX_WAITERS
    then Done (set_statusWaiters
                 (Waiters.push (mkWaiter wl (u32 now)) (statusWaiters g)) g, [])
    else Done (g, http_503).
Proof.
  intros H. unfold handleReq.
  destruct (route_statusWait url H) as (-> & -> & -> & ->). rewrite H.
  reflexivity.
Qed.

Lemma handleReq_knob wl url now g :
  startsWith url knobURL = true ->
  handleReq wl url now g
  = match knob_fields url with
    | None => Done (g, http_404)
    | Some (knobstr, posstr, factorstr, valuestr) =>
        match knob_command knobstr posstr factorstr valuestr with
        | None => Done (g, http_404)
        | Some cmd =>
            if CmdQueue.getCount (commandQueue g) <? MAX_QUEUELEN then
              Done (set_commandQueue (CmdQueue.push cmd (commandQueue g)) g,
                    http_200_none)
            else Done (g, http_503)
        end
    end.
Proof.
  intros H. unfold handleReq.
  destruct (route_knob url H) as (-> & -> & -> & -> & ->). rewrite H.
  reflexivity.
Qed.

(** ** A full command queue *)

Lemma enqueue_text_full ty text g :
  CmdQueue.getCount (commandQueue g) >= MAX_QUEUELEN ->
  enqueue_text ty text g = Done (g, http_200_none).
Proof.
  intros Hf. unfold enqueue_text.
  destruct (_ <? _) eqn:E; [zprop; lia|reflexivity].
Qed.

(** With a full queue every toggle or info-push request is answered like
    an accepted one and changes nothing. *)
Lemma enqueue_on_full_queue wl url now g :
  startsWith url toggleURL = true \/ startsWith url infoPushURL = true ->
  CmdQueue.getCount (commandQueue g) >= MAX_QUEUELEN ->
  handleReq wl url now g = Done (g, http_200_none).
Proof.
  intros [Hroute | Hroute] Hfull.
  - rewrite (handleReq_toggle wl url now g Hroute).
    apply enqueue_text_full, Hfull.
  - rewrite (handleReq_infoPush wl url now g Hroute).
    apply enqueue_text_full, Hfull.
Qed.

(** C5, evaluated where the code departs from the claim: with eight
    commands queued, a further toggle request leaves the queue as it is,
    and the requester is answered [200 OK] like an accepted request; the
    command is dropped without a sign. *)
Theorem full_queue_toggle_dropped_silently :
  CmdQueue.getCount (commandQueue full_queue_state) = MAX_QUEUELEN /\
  handleReq (Some 2%nat) "/toggle/DEGAUSS" 0 full_queue_state
    = Done (full_queue_state, http_200_none) /\
  handleReq (Some 2%nat) "/infopush/MENU" 0 full_queue_state
    = Done (full_queue_state, http_200_none) /\
  handleReq (Some 2%nat) "/turnknob/PHASE/p/10/5" 0 full_queue_state
    = Done (full_queue_state, http_503).
Proof. repeat split; vm_compute; reflexivity. Qed.

(** ** Knob requests that are rejected *)

(** C7. A knob request whose slashes are missing, whose knob is not PHASE,
    CHROMA, BRIGHTNESS or CONTRAST, whose direction is neither "p" nor "n",
    or whose factor or ticks parse to zero is answered 404, and no global
    variable changes: the command queue and the device state are as
    before. *)
Theorem invalid_knob_request_rejected wl url now g :
  startsWith url knobURL = true ->
  (knob_fields url = None \/
   exists knobstr posstr factorstr valuestr,
     knob_fields url = Some (knobstr, posstr, factorstr, valuestr) /\
     (valid_knob knobstr = false \/
      (posstr <> "p" /\ posstr <> "n") \/
      toInt factorstr = 0 \/ toInt valuestr = 0)) ->
  handleReq wl url now g = Done (g, http_404).
Proof.
  intros Hroute Hbad. rewrite (handleReq_knob wl url now g Hroute).
  destruct Hbad as [-> | (k & d & f & v & -> & Hbad)]; [reflexivity|].
  assert (Hc : knob_command k d f v = None).
  { unfold knob_command.
    destruct (valid_knob k) eqn:Hk; simpl; [|reflexivity].
    destruct Hbad as [Hbad | [[Hp Hn] | [Hz | Hz]]].
    - discriminate.
    - destruct (String.eqb d "n") eqn:En.
      { apply String.eqb_eq in En. contradiction. }
      destruct (String.eqb d "p") eqn:Ep.
      { apply String.eqb_eq in Ep. contradiction. }
      reflexivity.
    - destruct (String.eqb d "n"); [|destruct (String.eqb d "p")];
        try reflexivity; rewrite Hz; reflexivity.
    - destruct (String.eqb d "n"); [|destruct (String.eqb d "p")];
        try reflexivity; rewrite Hz, Z.eqb_refl, orb_true_r; reflexivity. }
  rewrite Hc. reflexivity.
Qed.

Lemma invalid_knob_request_rejected_witness :
  let g := boot true (replicate 8 inhabitant) idle_client in
  handleReq (Some 1%nat) "/turnknob/VOLUME/p/10/5" 0 g = Done (g, http_404).
Proof.
  intros g.
  apply (invalid_knob_request_rejected (Some 1%nat) "/turnknob/VOLUME/p/10/5" 0 g).
  - reflexivity.
  - right. exists "VOLUME", "p", "10", "5".
    split; [reflexivity|]. left. reflexivity.
Defined.

(** A slash behind a NUL is not found by [indexOf]: with the NUL in its
    factor this request has no third slash and is answered 404. *)
Lemma knob_request_with_nul_rejected :
  let g := boot true (replicate 8 inhabitant) idle_client in
  let url := ("/turnknob/PHASE/p/10" ++ String "000"%char "/5")%string in
  knob_fields url = None /\
  handleReq (Some 1%nat) url 0 g = Done (g, http_404).
Proof. split; reflexivity. Qed.

(** ** Capacity of the waiter registry *)

Lemma waiters_push_count t q :
  0 <= Waiters.m_count q < Waiters.m_maxCount q ->
  Waiters.m_maxCount q <= 255 ->
  Waiters.m_count (Waiters.push t q) = Waiters.m_count q + 1 /\
  Waiters.m_maxCount (Waiters.push t q) = Waiters.m_maxCount q.
Proof.
  intros Hc Hm. unfold Waiters.push.
  destruct (_ >? _) eqn:E; [zprop; lia|].
  simpl. split; [apply u8_small; lia|reflexivity].
Qed.

Lemma register_accepted wl url now g :
  startsWith url statusWaitURL = true ->
  Waiters.m_maxCount (statusWaiters g) = MAX_WAITERS ->
  0 <= Waiters.getCount (statusWaiters g) < MAX_WAITERS ->
  exists g',
    handleReq wl url now g = Done (g', []) /\
    Waiters.m_maxCount (statusWaiters g') = MAX_WAITERS /\
    Waiters.getCount (statusWaiters g')
      = Waiters.getCount (statusWaiters g) + 1.
Proof.
  intros Hroute Hmax Hc.
  rewrite (handleReq_statusWait wl url now g Hroute).
  destruct (_ <? _) eqn:E; [|zprop; lia].
  eexists. split; [reflexivity|].
  unfold Waiters.getCount in *. simpl.
  destruct (waiters_push_count (mkWaiter wl (u32 now)) (statusWaiters g))
    as (Hn & Hm); unfold MAX_WAITERS in *; try lia.
Qed.

Lemma register_rejected wl url now g :
  startsWith url statusWaitURL = true ->
  Waiters.getCount (statusWaiters g) >= MAX_WAITERS ->
  handleReq wl url now g = Done (g, http_503).
Proof.
  intros Hroute Hc.
  rewrite (handleReq_statusWait wl url now g Hroute).
  destruct (_ <? _) eqn:E; [zprop; lia|reflexivity].
Qed.

(** C8, evaluated where the code departs from the claim.  After [setup],
    two clients register one after the other and a third one follows.  Both
    registrations are accepted: nothing is answered and the count reaches
    [MAX_WAITERS].  But [push] has stored the second waiter into the slot
    of the first: the registry that counts two waiters holds the second
    client alone, in slot 0, and slot 1 is as the constructor left it.
    Registering up to the capacity has lost the first waiter.  The third
    registration is answered 503 on its own connection and changes no
    global variable. *)
Theorem registration_to_capacity_loses_first
    (fd1 fd2 : nat) (c : WiFiClient) (t1 t2 t3 : Z)
    (linkUp : bool) (mem : list Command_t) (cl : EthernetClient) :
  let g0 := boot linkUp mem cl in
  let g1 := after_request (Some fd1) "/statuswait" t1 g0 in
  let g2 := after_request (Some fd2) "/statuswait" t2 g1 in
  handleReq (Some fd1) "/statuswait" t1 g0 = Done (g1, []) /\
  Waiters.getCount (statusWaiters g1) = 1 /\
  Waiters.m_waiters (statusWaiters g1)
    = [mkWaiter (Some fd1) (u32 t1); mkWaiter None 0] /\
  Waiters.held (statusWaiters g1) = [fd1] /\
  handleReq (Some fd2) "/statuswait" t2 g1 = Done (g2, []) /\
  Waiters.getCount (statusWaiters g2) = MAX_WAITERS /\
  Waiters.m_waiters (statusWaiters g2)
    = [mkWaiter (Some fd2) (u32 t2); mkWaiter None 0] /\
  Waiters.held (statusWaiters g2) = [fd2] /\
  handleReq c "/statuswait" t3 g2 = Done (g2, http_503).
Proof.
  intros g0 g1 g2.
  assert (H1 : handleReq (Some fd1) "/statuswait" t1 g0
               = Done (set_statusWaiters
                         (Waiters.push (mkWaiter (Some fd1) (u32 t1))
                            (statusWaiters g0)) g0, []))
    by (rewrite handleReq_statusWait; reflexivity).
  assert (E1 : g1 = set_statusWaiters
                      (Waiters.push (mkWaiter (Some fd1) (u32 t1))
                         (statusWaiters g0)) g0)
    by (subst g1; unfold after_request; rewrite H1; reflexivity).
  assert (H2 : handleReq (Some fd2) "/statuswait" t2 g1
               = Done (set_statusWaiters
                         (Waiters.push (mkWaiter (Some fd2) (u32 t2))
                            (statusWaiters g1)) g1, []))
    by (rewrite handleReq_statusWait, E1; reflexivity).
  assert (E2 : g2 = set_statusWaiters
                      (Waiters.push (mkWaiter (Some fd2) (u32 t2))
                         (statusWaiters g1)) g1)
    by (subst g2; unfold after_request; rewrite H2; reflexivity).
  split; [rewrite H1, E1; reflexivity|].
  split; [rewrite E1; reflexivity|].
  split; [rewrite E1; reflexivity|].
  split; [rewrite E1; reflexivity|].
  split; [rewrite H2, E2; reflexivity|].
  split; [rewrite E2, E1; reflexivity|].
  split; [rewrite E2, E1; reflexivity|].
  split; [rewrite E2, E1; reflexivity|].
  apply register_rejected; [reflexivity|].
  rewrite E2, E1. vm_compute. discriminate.
Qed.

(** ** The unchecked copy of the command text *)

Lemma enqueue_text_fits ty text g :
  CmdQueue.getCount (commandQueue g) < MAX_QUEUELEN ->
  strlen text < COMMAND_LEN ->
  enqueue_text ty text g
  = Done (set_commandQueue
            (CmdQueue.push (mkCommand ty (c_str text)) (commandQueue g)) g,
          http_200_none).
Proof.
  intros Hroom Hfit. unfold enqueue_text, strcpy.
  destruct (_ <? _) eqn:E; [|zprop; lia].
  destruct (_ <=? _) eqn:E1; [reflexivity|zprop; lia].
Qed.

Lemma enqueue_text_overflows ty text g :
  CmdQueue.getCount (commandQueue g) < MAX_QUEUELEN ->
  COMMAND_LEN <= strlen text ->
  enqueue_text ty text g = BufferOverflow (strlen text + 1) COMMAND_LEN.
Proof.
  intros Hroom Hbig. unfold enqueue_text, strcpy.
  destruct (_ <? _) eqn:E; [|zprop; lia].
  destruct (_ <=? _) eqn:E1; [zprop; lia|reflexivity].
Qed.

(** C10. When the queue has room, a toggle or info-push request copies the
    rest of its URL into [m_command] whatever its length: the copy stays
    inside the 25 bytes exactly when that rest is shorter than 25 bytes,
    and otherwise [strcpy] writes [strlen + 1 > 25] bytes.  Nothing on the
    way from the URL to the copy checks the length. *)
Theorem command_copy_bounds wl url now g :
  CmdQueue.getCount (commandQueue g) < MAX_QUEUELEN ->
  (startsWith url toggleURL = true ->
   let text := substring_from (strlen toggleURL) url in
   (strlen text < COMMAND_LEN ->
    is_done (handleReq wl url now g) = true) /\
   (COMMAND_LEN <= strlen text ->
    handleReq wl url now g = BufferOverflow (strlen text + 1) COMMAND_LEN)) /\
  (startsWith url infoPushURL = true ->
   let text := substring_from (strlen infoPushURL) url in
   (strlen text < COMMAND_LEN ->
    is_done (handleReq wl url now g) = true) /\
   (COMMAND_LEN <= strlen text ->
    handleReq wl url now g = BufferOverflow (strlen text + 1) COMMAND_LEN)).
Proof.
  intros Hroom. split; intros Hroute text; split; intros Hlen.
  - rewrite (handleReq_toggle wl url now g Hroute).
    fold text. rewrite (enqueue_text_fits _ _ _ Hroom Hlen). reflexivity.
  - rewrite (handleReq_toggle wl url now g Hroute).
    apply (enqueue_text_overflows _ _ _ Hroom Hlen).
  - rewrite (handleReq_infoPush wl url now g Hroute).
    fold text. rewrite (enqueue_text_fits _ _ _ Hroom Hlen). reflexivity.
  - rewrite (handleReq_infoPush wl url now g Hroute).
    apply (enqueue_text_overflows _ _ _ Hroom Hlen).
Qed.

Lemma command_copy_bounds_witness :
  let g := boot true (replicate 8 inhabitant) idle_client in
  is_done (handleReq (Some 1%nat) "/toggle/012345678901234567890123" 0 g) = true /\
  handleReq (Some 1%nat) "/toggle/0123456789012345678901234" 0 g
    = BufferOverflow 26 COMMAND_LEN /\
  is_done (handleReq (Some 1%nat) "/infopush/MENU" 0 g) = true /\
  handleReq (Some 1%nat) "/infopush/0123456789012345678901234567890123456789" 0 g
    = BufferOverflow 41 COMMAND_LEN.
Proof.
  intros g.
  assert (Hroom : CmdQueue.getCount (commandQueue g) < MAX_QUEUELEN)
    by (vm_compute; reflexivity).
  split; [|split; [|split]].
  - apply (proj1 (proj1 (command_copy_bounds (Some 1%nat)
             "/toggle/012345678901234567890123" 0 g Hroom) eq_refl)).
    vm_compute. reflexivity.
  - apply (proj2 (proj1 (command_copy_bounds (Some 1%nat)
             "/toggle/0123456789012345678901234" 0 g Hroom) eq_refl)).
    vm_compute. discriminate.
  - apply (proj1 (proj2 (command_copy_bounds (Some 1%nat)
             "/infopush/MENU" 0 g Hroom) eq_refl)).
    vm_compute. reflexivity.
  - apply (proj2 (proj2 (command_copy_bounds (Some 1%nat)
             "/infopush/0123456789012345678901234567890123456789" 0 g Hroom)
             eq_refl)).
    vm_compute. discriminate.
Defined.

(** The rest of a URL after a prefix is what [substring_from] returns. *)
Lemma string_substring_all (s : string) :
  String.substring 0 (String.length s) s = s.
Proof. induction s as [|c s IH]; simpl; [reflexivity|]. rewrite IH. reflexivity. Qed.

Lemma string_substring_skip (p rest : string) (m : nat) :
  String.substring (String.length p) m (p ++ rest)%string
  = String.substring 0 m rest.
Proof. induction p as [|c p IH]; simpl; [reflexivity|exact IH]. Qed.

Lemma string_length_append (a b : string) :
  String.length (a ++ b)%string = (String.length a + String.length b)%nat.
Proof. induction a as [|c a IH]; simpl; [reflexivity|]. rewrite IH. reflexivity. Qed.

Lemma substring_from_app (p rest : string) :
  Z.of_nat (String.length (p ++ rest)%string) < 4294967296 ->
  substring_from (Z.of_nat (String.length p)) (p ++ rest)%string = rest.
Proof.
  intros Hsmall. unfold substring_from, substring, u32.
  rewrite string_length_append in *.
  set (lp := String.length p) in *. set (lr := String.length rest) in *.
  rewrite !Z.mod_small by lia.
  replace (Z.of_nat lp >? Z.of_nat (lp + lr)) with false
    by (symmetry; rewrite Z.gtb_ltb; apply Z.ltb_ge; lia).
  replace (Z.of_nat (lp + lr) >? Z.of_nat (lp + lr)) with false
    by (symmetry; rewrite Z.gtb_ltb; apply Z.ltb_ge; lia).
  destruct (Z.of_nat lp >=? Z.of_nat (lp + lr)) eqn:E1; zprop.
  - assert (lr = 0%nat) by lia. subst lr.
    destruct rest; [reflexivity|simpl in *; lia].
  - rewrite Nat2Z.id.
    replace (Z.to_nat (Z.of_nat (lp + lr) - Z.of_nat lp)) with lr by lia.
    subst lp lr. rewrite string_substring_skip. apply string_substring_all.
Qed.

Lemma startsWith_append (p s : string) : startsWith (p ++ s)%string p = true.
Proof.
  unfold startsWith. induction p as [|c p IH]; simpl.
  - destruct s; reflexivity.
  - destruct (ascii_dec c c) as [_|Hne]; [exact IH|contradiction].
Qed.

(** The same for a toggle URL given by its suffix. *)
Lemma toggle_suffix_copy wl suffix now g :
  CmdQueue.getCount (commandQueue g) < MAX_QUEUELEN ->
  Z.of_nat (String.length (toggleURL ++ suffix)%string) < 4294967296 ->
  is_done (handleReq wl (toggleURL ++ suffix)%string now g) = true
  <-> strlen suffix < COMMAND_LEN.
Proof.
  intros Hroom Hsmall.
  rewrite (handleReq_toggle wl _ now g) by apply startsWith_append.
  change (strlen toggleURL) with (Z.of_nat (String.length toggleURL)).
  rewrite substring_from_app by exact Hsmall.
  destruct (Z.lt_ge_cases (strlen suffix) COMMAND_LEN) as [Hfit | Hbig].
  - rewrite (enqueue_text_fits _ _ _ Hroom Hfit). split; [intros _; exact Hfit|reflexivity].
  - rewrite (enqueue_text_overflows _ _ _ Hroom Hbig).
    split; [discriminate|lia].
Qed.

(** ** The bounded wait *)

Lemma available_delay1 cl : available cl <= available (delay1 cl).
Proof.
  unfold available, delay1. destruct (arrivals cl); simpl; [lia|].
  rewrite length_app. lia.
Qed.

Lemma available_mono n : forall k cl,
  (k <= n)%nat ->
  available (Nat.iter k delay1 cl) <= available (Nat.iter n delay1 cl).
Proof.
  induction n as [|n IH]; intros k cl Hk.
  - replace k with 0%nat by lia. lia.
  - destruct (Nat.eq_dec k (S n)) as [->|Hne]; [lia|].
    specialize (IH k cl ltac:(lia)). simpl.
    pose proof (available_delay1 (Nat.iter n delay1 cl)). lia.
Qed.

(** The loop leaves only with the bytes there or with the time used up. *)
Lemma wait_available_exit n : forall need cl w,
  w + Z.of_nat n = RECV_TIMEOUT ->
  let r := wait_available n need cl w in
  need <= available (fst r) \/ snd r >= RECV_TIMEOUT.
Proof.
  induction n as [|n IH]; intros need cl w Hw; simpl.
  - destruct (available cl <? need) eqn:E; zprop; simpl; lia.
  - destruct (available cl <? need) eqn:E; zprop; simpl; [|lia].
    destruct (w + 1 >=? RECV_TIMEOUT) eqn:E1; zprop; simpl; [lia|].
    apply IH. lia.
Qed.

(** When the bytes never arrive in time the loop ends at [RECV_TIMEOUT]. *)
Lemma wait_available_timeout n : forall need cl w,
  (0 < n)%nat ->
  w + Z.of_nat n = RECV_TIMEOUT ->
  available (Nat.iter (n - 1) delay1 cl) < need ->
  snd (wait_available n need cl w) = RECV_TIMEOUT.
Proof.
  induction n as [|n IH]; intros need cl w Hn Hw Hlate; [lia|].
  simpl.
  assert (H0 : available cl < need).
  { pose proof (available_mono (S n - 1) 0 cl ltac:(lia)). simpl in *. lia. }
  destruct (available cl <? need) eqn:E; zprop; [|lia].
  destruct (w + 1 >=? RECV_TIMEOUT) eqn:E1; zprop; simpl; [lia|].
  apply IH; [lia|lia|].
  replace (S n - 1)%nat with (S (n - 1)) in Hlate by lia.
  rewrite Nat.iter_succ_r in Hlate. exact Hlate.
Qed.

Lemma recv_status_timeout cl buf :
  available (Nat.iter 999 delay1 (snd (client_write get_status cl)))
    < sizeof_status_response ->
  snd (recv_status cl buf) = None.
Proof.
  intros Hlate. unfold recv_status.
  destruct (client_write get_status cl) as [n cl0]. cbn [snd] in Hlate.
  pose proof (wait_available_timeout (Z.to_nat RECV_TIMEOUT)
                sizeof_status_response cl0 0) as Ht.
  destruct (wait_available (Z.to_nat RECV_TIMEOUT) sizeof_status_response cl0 0)
    as [cl1 w].
  cbn [snd] in Ht. rewrite Ht.
  - rewrite Z.geb_leb, Z.leb_refl. reflexivity.
  - unfold RECV_TIMEOUT. lia.
  - unfold RECV_TIMEOUT. lia.
  - replace (Z.to_nat RECV_TIMEOUT - 1)%nat with 999%nat
      by (unfold RECV_TIMEOUT; lia).
    exact Hlate.
Qed.

(** With the bytes there the loop does not wait. *)
Lemma wait_available_ready n need cl w :
  need <= available cl -> wait_available n need cl w = (cl, w).
Proof.
  intros Hr. destruct n; simpl;
    (destruct (available cl <? need) eqn:E; zprop; [lia|reflexivity]).
Qed.

(** The read loop stores the next [n] received bytes from index [i] on. *)
Lemma read_into_spec n : forall i cl buf bs rest,
  rxbuf cl = bs ++ rest ->
  length bs = n ->
  0 <= i ->
  i + Z.of_nat n <= Z.of_nat (length buf) ->
  Z.of_nat (length buf) <= 255 ->
  rxbuf (fst (read_into n i cl buf)) = rest /\
  snd (read_into n i cl buf)
  = take (Z.to_nat i) buf ++ map u8 bs ++ drop (Z.to_nat i + n) buf.
Proof.
  induction n as [|n IH]; intros i cl buf bs rest Hrx Hlen Hi Hfit Hsmall.
  - destruct bs; [|discriminate]. simpl. split; [exact Hrx|].
    rewrite Nat.add_0_r, take_drop. reflexivity.
  - destruct bs as [|b bs]; [discriminate|]. injection Hlen as Hlen.
    simpl. unfold client_read. rewrite Hrx. simpl.
    rewrite (u8_small (i + 1)) by lia.
    destruct (IH (i + 1) (mkClient (bs ++ rest) (arrivals cl) (written cl)
                            (accepts cl))
                 (<[Z.to_nat i := u8 b]> buf) bs rest)
      as (Hr & Hb); try reflexivity; try assumption; try lia.
    { rewrite length_insert. lia. }
    { rewrite length_insert. lia. }
    split; [exact Hr|]. rewrite Hb.
    replace (Z.to_nat (i + 1)) with (S (Z.to_nat i)) by lia.
    rewrite (take_S_r _ _ (u8 b)) by (apply list_lookup_insert_eq; lia).
    rewrite take_insert_ge by lia.
    rewrite drop_insert_lt by lia.
    rewrite <- app_assoc. simpl.
    replace (S (Z.to_nat i + n)) with (Z.to_nat i + S n)%nat by lia.
    reflexivity.
Qed.

(** A response that has arrived is read as it is. *)
Lemma recv_status_ready cl buf resp rest :
  rxbuf cl = resp ++ rest ->
  Z.of_nat (length resp) = sizeof_status_response ->
  Z.of_nat (length buf) = sizeof_status_response ->
  Forall (fun b => 0 <= b < 256) resp ->
  exists cl', recv_status cl buf = (cl', Some resp) /\ rxbuf cl' = rest.
Proof.
  intros Hrx Hlen Hbuf Hbytes. unfold recv_status.
  assert (Hw : rxbuf (snd (client_write get_status cl)) = resp ++ rest).
  { unfold client_write. destruct (accepts cl); exact Hrx. }
  destruct (client_write get_status cl) as [k cl0]. cbn [snd] in Hw.
  rewrite wait_available_ready
    by (unfold available; rewrite Hw, length_app; lia).
  change (0 >=? RECV_TIMEOUT) with false. cbv iota.
  unfold sizeof_status_response in *.
  destruct (read_into_spec (Z.to_nat 53) 0 cl0 buf resp rest Hw)
    as (Hr & Hb); try lia.
  destruct (read_into (Z.to_nat 53) 0 cl0 buf) as [cl2 got].
  cbn [fst snd] in Hr, Hb. exists cl2. split; [|exact Hr].
  f_equal. f_equal. rewrite Hb.
  change (Z.to_nat 0) with 0%nat. rewrite take_0, drop_ge by lia.
  rewrite app_nil_r. cbn [app].
  clear -Hbytes. induction Hbytes as [|b bs Hb _ IH]; [reflexivity|].
  simpl. rewrite IH, u8_small by lia. reflexivity.
Qed.

(** ** Status polls *)

(** C9. When fewer than 53 bytes have arrived 999 ms after the request
    (so the wait reaches [RECV_TIMEOUT]), [updateStatus] returns with the
    device state, the five cached words and the dirty flag as they were;
    only the connection itself has moved on. *)
Theorem status_timeout_no_mutation g :
  available (Nat.iter 999 delay1
               (snd (client_write get_status (monitorClient g))))
    < sizeof_status_response ->
  let g' := updateStatus g in
  currentState g' = currentState g /\
  statusUpdated g' = statusUpdated g /\
  _statusw1 g' = _statusw1 g /\ _statusw2 g' = _statusw2 g /\
  _statusw3 g' = _statusw3 g /\ _statusw4 g' = _statusw4 g /\
  _statusw5 g' = _statusw5 g /\
  g' = set_monitorClient (monitorClient g') g.
Proof.
  intros Hlate g'. subst g'. unfold updateStatus.
  pose proof (recv_status_timeout (monitorClient g) (status_response g) Hlate) as Hn.
  destruct (recv_status (monitorClient g) (status_response g)) as [cl r].
  simpl in Hn. subst r. repeat split.
Qed.

Lemma status_timeout_no_mutation_witness :
  let g := boot true (replicate 8 inhabitant)
             (mkClient [] [[0x30; 0x31]; []; [0x32]] [] true) in
  let g' := updateStatus g in
  currentState g' = currentState g /\
  statusUpdated g' = statusUpdated g /\
  _statusw1 g' = _statusw1 g /\ _statusw2 g' = _statusw2 g /\
  _statusw3 g' = _statusw3 g /\ _statusw4 g' = _statusw4 g /\
  _statusw5 g' = _statusw5 g /\
  g' = set_monitorClient (monitorClient g') g.
Proof.
  intros g.
  apply (status_timeout_no_mutation g).
  vm_compute. reflexivity.
Defined.

Lemma words_differ_false g :
  words_differ g = false <->
  statusw1 g = _statusw1 g /\ statusw2 g = _statusw2 g /\
  statusw3 g = _statusw3 g /\ statusw4 g = _statusw4 g /\
  statusw5 g = _statusw5 g.
Proof.
  unfold words_differ. split.
  - intros H.
    repeat (apply orb_false_elim in H; destruct H as [H ?]).
    repeat match goal with
           | X : negb (_ =? _) = false |- _ =>
               apply negb_false_iff in X; apply Z.eqb_eq in X
           end.
    repeat split; assumption.
  - intros (-> & -> & -> & -> & ->). rewrite !Z.eqb_refl. reflexivity.
Qed.

(** C2. After a status response has been read, the dirty flag is set by
    the call exactly when one of the five decoded words differs from its
    cached word; when all five are equal the device state, the cached
    words and the dirty flag are left as they were. *)
Theorem status_change_detection g cl resp :
  recv_status (monitorClient g) (status_response g) = (cl, Some resp) ->
  let same :=
    status_word resp 29 30 31 32 = _statusw1 g /\
    status_word resp 34 35 36 37 = _statusw2 g /\
    status_word resp 39 40 41 42 = _statusw3 g /\
    status_word resp 44 45 46 47 = _statusw4 g /\
    status_word resp 49 50 51 52 = _statusw5 g in
  let g' := updateStatus g in
  (~ same -> statusUpdated g' = true) /\
  (same ->
   currentState g' = currentState g /\
   statusUpdated g' = statusUpdated g /\
   _statusw1 g' = _statusw1 g /\ _statusw2 g' = _statusw2 g /\
   _statusw3 g' = _statusw3 g /\ _statusw4 g' = _statusw4 g /\
   _statusw5 g' = _statusw5 g) /\
  (statusUpdated g = false -> (statusUpdated g' = true <-> ~ same)).
Proof.
  intros Hrecv same g'. subst g'. unfold updateStatus. rewrite Hrecv.
  set (g2 := set_statusw _ _ _ _ _ _).
  pose proof (words_differ_false g2) as Hw. simpl in Hw. fold same in Hw.
  destruct (words_differ g2) eqn:E.
  - assert (Hns : ~ same) by (intros Hs; apply Hw in Hs; discriminate).
    split; [reflexivity|]. split; [contradiction|].
    intros _. split; [intros _; exact Hns|reflexivity].
  - assert (Hs : same) by (apply Hw; reflexivity).
    split; [contradiction|]. split; [intros _; repeat split|].
    intros Hclean. simpl. rewrite Hclean.
    split; [discriminate|contradiction].
Qed.

Lemma status_change_detection_witness :
  let resp := status_block
    [0x38; 0x30; 0x30; 0x30; 0x20; 0x30; 0x30; 0x30; 0x30; 0x20;
     0x30; 0x30; 0x30; 0x30; 0x20; 0x30; 0x30; 0x30; 0x30; 0x20;
     0x30; 0x30; 0x30; 0x30] in
  let g := boot true (replicate 8 inhabitant) (mkClient resp [] [] true) in
  let same :=
    status_word resp 29 30 31 32 = _statusw1 g /\
    status_word resp 34 35 36 37 = _statusw2 g /\
    status_word resp 39 40 41 42 = _statusw3 g /\
    status_word resp 44 45 46 47 = _statusw4 g /\
    status_word resp 49 50 51 52 = _statusw5 g in
  let g' := updateStatus g in
  (~ same -> statusUpdated g' = true) /\
  (same ->
   currentState g' = currentState g /\
   statusUpdated g' = statusUpdated g /\
   _statusw1 g' = _statusw1 g /\ _statusw2 g' = _statusw2 g /\
   _statusw3 g' = _statusw3 g /\ _statusw4 g' = _statusw4 g /\
   _statusw5 g' = _statusw5 g) /\
  (statusUpdated g = false -> (statusUpdated g' = true <-> ~ same)).
Proof.
  intros resp g.
  apply (status_change_detection g (mkClient [] [] [get_status] true) resp).
  vm_compute. reflexivity.
Defined.

(** ** Decoding of the status words *)

Lemma land_pow2 w n :
  0 <= n -> Z.land w (2 ^ n) = if Z.testbit w n then 2 ^ n else 0.
Proof.
  intros Hn. apply Z.bits_inj'. intros m Hm.
  rewrite Z.land_spec, Z.pow2_bits_eqb by lia.
  destruct (Z.testbit w n) eqn:Eb.
  - rewrite Z.pow2_bits_eqb by lia.
    destruct (Z.eqb_spec n m) as [->|Hne].
    + rewrite Eb. reflexivity.
    + apply andb_false_r.
  - rewrite Z.bits_0.
    destruct (Z.eqb_spec n m) as [->|Hne].
    + rewrite Eb. reflexivity.
    + apply andb_false_r.
Qed.

(** The test [word & POWER_ON_STATUS] reads bit 15 of the word. *)
Lemma flag_power_bit w : flag w POWER_ON_STATUS = Z.testbit w 15.
Proof.
  unfold flag, POWER_ON_STATUS. change 0x8000 with (2 ^ 15).
  rewrite land_pow2 by lia.
  destruct (Z.testbit w 15); reflexivity.
Qed.

Lemma status_word_sum buf i0 i1 i2 i3 :
  status_word buf i0 i1 i2 i3
  = u16 (4096 * (buf !!! i0 - 0x30) + 256 * (buf !!! i1 - 0x30) +
         16 * (buf !!! i2 - 0x30) + (buf !!! i3 - 0x30)).
Proof.
  unfold status_word. rewrite !Z.shiftl_mul_pow2 by lia.
  f_equal. change (2 ^ 12) with 4096. change (2 ^ 8) with 256.
  change (2 ^ 4) with 16. lia.
Qed.

(** For bytes in the range 0x30 .. 0x3F the four nibbles of the word are
    the four bytes lowered by 0x30, the first byte in the top nibble. *)
Lemma status_word_nibbles buf i0 i1 i2 i3 :
  digit_bytes buf i0 i1 i2 i3 ->
  nibbles_are (status_word buf i0 i1 i2 i3) buf i0 i1 i2 i3.
Proof.
  intros (H0 & H1 & H2 & H3). unfold nibbles_are. rewrite status_word_sum.
  set (a := buf !!! i0 - 0x30) in *. set (b := buf !!! i1 - 0x30) in *.
  set (c := buf !!! i2 - 0x30) in *. set (d := buf !!! i3 - 0x30) in *.
  assert (Ha : 0 <= a <= 15) by lia. assert (Hb : 0 <= b <= 15) by lia.
  assert (Hc : 0 <= c <= 15) by lia. assert (Hd : 0 <= d <= 15) by lia.
  clearbody a b c d. clear H0 H1 H2 H3.
  unfold u16. rewrite Z.mod_small by lia.
  unfold nibble. change 0xF with (Z.ones 4).
  rewrite !Z.land_ones, !Z.shiftr_div_pow2 by lia.
  change (2 ^ (4 * 3)) with 4096. change (2 ^ (4 * 2)) with 256.
  change (2 ^ (4 * 1)) with 16. change (2 ^ (4 * 0)) with 1.
  change (2 ^ 4) with 16.
  repeat split; Z.div_mod_to_equations; lia.
Qed.

(** C3, as the code has it.  The five words are built from the bytes at
    offsets 29-32, 34-37, 39-42, 44-47 and 49-52, each byte lowered by 0x30
    and weighted 4096, 256, 16 and 1, kept to 16 bits; for digit bytes
    (0x30 .. 0x3F) each nibble of a word is its byte lowered by 0x30.
    Whenever one of the words differs from its cached word, or the power
    field already agrees with bit 0x8000 of the cached first word, the
    power field of the resulting device state is bit 0x8000 of the decoded
    first word. *)
Theorem status_decode_power g cl resp :
  recv_status (monitorClient g) (status_response g) = (cl, Some resp) ->
  let g' := updateStatus g in
  let word i0 i1 i2 i3 :=
    u16 (4096 * (resp !!! i0 - 0x30) + 256 * (resp !!! i1 - 0x30) +
         16 * (resp !!! i2 - 0x30) + (resp !!! i3 - 0x30)) in
  (statusw1 g' = word 29%nat 30%nat 31%nat 32%nat /\
   statusw2 g' = word 34%nat 35%nat 36%nat 37%nat /\
   statusw3 g' = word 39%nat 40%nat 41%nat 42%nat /\
   statusw4 g' = word 44%nat 45%nat 46%nat 47%nat /\
   statusw5 g' = word 49%nat 50%nat 51%nat 52%nat) /\
  ((digit_bytes resp 29 30 31 32 -> nibbles_are (statusw1 g') resp 29 30 31 32) /\
   (digit_bytes resp 34 35 36 37 -> nibbles_are (statusw2 g') resp 34 35 36 37) /\
   (digit_bytes resp 39 40 41 42 -> nibbles_are (statusw3 g') resp 39 40 41 42) /\
   (digit_bytes resp 44 45 46 47 -> nibbles_are (statusw4 g') resp 44 45 46 47) /\
   (digit_bytes resp 49 50 51 52 -> nibbles_are (statusw5 g') resp 49 50 51 52)) /\
  ((statusw1 g' <> _statusw1 g \/ statusw2 g' <> _statusw2 g \/
    statusw3 g' <> _statusw3 g \/ statusw4 g' <> _statusw4 g \/
    statusw5 g' <> _statusw5 g) \/
   m_isPowered (currentState g) = Z.testbit (_statusw1 g) 15 ->
   m_isPowered (currentState g') = Z.testbit (statusw1 g') 15).
Proof.
  intros Hrecv g' word.
  assert (Hwords :
    statusw1 g' = status_word resp 29 30 31 32 /\
    statusw2 g' = status_word resp 34 35 36 37 /\
    statusw3 g' = status_word resp 39 40 41 42 /\
    statusw4 g' = status_word resp 44 45 46 47 /\
    statusw5 g' = status_word resp 49 50 51 52).
  { subst g'. unfold updateStatus. rewrite Hrecv.
    destruct (words_differ _); cbn; auto. }
  destruct Hwords as (W1 & W2 & W3 & W4 & W5).
  split; [|split].
  - subst word. cbv beta. rewrite <- !status_word_sum.
    exact (conj W1 (conj W2 (conj W3 (conj W4 W5)))).
  - rewrite W1, W2, W3, W4, W5.
    split; [|split; [|split; [|split]]]; apply status_word_nibbles.
  - clear W1 W2 W3 W4 W5. subst g'. unfold updateStatus. rewrite Hrecv.
    set (g2 := set_statusw _ _ _ _ _ _).
    pose proof (words_differ_false g2) as Hw.
    destruct (words_differ g2) eqn:E.
    + intros _. apply flag_power_bit.
    + cbn in Hw |- *.
      destruct Hw as [Hw _]. destruct (Hw eq_refl) as (E1 & E2 & E3 & E4 & E5).
      intros [Hd | Hsame].
      * destruct Hd as [Hd | [Hd | [Hd | [Hd | Hd]]]]; contradiction.
      * rewrite E1. exact Hsame.
Qed.

(** Once the power field agrees with the cached first word it keeps
    doing so over every later poll. *)
Lemma power_agrees_with_cache g cl resp :
  recv_status (monitorClient g) (status_response g) = (cl, Some resp) ->
  m_isPowered (currentState g) = Z.testbit (_statusw1 g) 15 ->
  m_isPowered (currentState (updateStatus g))
  = Z.testbit (_statusw1 (updateStatus g)) 15.
Proof.
  intros Hrecv Hagree. unfold updateStatus. rewrite Hrecv.
  destruct (words_differ _); cbn.
  - apply flag_power_bit.
  - exact Hagree.
Qed.

Lemma status_decode_power_witness :
  let resp := status_block
    [0x38; 0x30; 0x30; 0x30; 0x20; 0x30; 0x30; 0x30; 0x30; 0x20;
     0x30; 0x30; 0x30; 0x30; 0x20; 0x30; 0x30; 0x30; 0x30; 0x20;
     0x30; 0x30; 0x30; 0x30] in
  let g := boot true (replicate 8 inhabitant) (mkClient resp [] [] true) in
  let g' := updateStatus g in
  statusw1 g' = 0x8000 /\
  m_isPowered (currentState g') = Z.testbit (statusw1 g') 15 /\
  m_isPowered (currentState g') = true.
Proof.
  intros resp g g'.
  pose proof (status_decode_power g (mkClient [] [] [get_status] true) resp
                eq_refl) as ((H1 & _) & _ & Hp).
  split; [exact H1|]. split; [|reflexivity].
  apply Hp. left. left. vm_compute. discriminate.
Defined.

(** C3 as the claim states it fails where the decoded words equal the
    cached ones.  Right after [connectMonitor] has reset the cache to
    0xFFFF, a response whose word bytes are all 0x3F decodes to five words
    0xFFFF: bit 0x8000 of the first word is set, nothing is written, and
    the power field keeps its value false. *)
Lemma power_bit_set_but_state_kept :
  let resp := status_block
    [0x3F; 0x3F; 0x3F; 0x3F; 0x20; 0x3F; 0x3F; 0x3F; 0x3F; 0x20;
     0x3F; 0x3F; 0x3F; 0x3F; 0x20; 0x3F; 0x3F; 0x3F; 0x3F; 0x20;
     0x3F; 0x3F; 0x3F; 0x3F] in
  let g := connect_phase
             (boot true (replicate 8 inhabitant) (mkClient resp [] [] true)) in
  recv_status (monitorClient g) (status_response g)
    = (mkClient [] [] [get_status] true, Some resp) /\
  statusw1 (updateStatus g) = 0xFFFF /\
  Z.land (statusw1 (updateStatus g)) POWER_ON_STATUS <> 0 /\
  Z.testbit (statusw1 (updateStatus g)) 15 = true /\
  m_isPowered (currentState (updateStatus g)) = false.
Proof.
  intros resp g.
  split; [vm_compute; reflexivity|].
  split; [vm_compute; reflexivity|].
  split; [vm_compute; discriminate|].
  split; vm_compute; reflexivity.
Qed.

(** ** Texts without NUL *)

Lemma c_str_cons c s :
  c_str (String c s) = String c s -> c_str s = s.
Proof.
  simpl. destruct (Ascii.eqb c "000"); [discriminate|].
  intros E. injection E. auto.
Qed.

Lemma c_str_cons_head c s :
  c_str (String c s) = String c s -> Ascii.eqb c "000" = false.
Proof. simpl. destruct (Ascii.eqb c "000"); [discriminate|reflexivity]. Qed.

Lemma c_str_append a b :
  c_str a = a -> c_str b = b -> c_str (a ++ b)%string = (a ++ b)%string.
Proof.
  intros Ha Hb. induction a as [|c a IH]; [exact Hb|].
  pose proof (c_str_cons_head c a Ha) as Hc.
  pose proof (c_str_cons c a Ha) as Ha'.
  simpl. rewrite Hc, (IH Ha'). reflexivity.
Qed.

Lemma c_str_substring0 s : forall n,
  c_str s = s -> c_str (String.substring 0 n s) = String.substring 0 n s.
Proof.
  induction s as [|c s IH]; intros n Hs.
  - destruct n; reflexivity.
  - destruct n as [|n]; [reflexivity|].
    pose proof (c_str_cons_head c s Hs) as Hc.
    pose proof (c_str_cons c s Hs) as Hs'.
    simpl. rewrite Hc, (IH n Hs'). reflexivity.
Qed.

Lemma substring0_length s : forall n,
  (String.length (String.substring 0 n s) <= n)%nat.
Proof.
  induction s as [|c s IH]; intros [|n]; simpl; try lia.
  specialize (IH n). lia.
Qed.

Lemma substring0_whole s : forall n,
  (String.length s <= n)%nat -> String.substring 0 n s = s.
Proof.
  induction s as [|c s IH]; intros [|n] Hn; simpl in *; try reflexivity; try lia.
  rewrite IH by lia. reflexivity.
Qed.

Lemma c_str_uint d :
  c_str (NilEmpty.string_of_uint d) = NilEmpty.string_of_uint d.
Proof. induction d; simpl; try rewrite IHd; reflexivity. Qed.

Lemma c_str_fmt_d x : c_str (fmt_d x) = fmt_d x.
Proof.
  unfold fmt_d, NilZero.string_of_int, NilZero.string_of_uint.
  destruct (Z.to_int x) as [d|d]; destruct d;
    first [reflexivity | apply c_str_uint
          | (change (c_str (String "-" ?s)) with (String "-"%char (c_str s));
             simpl; try rewrite c_str_uint; reflexivity)].
Qed.

Lemma valid_knob_names k :
  valid_knob k = true ->
  k = "PHASE" \/ k = "CHROMA" \/ k = "BRIGHTNESS" \/ k = "CONTRAST".
Proof.
  unfold valid_knob. intros H.
  repeat (apply orb_true_iff in H; destruct H as [H|H]);
    apply String.eqb_eq in H; auto.
Qed.

Lemma c_str_knob_text k pos factor value :
  valid_knob k = true ->
  c_str (knob_text k pos factor value) = knob_text k pos factor value.
Proof.
  intros Hk. unfold knob_text.
  assert (Hck : c_str k = k).
  { destruct (valid_knob_names k Hk) as [-> | [-> | [-> | ->]]]; reflexivity. }
  repeat (apply c_str_append;
          [first [reflexivity | exact Hck | apply c_str_fmt_d
                 | destruct pos; reflexivity]|]).
  apply c_str_fmt_d.
Qed.

(** ** Frames built in [packetBuf] *)

Lemma map_u8_bytes_of s : map u8 (bytes_of s) = bytes_of s.
Proof.
  unfold bytes_of. rewrite map_map. apply map_ext. intros c.
  apply u8_small. pose proof (nat_ascii_bounded c). lia.
Qed.

Lemma bytes_of_length s : length (bytes_of s) = String.length s.
Proof.
  unfold bytes_of. rewrite length_map.
  induction s as [|c s IH]; simpl; [reflexivity|]. rewrite IH. reflexivity.
Qed.

Lemma put_bytes_spec bs : forall buf n,
  0 <= n ->
  n + Z.of_nat (length bs) <= Z.of_nat (length buf) ->
  Z.of_nat (length buf) <= 255 ->
  snd (put_bytes bs (buf, n)) = n + Z.of_nat (length bs) /\
  length (fst (put_bytes bs (buf, n))) = length buf /\
  take (Z.to_nat (n + Z.of_nat (length bs))) (fst (put_bytes bs (buf, n)))
  = take (Z.to_nat n) buf ++ map u8 bs.
Proof.
  induction bs as [|x bs IH] using rev_ind; intros buf n Hn Hfit Hsmall.
  - simpl. rewrite app_nil_r, Z.add_0_r. repeat split.
  - rewrite length_app in *. simpl length in *.
    destruct (IH buf n Hn ltac:(lia) Hsmall) as (Hs & Hl & Ht).
    unfold put_bytes in *. rewrite fold_left_app. simpl.
    destruct (fold_left (fun acc b => put_byte b acc) bs (buf, n)) as [b1 n1].
    simpl in Hs, Hl, Ht. subst n1. unfold put_byte. simpl.
    split; [rewrite u8_small; lia|].
    split; [rewrite length_insert; exact Hl|].
    replace (Z.to_nat (n + Z.of_nat (length bs + 1)))
      with (S (Z.to_nat (n + Z.of_nat (length bs)))) by lia.
    rewrite (take_S_r _ _ (u8 x)).
    + rewrite take_insert_ge by lia. rewrite Ht, map_app, <- app_assoc.
      reflexivity.
    + apply list_lookup_insert_eq. lia.
Qed.

Lemma put_byte_as_bytes b st : put_byte b st = put_bytes [b] st.
Proof. reflexivity. Qed.

Lemma put_bytes_app a b st :
  put_bytes b (put_bytes a st) = put_bytes (a ++ b) st.
Proof. unfold put_bytes. rewrite fold_left_app. reflexivity. Qed.

Lemma written_delay1 cl : written (delay1 cl) = written cl.
Proof. unfold delay1. destruct (arrivals cl); reflexivity. Qed.

Lemma written_wait n : forall need cl w,
  written (fst (wait_available n need cl w)) = written cl.
Proof.
  induction n as [|n IH]; intros need cl w; simpl.
  - destruct (_ <? _); reflexivity.
  - destruct (_ <? _); [|reflexivity].
    destruct (_ >=? _); simpl; [apply written_delay1|].
    rewrite IH. apply written_delay1.
Qed.

Lemma written_read n : forall i cl buf,
  written (fst (read_into n i cl buf)) = written cl.
Proof.
  induction n as [|n IH]; intros i cl buf; simpl; [reflexivity|].
  unfold client_read. destruct (rxbuf cl) as [|b rest].
  - apply IH.
  - rewrite IH. reflexivity.
Qed.

(** A frame that fits [packetBuf] is handed to [write] as built; the wait
    for the acknowledgement does not touch the queue. *)
Lemma send_frame_written buf dl g :
  0 <= dl <= sizeof_packetBuf ->
  Z.of_nat (length buf) = sizeof_packetBuf ->
  accepts (monitorClient g) = true ->
  exists r g',
    send_frame (buf, dl) g = Done (r, g') /\
    written (monitorClient g')
      = written (monitorClient g) ++ [take (Z.to_nat dl) buf] /\
    commandQueue g' = commandQueue g.
Proof.
  intros Hdl Hlen Hacc. unfold send_frame.
  destruct (dl >? sizeof_packetBuf) eqn:E; [zprop; lia|].
  generalize (Z.to_nat RECV_TIMEOUT) as n.
  generalize (Z.to_nat sizeof_button_response) as m. intros m n.
  unfold client_write.
  change (monitorClient (set_packetBuf buf g)) with (monitorClient g).
  rewrite Hacc.
  rewrite length_take_le by lia. rewrite Z2Nat.id by lia. rewrite Z.eqb_refl.
  set (cl0 := mkClient _ _ _ _).
  pose proof (written_wait n sizeof_button_response cl0 0) as Hw.
  destruct (wait_available n sizeof_button_response cl0 0) as [cl1 w1].
  cbn [fst written cl0] in Hw.
  destruct (w1 >=? RECV_TIMEOUT).
  - eexists. eexists. split; [reflexivity|]. split; [exact Hw|reflexivity].
  - pose proof (written_read m 0 cl1 (button_response (set_packetBuf buf g)))
      as Hr.
    destruct (read_into m 0 cl1 (button_response (set_packetBuf buf g)))
      as [cl2 resp].
    cbn [fst] in Hr.
    eexists. eexists. split; [reflexivity|].
    split; [cbn; rewrite Hr; exact Hw|reflexivity].
Qed.

Lemma bytes_of_append a b : bytes_of (a ++ b)%string = bytes_of a ++ bytes_of b.
Proof.
  unfold bytes_of. induction a as [|c a IH]; simpl; [reflexivity|].
  rewrite IH. reflexivity.
Qed.

Lemma knob_frame_parts prefix text :
  c_str text = text ->
  knob_frame prefix text
  = prefix ++ [strlen INFO_KNOB + 1 + strlen text] ++
    bytes_of INFO_KNOB ++ [0x20] ++ bytes_of text.
Proof.
  intros Hnul. unfold knob_frame, strlen. rewrite Hnul.
  rewrite !bytes_of_append, !length_app, !bytes_of_length.
  simpl. do 2 f_equal. lia.
Qed.

Lemma sendInfoKnobPacket_frame text g :
  c_str text = text ->
  strlen text <= COMMAND_LEN - 1 ->
  Z.of_nat (length (packetBuf g)) = sizeof_packetBuf ->
  accepts (monitorClient g) = true ->
  exists r g',
    sendInfoKnobPacket text g = Done (r, g') /\
    written (monitorClient g')
      = written (monitorClient g) ++ [knob_frame (take 12 (packetBuf g)) text] /\
    commandQueue g' = commandQueue g.
Proof.
  intros Hnul Hlen Hbuf Hacc. rewrite knob_frame_parts by exact Hnul.
  unfold sendInfoKnobPacket, put_text.
  rewrite !put_byte_as_bytes, !put_bytes_app.
  change (Z.of_nat (length header) - 1) with 12.
  match goal with
  | |- context [put_bytes ?l (?b, ?n)] =>
      set (bs := l); pose proof (put_bytes_spec bs b n) as Hspec
  end.
  assert (Hstr : strlen text = Z.of_nat (String.length text))
    by (unfold strlen; rewrite Hnul; reflexivity).
  assert (Hbs : Z.of_nat (length bs) = 10 + strlen text).
  { subst bs. rewrite !length_app, !bytes_of_length, Hnul, Hstr.
    change (String.length (c_str INFO_KNOB)) with 8%nat. cbn [length]. lia. }
  unfold COMMAND_LEN, sizeof_packetBuf in *.
  destruct Hspec as (Hs & Hl & Ht); [lia | lia | lia |].
  destruct (put_bytes bs (packetBuf g, 12)) as [buf dl].
  cbn [fst snd] in Hs, Hl, Ht.
  destruct (send_frame_written buf dl g) as (r & g' & Hsend & Hw & Hq);
    [unfold sizeof_packetBuf; lia | unfold sizeof_packetBuf; lia | exact Hacc |].
  exists r, g'. split; [exact Hsend|]. split; [|exact Hq].
  rewrite Hw. f_equal. f_equal. rewrite Hs, Ht.
  subst bs. rewrite !map_app, !map_u8_bytes_of, Hnul.
  change (c_str INFO_KNOB) with INFO_KNOB.
  change (strlen INFO_KNOB) with 8. cbn [map].
  rewrite !u8_small by lia.
  change (Z.to_nat 12) with 12%nat.
  replace (8 + strlen text + 1) with (8 + 1 + strlen text) by lia.
  reflexivity.
Qed.

(** ** Knob commands from the request to the frame *)

Lemma loop_command_knob g text rest :
  CmdQueue.wf (commandQueue g) ->
  CmdQueue.contents (commandQueue g) = mkCommand CT_INFOKNOB text :: rest ->
  c_str text = text ->
  strlen text <= COMMAND_LEN - 1 ->
  Z.of_nat (length (packetBuf g)) = sizeof_packetBuf ->
  accepts (monitorClient g) = true ->
  exists g',
    loop_command g = Done g' /\
    CmdQueue.contents (commandQueue g') = rest /\
    written (monitorClient g')
      = written (monitorClient g) ++ [knob_frame (take 12 (packetBuf g)) text].
Proof.
  intros Hwf Hc Hnul Hlen Hbuf Hacc.
  assert (Hpos : 0 < CmdQueue.m_count (commandQueue g)).
  { pose proof (CmdQueueFacts.contents_length (commandQueue g)) as L.
    destruct Hwf as [_ _ _ Hcount _]. rewrite Hc in L. simpl in L. lia. }
  destruct (CmdQueueFacts.pop_contents (commandQueue g) Hwf Hpos)
    as (t & q' & Hpop & Hcq & _).
  rewrite Hc in Hcq. injection Hcq as <- Hrest.
  unfold loop_command. rewrite Hpop. cbn [m_commandType m_command].
  destruct (sendInfoKnobPacket_frame text (set_commandQueue q' g)
              Hnul Hlen Hbuf Hacc) as (r & g' & Hsend & Hw & Hq).
  rewrite Hsend. exists g'. split; [reflexivity|].
  split; [rewrite Hq; symmetry; exact Hrest|exact Hw].
Qed.

(** The same path in the revision before the physical keys. *)
Lemma intermediate_handleReq_knob wl url now g :
  startsWith url knobURL = true ->
  IntermediateRevision.handleReq wl url now g
  = match knob_fields url with
    | None => Done (g, http_404)
    | Some (knobstr, posstr, factorstr, valuestr) =>
        match IntermediateRevision.knob_command knobstr posstr factorstr valuestr with
        | None => Done (g, http_404)
        | Some cmd =>
            if CmdQueue.getCount (commandQueue g) <? MAX_QUEUELEN then
              Done (set_commandQueue (CmdQueue.push cmd (commandQueue g)) g,
                    http_200_none)
            else Done (g, http_503)
        end
    end.
Proof.
  intros H. unfold IntermediateRevision.handleReq.
  destruct (route_knob url H) as (-> & -> & -> & -> & ->). rewrite H.
  reflexivity.
Qed.

Lemma intermediate_send_frame_written buf dl g :
  0 <= dl <= IntermediateRevision.sizeof_packetBuf ->
  Z.of_nat (length buf) = IntermediateRevision.sizeof_packetBuf ->
  accepts (monitorClient g) = true ->
  exists r g',
    IntermediateRevision.send_frame (buf, dl) g = Done (r, g') /\
    written (monitorClient g')
      = written (monitorClient g) ++ [take (Z.to_nat dl) buf] /\
    commandQueue g' = commandQueue g.
Proof.
  intros Hdl Hlen Hacc. unfold IntermediateRevision.send_frame.
  destruct (dl >? IntermediateRevision.sizeof_packetBuf) eqn:E; [zprop; lia|].
  generalize (Z.to_nat RECV_TIMEOUT) as n.
  generalize (Z.to_nat sizeof_button_response) as m. intros m n.
  unfold client_write.
  change (monitorClient (set_packetBuf buf g)) with (monitorClient g).
  rewrite Hacc.
  rewrite length_take_le by lia. rewrite Z2Nat.id by lia. rewrite Z.eqb_refl.
  set (cl0 := mkClient _ _ _ _).
  pose proof (written_wait n sizeof_button_response cl0 0) as Hw.
  destruct (wait_available n sizeof_button_response cl0 0) as [cl1 w1].
  cbn [fst written cl0] in Hw.
  destruct (w1 >=? RECV_TIMEOUT).
  - eexists. eexists. split; [reflexivity|]. split; [exact Hw|reflexivity].
  - pose proof (written_read m 0 cl1 (button_response (set_packetBuf buf g)))
      as Hr.
    destruct (read_into m 0 cl1 (button_response (set_packetBuf buf g)))
      as [cl2 resp].
    cbn [fst] in Hr.
    eexists. eexists. split; [reflexivity|].
    split; [cbn; rewrite Hr; exact Hw|reflexivity].
Qed.

(** What [sendInfoKnobPacket] has built when it calls [write]: 22 bytes
    and the text. *)
Lemma knob_frame_built text buf :
  c_str text = text ->
  22 + strlen text <= Z.of_nat (length buf) <= 255 ->
  let st := put_text text
              (put_byte 0x20
                 (put_text INFO_KNOB
                    (put_byte (strlen INFO_KNOB + strlen text + 1) (buf, 12)))) in
  snd st = 22 + strlen text /\
  length (fst st) = length buf /\
  take (Z.to_nat (snd st)) (fst st) = knob_frame (take 12 buf) text.
Proof.
  intros Hnul Hfit st. subst st. rewrite knob_frame_parts by exact Hnul.
  unfold put_text. rewrite !put_byte_as_bytes, !put_bytes_app.
  match goal with
  | |- context [put_bytes ?l (?b, ?n)] =>
      set (bs := l); pose proof (put_bytes_spec bs b n) as Hspec
  end.
  assert (Hstr : strlen text = Z.of_nat (String.length text))
    by (unfold strlen; rewrite Hnul; reflexivity).
  assert (Hbs : Z.of_nat (length bs) = 10 + strlen text).
  { subst bs. rewrite !length_app, !bytes_of_length, Hnul, Hstr.
    change (String.length (c_str INFO_KNOB)) with 8%nat. cbn [length]. lia. }
  destruct Hspec as (Hs & Hl & Ht); [lia | lia | lia |].
  destruct (put_bytes bs (buf, 12)) as [buf' dl].
  cbn [fst snd] in *.
  split; [lia|]. split; [exact Hl|].
  rewrite Hs, Ht. subst bs. rewrite !map_app, !map_u8_bytes_of, Hnul.
  change (c_str INFO_KNOB) with INFO_KNOB.
  change (strlen INFO_KNOB) with 8. cbn [map].
  rewrite !u8_small by lia.
  change (Z.to_nat 12) with 12%nat.
  replace (8 + strlen text + 1) with (8 + 1 + strlen text) by lia.
  reflexivity.
Qed.

Lemma intermediate_sendInfoKnobPacket_frame text g :
  c_str text = text ->
  strlen text <= 18 ->
  Z.of_nat (length (packetBuf g)) = IntermediateRevision.sizeof_packetBuf ->
  accepts (monitorClient g) = true ->
  exists r g',
    IntermediateRevision.sendInfoKnobPacket text g = Done (r, g') /\
    written (monitorClient g')
      = written (monitorClient g) ++ [knob_frame (take 12 (packetBuf g)) text] /\
    commandQueue g' = commandQueue g.
Proof.
  intros Hnul Hlen Hbuf Hacc.
  unfold IntermediateRevision.sendInfoKnobPacket.
  change (Z.of_nat (length header) - 1) with 12.
  assert (Hpos : 0 <= strlen text) by (unfold strlen; lia).
  unfold IntermediateRevision.sizeof_packetBuf in Hbuf.
  destruct (knob_frame_built text (packetBuf g) Hnul) as (Hs & Hl & Ht); [lia|].
  destruct (put_text text _) as [buf dl]. cbn [fst snd] in Hs, Hl, Ht.
  destruct (intermediate_send_frame_written buf dl g) as (r & g' & Hsend & Hw & Hq);
    [unfold IntermediateRevision.sizeof_packetBuf; lia
    | unfold IntermediateRevision.sizeof_packetBuf; lia | exact Hacc |].
  exists r, g'. split; [exact Hsend|]. split; [|exact Hq].
  rewrite Hw, Ht. reflexivity.
Qed.

Lemma intermediate_loop_command_front g c rest :
  CmdQueue.wf (commandQueue g) ->
  CmdQueue.contents (commandQueue g) = c :: rest ->
  exists q',
    CmdQueue.pop (commandQueue g) = (Some c, q') /\
    CmdQueue.contents q' = rest.
Proof.
  intros Hwf Hc.
  assert (Hpos : 0 < CmdQueue.m_count (commandQueue g)).
  { pose proof (CmdQueueFacts.contents_length (commandQueue g)) as L.
    destruct Hwf as [_ _ _ Hcount _]. rewrite Hc in L. simpl in L. lia. }
  destruct (CmdQueueFacts.pop_contents (commandQueue g) Hwf Hpos)
    as (t & q' & Hpop & Hcq & _).
  rewrite Hc in Hcq. injection Hcq as <- Hrest.
  exists q'. split; [exact Hpop|symmetry; exact Hrest].
Qed.

Lemma intermediate_loop_command_knob g text rest :
  CmdQueue.wf (commandQueue g) ->
  CmdQueue.contents (commandQueue g) = mkCommand CT_INFOKNOB text :: rest ->
  c_str text = text ->
  strlen text <= 18 ->
  Z.of_nat (length (packetBuf g)) = IntermediateRevision.sizeof_packetBuf ->
  accepts (monitorClient g) = true ->
  exists g',
    IntermediateRevision.loop_command g = Done g' /\
    CmdQueue.contents (commandQueue g') = rest /\
    written (monitorClient g')
      = written (monitorClient g) ++ [knob_frame (take 12 (packetBuf g)) text].
Proof.
  intros Hwf Hc Hnul Hlen Hbuf Hacc.
  destruct (intermediate_loop_command_front g _ rest Hwf Hc) as (q' & Hpop & Hrest).
  unfold IntermediateRevision.loop_command. rewrite Hpop.
  cbn [m_commandType m_command].
  destruct (intermediate_sendInfoKnobPacket_frame text (set_commandQueue q' g)
              Hnul Hlen Hbuf Hacc) as (r & g' & Hsend & Hw & Hq).
  rewrite Hsend. exists g'. split; [reflexivity|].
  split; [rewrite Hq; exact Hrest|exact Hw].
Qed.

Lemma snprintf_knob_text size k pos factor value :
  valid_knob k = true ->
  1 <= size ->
  let text := snprintf size (knob_text k pos factor value) in
  c_str text = text /\ strlen text <= size - 1 /\
  (Z.of_nat (String.length (knob_text k pos factor value)) <= size - 1 ->
   text = knob_text k pos factor value).
Proof.
  intros Hk Hsize text.
  assert (Hnul : c_str text = text).
  { apply c_str_substring0, c_str_knob_text, Hk. }
  split; [exact Hnul|]. split.
  - unfold strlen. rewrite Hnul. subst text. unfold snprintf.
    pose proof (substring0_length (knob_text k pos factor value)
                  (Z.to_nat (size - 1))). lia.
  - intros Hshort. subst text. unfold snprintf.
    apply substring0_whole. lia.
Qed.

(** C6, as the code has it.  A knob request with a valid knob name, a
    direction "p" or "n" and a factor and ticks that parse to non-zero
    integers is accepted when the queue has room.  The queued text is
    ["R <knob> 96/<factor>/<ticks>"] (with ["-"] before the factor for "n")
    cut to the size given to [snprintf] less one: to its first
    [COMMAND_LEN - 1 = 24] characters in revision 0.4, to its first 19 in
    the revision before it; so it is the whole text exactly when that has
    no more characters than that.  When the command reaches the front of
    the queue, the frame written to the monitor is the twelve header
    bytes, the payload length, and the payload [INFOknob], a space and the
    queued text: for every queued text in revision 0.4, and in the
    revision before it for the texts of up to 18 characters, whose frames
    its [packetBuf] of 40 bytes holds. *)
Theorem knob_command_encoding wl url now g k d f v :
  startsWith url knobURL = true ->
  knob_fields url = Some (k, d, f, v) ->
  valid_knob k = true ->
  d = "p" \/ d = "n" ->
  toInt f <> 0 ->
  toInt v <> 0 ->
  CmdQueue.wf (commandQueue g) ->
  CmdQueue.m_maxCount (commandQueue g) = MAX_QUEUELEN ->
  CmdQueue.getCount (commandQueue g) < MAX_QUEUELEN ->
  let full := knob_text k (String.eqb d "p") (toInt f) (toInt v) in
  (let text := snprintf COMMAND_LEN full in
   let cmd := mkCommand CT_INFOKNOB text in
   text = String.substring 0 24 full /\
   (Z.of_nat (String.length full) <= 24 -> text = full) /\
   (exists g1,
      handleReq wl url now g = Done (g1, http_200_none) /\
      CmdQueue.contents (commandQueue g1)
        = CmdQueue.contents (commandQueue g) ++ [cmd]) /\
   (forall g2 rest,
      CmdQueue.wf (commandQueue g2) ->
      CmdQueue.contents (commandQueue g2) = cmd :: rest ->
      Z.of_nat (length (packetBuf g2)) = sizeof_packetBuf ->
      take 12 (packetBuf g2) = take 12 header ->
      accepts (monitorClient g2) = true ->
      exists g3,
        loop_command g2 = Done g3 /\
        CmdQueue.contents (commandQueue g3) = rest /\
        written (monitorClient g3)
          = written (monitorClient g2) ++ [knob_frame (take 12 header) text])) /\
  (let text := snprintf 20 full in
   let cmd := mkCommand CT_INFOKNOB text in
   text = String.substring 0 19 full /\
   (Z.of_nat (String.length full) <= 19 -> text = full) /\
   (exists g1,
      IntermediateRevision.handleReq wl url now g = Done (g1, http_200_none) /\
      CmdQueue.contents (commandQueue g1)
        = CmdQueue.contents (commandQueue g) ++ [cmd]) /\
   (forall g2 rest,
      strlen text <= 18 ->
      CmdQueue.wf (commandQueue g2) ->
      CmdQueue.contents (commandQueue g2) = cmd :: rest ->
      Z.of_nat (length (packetBuf g2)) = IntermediateRevision.sizeof_packetBuf ->
      take 12 (packetBuf g2) = take 12 header ->
      accepts (monitorClient g2) = true ->
      exists g3,
        IntermediateRevision.loop_command g2 = Done g3 /\
        CmdQueue.contents (commandQueue g3) = rest /\
        written (monitorClient g3)
          = written (monitorClient g2) ++ [knob_frame (take 12 header) text])).
Proof.
  intros Hroute Hfields Hk Hd Hf Hv Hwf Hmax Hroom full.
  assert (Hpos : exists pos,
            String.eqb d "p" = pos /\
            (if String.eqb d "n" then Some false
             else if String.eqb d "p" then Some true else None) = Some pos).
  { destruct Hd as [-> | ->]; eexists; split; reflexivity. }
  destruct Hpos as (pos & Epos & Hpos).
  apply Z.eqb_neq in Hf. apply Z.eqb_neq in Hv.
  assert (Hpush : forall cmd,
            CmdQueue.contents (CmdQueue.push cmd (commandQueue g))
            = CmdQueue.contents (commandQueue g) ++ [cmd]).
  { intros cmd. apply CmdQueueFacts.push_contents; [exact Hwf|].
    unfold CmdQueue.getCount in Hroom. lia. }
  split.
  - intros text cmd.
    destruct (snprintf_knob_text COMMAND_LEN k (String.eqb d "p") (toInt f)
                (toInt v) Hk) as (Hnul & Hlen & Hwhole);
      [unfold COMMAND_LEN; lia|].
    fold full in Hnul, Hlen, Hwhole. fold text in Hnul, Hlen, Hwhole.
    assert (Hcmd : knob_command k d f v = Some cmd).
    { unfold knob_command. rewrite Hk. cbn [negb]. rewrite Hpos, Hf, Hv.
      cbn [orb]. subst cmd text full. rewrite Epos. reflexivity. }
    split; [reflexivity|]. split; [exact Hwhole|]. split.
    + rewrite (handleReq_knob wl url now g Hroute), Hfields, Hcmd.
      destruct (_ <? _) eqn:E; [|zprop; lia].
      eexists. split; [reflexivity|]. apply Hpush.
    + intros g2 rest Hwf2 Hc2 Hbuf Hhdr Hacc.
      rewrite <- Hhdr.
      apply loop_command_knob; assumption.
  - intros text cmd.
    destruct (snprintf_knob_text 20 k (String.eqb d "p") (toInt f)
                (toInt v) Hk) as (Hnul & Hlen & Hwhole); [lia|].
    fold full in Hnul, Hlen, Hwhole. fold text in Hnul, Hlen, Hwhole.
    assert (Hcmd : IntermediateRevision.knob_command k d f v = Some cmd).
    { unfold IntermediateRevision.knob_command. rewrite Hk. cbn [negb].
      rewrite Hpos, Hf, Hv. cbn [orb]. subst cmd text full. rewrite Epos.
      reflexivity. }
    split; [reflexivity|]. split; [exact Hwhole|]. split.
    + rewrite (intermediate_handleReq_knob wl url now g Hroute), Hfields, Hcmd.
      destruct (_ <? _) eqn:E; [|zprop; lia].
      eexists. split; [reflexivity|]. apply Hpush.
    + intros g2 rest Hshort Hwf2 Hc2 Hbuf Hhdr Hacc.
      rewrite <- Hhdr.
      apply intermediate_loop_command_knob; assumption.
Qed.

Lemma knob_command_encoding_witness :
  let g := boot true (replicate 8 inhabitant) idle_client in
  let g' := IntermediateRevision.boot true (replicate 8 inhabitant) idle_client in
  let text := "R PHASE 96/10/5" in
  let cmd := mkCommand CT_INFOKNOB text in
  let frame := take 12 header ++ [24] ++ bytes_of "INFOknob R PHASE 96/10/5" in
  (exists g1 g3,
     handleReq (Some 1%nat) "/turnknob/PHASE/p/10/5" 0 g = Done (g1, http_200_none) /\
     CmdQueue.contents (commandQueue g1) = [cmd] /\
     loop_command g1 = Done g3 /\
     CmdQueue.contents (commandQueue g3) = [] /\
     written (monitorClient g3) = [frame]) /\
  (exists g1 g3,
     IntermediateRevision.handleReq (Some 1%nat) "/turnknob/PHASE/p/10/5" 0 g'
       = Done (g1, http_200_none) /\
     CmdQueue.contents (commandQueue g1) = [cmd] /\
     IntermediateRevision.loop_command g1 = Done g3 /\
     CmdQueue.contents (commandQueue g3) = [] /\
     written (monitorClient g3) = [frame]).
Proof.
  intros g g' text cmd frame.
  assert (Hwf : CmdQueue.wf (commandQueue g)).
  { constructor; cbn; change (u8 MAX_QUEUELEN) with 8; first [lia | reflexivity]. }
  assert (Hf : toInt "10" <> 0) by (vm_compute; discriminate).
  assert (Hv : toInt "5" <> 0) by (vm_compute; discriminate).
  split.
  - destruct (knob_command_encoding (Some 1%nat) "/turnknob/PHASE/p/10/5" 0 g
                "PHASE" "p" "10" "5" eq_refl eq_refl eq_refl
                (or_introl eq_refl) Hf Hv Hwf eq_refl eq_refl)
      as ((_ & _ & (g1 & H1 & C1) & Hsend) & _).
    assert (Hg1 : g1 = after_request (Some 1%nat) "/turnknob/PHASE/p/10/5" 0 g).
    { unfold after_request. rewrite H1. reflexivity. }
    assert (Hwf1 : CmdQueue.wf (commandQueue g1)).
    { rewrite Hg1. constructor; vm_compute; repeat split;
        first [reflexivity | discriminate]. }
    destruct (Hsend g1 [] Hwf1 C1) as (g3 & H3 & C3 & W3);
      [rewrite Hg1; reflexivity | rewrite Hg1; reflexivity
      | rewrite Hg1; reflexivity |].
    exists g1, g3. split; [exact H1|]. split; [exact C1|].
    split; [exact H3|]. split; [exact C3|].
    rewrite W3, Hg1. reflexivity.
  - destruct (knob_command_encoding (Some 1%nat) "/turnknob/PHASE/p/10/5" 0 g'
                "PHASE" "p" "10" "5" eq_refl eq_refl eq_refl
                (or_introl eq_refl) Hf Hv Hwf eq_refl eq_refl)
      as (_ & (_ & _ & (g1 & H1 & C1) & Hsend)).
    assert (Hg1 : g1 = set_commandQueue
                         (CmdQueue.push cmd (commandQueue g')) g').
    { assert (E : IntermediateRevision.handleReq (Some 1%nat)
                    "/turnknob/PHASE/p/10/5" 0 g'
                  = Done (set_commandQueue
                            (CmdQueue.push cmd (commandQueue g')) g',
                          http_200_none)) by reflexivity.
      rewrite E in H1. injection H1 as <-. reflexivity. }
    assert (Hwf1 : CmdQueue.wf (commandQueue g1)).
    { rewrite Hg1. constructor; vm_compute; repeat split;
        first [reflexivity | discriminate]. }
    destruct (Hsend g1 []) as (g3 & H3 & C3 & W3);
      [vm_compute; discriminate | exact Hwf1 | exact C1
      | rewrite Hg1; reflexivity | rewrite Hg1; reflexivity
      | rewrite Hg1; reflexivity |].
    exists g1, g3. split; [exact H1|]. split; [exact C1|].
    split; [exact H3|]. split; [exact C3|].
    rewrite W3, Hg1. reflexivity.
Defined.

(** C6 as the claim states it fails for long texts: BRIGHTNESS, direction
    "n", factor 1000 and ticks 100 are all valid, the request is accepted,
    and the queued text has lost its last character.  In the revision
    before the physical keys the same happens to BRIGHTNESS, direction
    "p", factor 10 and ticks 5. *)
Lemma knob_text_truncated :
  let g := boot true (replicate 8 inhabitant) idle_client in
  let g' := IntermediateRevision.boot true (replicate 8 inhabitant) idle_client in
  valid_knob "BRIGHTNESS" = true /\
  toInt "1000" = 1000 /\ toInt "100" = 100 /\
  toInt "10" = 10 /\ toInt "5" = 5 /\
  knob_text "BRIGHTNESS" false 1000 100 = "R BRIGHTNESS 96/-1000/100" /\
  knob_text "BRIGHTNESS" true 10 5 = "R BRIGHTNESS 96/10/5" /\
  (exists g1,
     handleReq (Some 1%nat) "/turnknob/BRIGHTNESS/n/1000/100" 0 g
       = Done (g1, http_200_none) /\
     CmdQueue.contents (commandQueue g1)
       = [mkCommand CT_INFOKNOB "R BRIGHTNESS 96/-1000/10"] /\
     CmdQueue.contents (commandQueue g1)
       <> [mkCommand CT_INFOKNOB (knob_text "BRIGHTNESS" false 1000 100)]) /\
  (exists g1,
     IntermediateRevision.handleReq (Some 1%nat) "/turnknob/BRIGHTNESS/p/10/5" 0 g'
       = Done (g1, http_200_none) /\
     CmdQueue.contents (commandQueue g1)
       = [mkCommand CT_INFOKNOB "R BRIGHTNESS 96/10/"] /\
     CmdQueue.contents (commandQueue g1)
       <> [mkCommand CT_INFOKNOB (knob_text "BRIGHTNESS" true 10 5)]).
Proof.
  intros g g'. repeat (split; [reflexivity|]).
  split.
  - eexists. split; [vm_compute; reflexivity|].
    split; [reflexivity|]. vm_compute. discriminate.
  - eexists. split; [vm_compute; reflexivity|].
    split; [reflexivity|]. vm_compute. discriminate.
Qed.

(** ** Two waiters at once *)

(** C4, evaluated where the code departs from the claim.  Client 1
    registers, then client 2 registers while client 1 still waits.  The
    second [push] stores into the slot the first one occupies: the registry
    counts two waiters but holds only the socket of client 2.  When the
    status then changes, client 2 is answered 200 and client 1 receives
    nothing; the same happens with 204 when instead the waiters time out.
    Client 1 gets no terminal signal at all. *)
Theorem second_waiter_overwrites_first :
  let resp := status_block
    [0x38; 0x30; 0x30; 0x30; 0x20; 0x30; 0x30; 0x30; 0x30; 0x20;
     0x30; 0x30; 0x30; 0x30; 0x20; 0x30; 0x30; 0x30; 0x30; 0x20;
     0x30; 0x30; 0x30; 0x30] in
  let g0 := boot true (replicate 8 inhabitant) (mkClient resp [] [] true) in
  let g1 := after_request (Some 1%nat) "/statuswait" 1000 g0 in
  let '(g1', out1) := checkStatusNotification 1010 g1 in
  let g2 := after_request (Some 2%nat) "/statuswait" 2000 g1' in
  let '(g2', out2) := checkStatusNotification 2010 g2 in
  let '(g3, out3) := checkStatusNotification 2500 (updateStatus g2') in
  let '(g4, out4) := checkStatusNotification 40000 g2' in
  Waiters.held (statusWaiters g1) = [1%nat] /\
  out1 = [] /\
  Waiters.getCount (statusWaiters g2) = 2 /\
  Waiters.held (statusWaiters g2) = [2%nat] /\
  out2 = [] /\
  statusUpdated (updateStatus g2') = true /\
  deliveries 2 out3 = 1%nat /\
  deliveries 1 out3 = 0%nat /\ evictions 1 out3 = 0%nat /\
  Waiters.getCount (statusWaiters g3) = 0 /\
  Waiters.held (statusWaiters g3) = [] /\
  evictions 2 out4 = 1%nat /\
  deliveries 1 out4 = 0%nat /\ evictions 1 out4 = 0%nat /\
  Waiters.getCount (statusWaiters g4) = 0 /\
  Waiters.held (statusWaiters g4) = [].
Proof. vm_compute. repeat split. Qed.

(** * Further properties of the sketch *)

(** ** The ring buffer under any sequence of calls *)

Lemma peek_head {T : Type} `{Inhabited T} (q : CmdQueue.Queue T) :
  CmdQueue.wf q -> CmdQueue.peek q = head (CmdQueue.contents q).
Proof.
  intros [Hm Hl Ht Hc Hh]. unfold CmdQueue.peek, CmdQueue.contents.
  destruct (CmdQueue.m_count q =? 0) eqn:E; zprop.
  - rewrite E. reflexivity.
  - replace (Z.to_nat (CmdQueue.m_count q))
      with (S (Z.to_nat (CmdQueue.m_count q - 1))) by lia.
    simpl. unfold CmdQueue.slot_at.
    rewrite Z.add_0_r, Z.mod_small by lia. reflexivity.
Qed.

Lemma pop_as_list {T : Type} `{Inhabited T} (q : CmdQueue.Queue T) :
  CmdQueue.wf q ->
  fst (CmdQueue.pop q) = head (CmdQueue.contents q) /\
  CmdQueue.contents (snd (CmdQueue.pop q)) = tail (CmdQueue.contents q) /\
  CmdQueue.wf (snd (CmdQueue.pop q)) /\
  CmdQueue.m_maxCount (snd (CmdQueue.pop q)) = CmdQueue.m_maxCount q.
Proof.
  intros Hwf.
  destruct (Z.eq_dec (CmdQueue.m_count q) 0) as [E | E].
  - rewrite (CmdQueueFacts.pop_empty q E). simpl.
    unfold CmdQueue.contents. rewrite E. simpl. auto.
  - assert (Hpos : 0 < CmdQueue.m_count q)
      by (destruct Hwf as [_ _ _ Hc _]; lia).
    destruct (CmdQueueFacts.pop_contents q Hwf Hpos)
      as (t & q' & Hp & Hc & Hw & _ & Hm).
    rewrite Hp, Hc. simpl. auto.
Qed.

Lemma push_as_list {T : Type} `{Inhabited T} (q : CmdQueue.Queue T) (t : T) :
  CmdQueue.wf q ->
  CmdQueue.contents (CmdQueue.push t q)
  = if (length (CmdQueue.contents q) <? Z.to_nat (CmdQueue.m_maxCount q))%nat
    then CmdQueue.contents q ++ [t] else CmdQueue.contents q.
Proof.
  intros Hwf.
  pose proof (CmdQueueFacts.contents_length q) as L.
  destruct Hwf as [Hm Hl Ht Hc Hh].
  destruct (Nat.ltb_spec (length (CmdQueue.contents q))
              (Z.to_nat (CmdQueue.m_maxCount q))) as [Hlt | Hge].
  - apply CmdQueueFacts.push_contents; [constructor; assumption|lia].
  - rewrite CmdQueueFacts.push_full by lia. reflexivity.
Qed.

(** X1.  Whatever the sequence of [push], [pop] and [peek], the ring answers
    like a list that takes entries at its end while it holds fewer than
    [m_maxCount] of them, and gives them back from its front; the
    invariant of the ring is kept, and [getCount] is the number of
    entries held. *)
Theorem queue_refines_bounded_fifo {T : Type} `{Inhabited T}
    (ops : list (QueueOp T)) (q : CmdQueue.Queue T) :
  CmdQueue.wf q ->
  fifo_ops (Z.to_nat (CmdQueue.m_maxCount q)) ops (CmdQueue.contents q)
    = (fst (run_ops ops q), CmdQueue.contents (snd (run_ops ops q))) /\
  CmdQueue.wf (snd (run_ops ops q)) /\
  CmdQueue.getCount (snd (run_ops ops q))
    = Z.of_nat (length (CmdQueue.contents (snd (run_ops ops q)))) /\
  CmdQueue.getCount (snd (run_ops ops q)) <= CmdQueue.m_maxCount q.
Proof.
  revert q. induction ops as [|op ops IH]; intros q Hwf.
  - simpl. split; [reflexivity|]. split; [exact Hwf|].
    destruct Hwf as [Hm Hl Ht Hc Hh]. unfold CmdQueue.getCount.
    rewrite CmdQueueFacts.contents_length by lia. lia.
  - destruct op as [t| |].
    + simpl. rewrite <- (push_as_list q t Hwf).
      rewrite <- (CmdQueueFacts.push_maxCount q t).
      apply IH, CmdQueueFacts.push_wf, Hwf.
    + destruct (pop_as_list q Hwf) as (Hr & Hc & Hw & Hm).
      simpl. destruct (CmdQueue.pop q) as [r q1]. simpl in Hr, Hc, Hw, Hm.
      destruct (IH q1 Hw) as (IH1 & IH2 & IH3 & IH4).
      destruct (run_ops ops q1) as [rs q2]. simpl in *.
      rewrite Hm in IH1, IH4. rewrite Hc in IH1. rewrite IH1, Hr. auto.
    + destruct (IH q Hwf) as (IH1 & IH2 & IH3 & IH4).
      simpl. destruct (run_ops ops q) as [rs q2]. simpl in *.
      rewrite IH1, (peek_head q Hwf). auto.
Qed.

Lemma queue_refines_bounded_fifo_witness :
  let a := mkCommand CT_STATUS "POWER" in
  let b := mkCommand CT_INFO "MENU" in
  let q := CmdQueue.Queue_new 2 [a; a] in
  let ops :=
    [OpPush a; OpPush b; OpPush a; OpPop; OpPush a; OpPeek; OpPop; OpPop; OpPop] in
  fifo_ops 2 ops [] = ([Some a; Some b; Some b; Some a; None], []) /\
  fifo_ops 2 ops [] = (fst (run_ops ops q), CmdQueue.contents (snd (run_ops ops q))) /\
  CmdQueue.getCount (snd (run_ops ops q)) = 0.
Proof.
  intros a b q ops.
  assert (Hwf : CmdQueue.wf q).
  { constructor; cbn; change (u8 2) with 2; first [lia | reflexivity]. }
  destruct (queue_refines_bounded_fifo ops q Hwf) as (H1 & _ & H3 & _).
  split; [reflexivity|]. split; [exact H1|]. reflexivity.
Defined.

(** ** From a request to the frame: toggles and info buttons *)

Lemma put_bytes_count bs : forall buf n,
  0 <= n -> n + Z.of_nat (length bs) <= 255 ->
  snd (put_bytes bs (buf, n)) = n + Z.of_nat (length bs).
Proof.
  induction bs as [|x bs IH] using rev_ind; intros buf n Hn Hfit.
  - simpl. lia.
  - rewrite length_app in *. simpl length in *.
    pose proof (IH buf n Hn ltac:(lia)) as Hs.
    unfold put_bytes in *. rewrite fold_left_app. simpl.
    destruct (fold_left (fun acc b => put_byte b acc) bs (buf, n)) as [b1 n1].
    simpl in Hs. subst n1. unfold put_byte. simpl.
    rewrite u8_small; lia.
Qed.

Lemma toggle_frame_parts prefix button :
  c_str button = button ->
  toggle_frame prefix button
  = prefix ++ [strlen STATUS_SET + strlen button + strlen TOGGLE + 2] ++
    bytes_of STATUS_SET ++ [0x20] ++ bytes_of button ++ [0x20] ++ bytes_of TOGGLE.
Proof.
  intros Hnul. unfold toggle_frame, strlen. rewrite Hnul.
  rewrite !bytes_of_append, !length_app, !bytes_of_length.
  simpl. do 2 f_equal. lia.
Qed.

Lemma info_frame_parts prefix button :
  c_str button = button ->
  info_frame prefix button
  = prefix ++ [strlen INFO_BUTTON + strlen button + 2] ++
    bytes_of INFO_BUTTON ++ [0x20] ++ bytes_of button ++ [0x20].
Proof.
  intros Hnul. unfold info_frame, strlen. rewrite Hnul.
  rewrite !bytes_of_append, !length_app, !bytes_of_length.
  simpl. do 2 f_equal. lia.
Qed.

Lemma sendStatusButtonTogglePacket_frame button g :
  c_str button = button ->
  strlen button <= 22 ->
  Z.of_nat (length (packetBuf g)) = sizeof_packetBuf ->
  accepts (monitorClient g) = true ->
  exists r g',
    sendStatusButtonTogglePacket button g = Done (r, g') /\
    written (monitorClient g')
      = written (monitorClient g) ++ [toggle_frame (take 12 (packetBuf g)) button] /\
    commandQueue g' = commandQueue g.
Proof.
  intros Hnul Hlen Hbuf Hacc. rewrite toggle_frame_parts by exact Hnul.
  unfold sendStatusButtonTogglePacket, put_text.
  rewrite !put_byte_as_bytes, !put_bytes_app.
  change (Z.of_nat (length header) - 1) with 12.
  match goal with
  | |- context [put_bytes ?l (?b, ?n)] =>
      set (bs := l); pose proof (put_bytes_spec bs b n) as Hspec
  end.
  assert (Hstr : strlen button = Z.of_nat (String.length button))
    by (unfold strlen; rewrite Hnul; reflexivity).
  assert (Hbs : Z.of_nat (length bs) = 16 + strlen button).
  { subst bs. rewrite !length_app, !bytes_of_length, Hnul, Hstr.
    change (String.length (c_str STATUS_SET)) with 7%nat.
    change (String.length (c_str TOGGLE)) with 6%nat. cbn [length]. lia. }
  unfold sizeof_packetBuf in *.
  destruct Hspec as (Hs & Hl & Ht); [lia | lia | lia |].
  destruct (put_bytes bs (packetBuf g, 12)) as [buf dl].
  cbn [fst snd] in Hs, Hl, Ht.
  destruct (send_frame_written buf dl g) as (r & g' & Hsend & Hw & Hq);
    [unfold sizeof_packetBuf; lia | unfold sizeof_packetBuf; lia | exact Hacc |].
  exists r, g'. split; [exact Hsend|]. split; [|exact Hq].
  rewrite Hw. f_equal. f_equal. rewrite Hs, Ht.
  subst bs. rewrite !map_app, !map_u8_bytes_of, Hnul.
  change (c_str STATUS_SET) with STATUS_SET.
  change (c_str TOGGLE) with TOGGLE.
  change (strlen STATUS_SET) with 7. change (strlen TOGGLE) with 6. cbn [map].
  rewrite !u8_small by lia.
  change (Z.to_nat 12) with 12%nat.
  rewrite <- ?app_assoc. reflexivity.
Qed.

Lemma sendStatusButtonTogglePacket_overrun button g :
  c_str button = button ->
  22 < strlen button <= 24 ->
  sendStatusButtonTogglePacket button g
  = BufferOverflow (28 + strlen button) sizeof_packetBuf.
Proof.
  intros Hnul Hlen.
  unfold sendStatusButtonTogglePacket, put_text.
  rewrite !put_byte_as_bytes, !put_bytes_app.
  change (Z.of_nat (length header) - 1) with 12.
  match goal with
  | |- context [put_bytes ?l (?b, ?n)] =>
      set (bs := l); pose proof (put_bytes_count bs b n) as Hspec
  end.
  assert (Hstr : strlen button = Z.of_nat (String.length button))
    by (unfold strlen; rewrite Hnul; reflexivity).
  assert (Hbs : Z.of_nat (length bs) = 16 + strlen button).
  { subst bs. rewrite !length_app, !bytes_of_length, Hnul, Hstr.
    change (String.length (c_str STATUS_SET)) with 7%nat.
    change (String.length (c_str TOGGLE)) with 6%nat. cbn [length]. lia. }
  specialize (Hspec ltac:(lia) ltac:(lia)).
  destruct (put_bytes bs (packetBuf g, 12)) as [buf dl].
  cbn [snd] in Hspec. unfold send_frame.
  destruct (dl >? sizeof_packetBuf) eqn:E.
  - f_equal. lia.
  - zprop. unfold sizeof_packetBuf in E. lia.
Qed.

Lemma sendInfoButtonPacket_frame button g :
  c_str button = button ->
  strlen button <= COMMAND_LEN - 1 ->
  Z.of_nat (length (packetBuf g)) = sizeof_packetBuf ->
  accepts (monitorClient g) = true ->
  exists r g',
    sendInfoButtonPacket button g = Done (r, g') /\
    written (monitorClient g')
      = written (monitorClient g) ++ [info_frame (take 12 (packetBuf g)) button] /\
    commandQueue g' = commandQueue g.
Proof.
  intros Hnul Hlen Hbuf Hacc. rewrite info_frame_parts by exact Hnul.
  unfold sendInfoButtonPacket, put_text.
  rewrite !put_byte_as_bytes, !put_bytes_app.
  change (Z.of_nat (length header) - 1) with 12.
  match goal with
  | |- context [put_bytes ?l (?b, ?n)] =>
      set (bs := l); pose proof (put_bytes_spec bs b n) as Hspec
  end.
  assert (Hstr : strlen button = Z.of_nat (String.length button))
    by (unfold strlen; rewrite Hnul; reflexivity).
  assert (Hbs : Z.of_nat (length bs) = 13 + strlen button).
  { subst bs. rewrite !length_app, !bytes_of_length, Hnul, Hstr.
    change (String.length (c_str INFO_BUTTON)) with 10%nat. cbn [length]. lia. }
  unfold COMMAND_LEN, sizeof_packetBuf in *.
  destruct Hspec as (Hs & Hl & Ht); [lia | lia | lia |].
  destruct (put_bytes bs (packetBuf g, 12)) as [buf dl].
  cbn [fst snd] in Hs, Hl, Ht.
  destruct (send_frame_written buf dl g) as (r & g' & Hsend & Hw & Hq);
    [unfold sizeof_packetBuf; lia | unfold sizeof_packetBuf; lia | exact Hacc |].
  exists r, g'. split; [exact Hsend|]. split; [|exact Hq].
  rewrite Hw. f_equal. f_equal. rewrite Hs, Ht.
  subst bs. rewrite !map_app, !map_u8_bytes_of, Hnul.
  change (c_str INFO_BUTTON) with INFO_BUTTON.
  change (strlen INFO_BUTTON) with 10. cbn [map].
  rewrite !u8_small by lia.
  change (Z.to_nat 12) with 12%nat.
  rewrite <- ?app_assoc. reflexivity.
Qed.

(** The front command as [pop] hands it to the send functions. *)
Lemma loop_command_front g c rest :
  CmdQueue.wf (commandQueue g) ->
  CmdQueue.contents (commandQueue g) = c :: rest ->
  exists q',
    CmdQueue.pop (commandQueue g) = (Some c, q') /\
    CmdQueue.contents q' = rest.
Proof.
  intros Hwf Hc.
  assert (Hpos : 0 < CmdQueue.m_count (commandQueue g)).
  { pose proof (CmdQueueFacts.contents_length (commandQueue g)) as L.
    destruct Hwf as [_ _ _ Hcount _]. rewrite Hc in L. simpl in L. lia. }
  destruct (CmdQueueFacts.pop_contents (commandQueue g) Hwf Hpos)
    as (t & q' & Hpop & Hcq & _).
  rewrite Hc in Hcq. injection Hcq as <- Hrest.
  exists q'. split; [exact Hpop|symmetry; exact Hrest].
Qed.

Lemma accepted_text wl ty url prefix button now g :
  url = (prefix ++ button)%string ->
  handleReq wl url now g
    = enqueue_text ty (substring_from (Z.of_nat (String.length prefix)) url) g ->
  c_str button = button ->
  strlen button <= COMMAND_LEN - 1 ->
  Z.of_nat (String.length prefix) <= 16 ->
  CmdQueue.wf (commandQueue g) ->
  CmdQueue.m_maxCount (commandQueue g) = MAX_QUEUELEN ->
  CmdQueue.getCount (commandQueue g) < MAX_QUEUELEN ->
  exists g1,
    handleReq wl url now g = Done (g1, http_200_none) /\
    CmdQueue.contents (commandQueue g1)
      = CmdQueue.contents (commandQueue g) ++ [mkCommand ty button].
Proof.
  intros -> Hroute Hnul Hlen Hp Hwf Hmax Hroom.
  assert (Hstr : strlen button = Z.of_nat (String.length button))
    by (unfold strlen; rewrite Hnul; reflexivity).
  rewrite Hroute. rewrite substring_from_app.
  2:{ rewrite string_length_append. unfold COMMAND_LEN in *. lia. }
  rewrite enqueue_text_fits; [|exact Hroom|unfold COMMAND_LEN in *; lia].
  rewrite Hnul. eexists. split; [reflexivity|]. simpl.
  apply CmdQueueFacts.push_contents; [exact Hwf|].
  unfold CmdQueue.getCount in Hroom. lia.
Qed.

(** X2.  A toggle request for a button name of at most 22 characters is
    accepted when the queue has room, queued behind the commands already
    there, and, once at the front, sent to the monitor as the frame
    [STATset <button> TOGGLE] behind the header and the length byte.
    [TOGGLE] is added for every name, DEGAUSS included. *)
Theorem toggle_request_reaches_monitor wl button now g :
  c_str button = button ->
  strlen button <= 22 ->
  CmdQueue.wf (commandQueue g) ->
  CmdQueue.m_maxCount (commandQueue g) = MAX_QUEUELEN ->
  CmdQueue.getCount (commandQueue g) < MAX_QUEUELEN ->
  let cmd := mkCommand CT_STATUS button in
  (exists g1,
     handleReq wl (toggleURL ++ button)%string now g = Done (g1, http_200_none) /\
     CmdQueue.contents (commandQueue g1)
       = CmdQueue.contents (commandQueue g) ++ [cmd]) /\
  (forall g2 rest,
     CmdQueue.wf (commandQueue g2) ->
     CmdQueue.contents (commandQueue g2) = cmd :: rest ->
     Z.of_nat (length (packetBuf g2)) = sizeof_packetBuf ->
     accepts (monitorClient g2) = true ->
     exists g3,
       loop_command g2 = Done g3 /\
       CmdQueue.contents (commandQueue g3) = rest /\
       written (monitorClient g3)
         = written (monitorClient g2)
           ++ [toggle_frame (take 12 (packetBuf g2)) button]).
Proof.
  intros Hnul Hlen Hwf Hmax Hroom cmd. split.
  - apply (accepted_text wl CT_STATUS _ toggleURL button now g eq_refl);
      try assumption.
    + apply handleReq_toggle, startsWith_append.
    + unfold COMMAND_LEN. lia.
    + vm_compute. discriminate.
  - intros g2 rest Hwf2 Hc2 Hbuf Hacc.
    destruct (loop_command_front g2 cmd rest Hwf2 Hc2) as (q' & Hpop & Hrest).
    unfold loop_command. rewrite Hpop. cbn [m_commandType m_command cmd].
    destruct (sendStatusButtonTogglePacket_frame button (set_commandQueue q' g2)
                Hnul Hlen Hbuf Hacc) as (r & g3 & Hsend & Hw & Hq).
    rewrite Hsend. exists g3. split; [reflexivity|].
    split; [rewrite Hq; exact Hrest|exact Hw].
Qed.

Lemma toggle_request_reaches_monitor_witness :
  let g := boot true (replicate 8 inhabitant) idle_client in
  exists g1 g3,
    handleReq (Some 1%nat) "/toggle/DEGAUSS" 0 g = Done (g1, http_200_none) /\
    loop_command g1 = Done g3 /\
    written (monitorClient g3)
      = [take 12 header ++ [22] ++ bytes_of "STATset DEGAUSS TOGGLE"].
Proof.
  intros g.
  assert (Hwf : CmdQueue.wf (commandQueue g)).
  { constructor; cbn; change (u8 MAX_QUEUELEN) with 8; first [lia | reflexivity]. }
  destruct (toggle_request_reaches_monitor (Some 1%nat) "DEGAUSS" 0 g eq_refl
              ltac:(vm_compute; discriminate) Hwf eq_refl eq_refl)
    as ((g1 & H1 & C1) & Hsend).
  assert (Hg1 : g1 = after_request (Some 1%nat) "/toggle/DEGAUSS" 0 g).
  { unfold after_request.
    change ("/toggle/DEGAUSS") with (toggleURL ++ "DEGAUSS")%string.
    rewrite H1. reflexivity. }
  assert (Hwf1 : CmdQueue.wf (commandQueue g1)).
  { rewrite Hg1. constructor; vm_compute; repeat split;
      first [reflexivity | discriminate]. }
  destruct (Hsend g1 [] Hwf1 C1) as (g3 & H3 & C3 & W3);
    [rewrite Hg1; reflexivity | rewrite Hg1; reflexivity |].
  exists g1, g3. split; [exact H1|]. split; [exact H3|].
  rewrite W3, Hg1. reflexivity.
Defined.

(** X3.  A toggle request for a name of 23 or 24 characters passes [handleReq]
    (the name fits [m_command]), but its frame does not fit [packetBuf]:
    [sendStatusButtonTogglePacket] builds 28 bytes and the name, more than
    the 50 bytes of the array. *)
Theorem long_toggle_overruns_packetBuf wl button now g :
  c_str button = button ->
  22 < strlen button <= 24 ->
  CmdQueue.wf (commandQueue g) ->
  CmdQueue.m_maxCount (commandQueue g) = MAX_QUEUELEN ->
  CmdQueue.getCount (commandQueue g) < MAX_QUEUELEN ->
  let cmd := mkCommand CT_STATUS button in
  (exists g1,
     handleReq wl (toggleURL ++ button)%string now g = Done (g1, http_200_none) /\
     CmdQueue.contents (commandQueue g1)
       = CmdQueue.contents (commandQueue g) ++ [cmd]) /\
  (forall g2 rest,
     CmdQueue.wf (commandQueue g2) ->
     CmdQueue.contents (commandQueue g2) = cmd :: rest ->
     loop_command g2 = BufferOverflow (28 + strlen button) sizeof_packetBuf).
Proof.
  intros Hnul Hlen Hwf Hmax Hroom cmd. split.
  - apply (accepted_text wl CT_STATUS _ toggleURL button now g eq_refl);
      try assumption.
    + apply handleReq_toggle, startsWith_append.
    + unfold COMMAND_LEN. lia.
    + vm_compute. discriminate.
  - intros g2 rest Hwf2 Hc2.
    destruct (loop_command_front g2 cmd rest Hwf2 Hc2) as (q' & Hpop & Hrest).
    unfold loop_command. rewrite Hpop. cbn [m_commandType m_command cmd].
    rewrite (sendStatusButtonTogglePacket_overrun button _ Hnul Hlen).
    reflexivity.
Qed.

Lemma long_toggle_overruns_packetBuf_witness :
  let g := boot true (replicate 8 inhabitant) idle_client in
  let name := "ABCDEFGHIJKLMNOPQRSTUVW" in
  exists g1,
    handleReq (Some 1%nat) (toggleURL ++ name)%string 0 g
      = Done (g1, http_200_none) /\
    loop_command g1 = BufferOverflow 51 sizeof_packetBuf.
Proof.
  intros g name.
  assert (Hwf : CmdQueue.wf (commandQueue g)).
  { constructor; cbn; change (u8 MAX_QUEUELEN) with 8; first [lia | reflexivity]. }
  destruct (long_toggle_overruns_packetBuf (Some 1%nat) name 0 g eq_refl
              ltac:(vm_compute; split; [reflexivity|discriminate])
              Hwf eq_refl eq_refl)
    as ((g1 & H1 & C1) & Hover).
  assert (Hg1 : g1 = after_request (Some 1%nat) (toggleURL ++ name)%string 0 g).
  { unfold after_request. rewrite H1. reflexivity. }
  assert (Hwf1 : CmdQueue.wf (commandQueue g1)).
  { rewrite Hg1. constructor; vm_compute; repeat split;
      first [reflexivity | discriminate]. }
  exists g1. split; [exact H1|].
  exact (Hover g1 [] Hwf1 C1).
Defined.

(** X4.  An info-push request for a name that fits [m_command] is accepted when
    the queue has room and, once at the front, sent as the frame
    [INFObutton <button> ] with a trailing blank; this frame fits
    [packetBuf] for every such name. *)
Theorem info_request_reaches_monitor wl button now g :
  c_str button = button ->
  strlen button <= COMMAND_LEN - 1 ->
  CmdQueue.wf (commandQueue g) ->
  CmdQueue.m_maxCount (commandQueue g) = MAX_QUEUELEN ->
  CmdQueue.getCount (commandQueue g) < MAX_QUEUELEN ->
  let cmd := mkCommand CT_INFO button in
  (exists g1,
     handleReq wl (infoPushURL ++ button)%string now g = Done (g1, http_200_none) /\
     CmdQueue.contents (commandQueue g1)
       = CmdQueue.contents (commandQueue g) ++ [cmd]) /\
  (forall g2 rest,
     CmdQueue.wf (commandQueue g2) ->
     CmdQueue.contents (commandQueue g2) = cmd :: rest ->
     Z.of_nat (length (packetBuf g2)) = sizeof_packetBuf ->
     accepts (monitorClient g2) = true ->
     exists g3,
       loop_command g2 = Done g3 /\
       CmdQueue.contents (commandQueue g3) = rest /\
       written (monitorClient g3)
         = written (monitorClient g2)
           ++ [info_frame (take 12 (packetBuf g2)) button]).
Proof.
  intros Hnul Hlen Hwf Hmax Hroom cmd. split.
  - apply (accepted_text wl CT_INFO _ infoPushURL button now g eq_refl);
      try assumption.
    + apply handleReq_infoPush, startsWith_append.
    + vm_compute. discriminate.
  - intros g2 rest Hwf2 Hc2 Hbuf Hacc.
    destruct (loop_command_front g2 cmd rest Hwf2 Hc2) as (q' & Hpop & Hrest).
    unfold loop_command. rewrite Hpop. cbn [m_commandType m_command cmd].
    destruct (sendInfoButtonPacket_frame button (set_commandQueue q' g2)
                Hnul Hlen Hbuf Hacc) as (r & g3 & Hsend & Hw & Hq).
    rewrite Hsend. exists g3. split; [reflexivity|].
    split; [rewrite Hq; exact Hrest|exact Hw].
Qed.

Lemma info_request_reaches_monitor_witness :
  let g := boot true (replicate 8 inhabitant) idle_client in
  exists g1 g3,
    handleReq (Some 1%nat) "/infopush/MENUENT" 0 g = Done (g1, http_200_none) /\
    loop_command g1 = Done g3 /\
    written (monitorClient g3)
      = [take 12 header ++ [19] ++ bytes_of "INFObutton MENUENT "].
Proof.
  intros g.
  assert (Hwf : CmdQueue.wf (commandQueue g)).
  { constructor; cbn; change (u8 MAX_QUEUELEN) with 8; first [lia | reflexivity]. }
  destruct (info_request_reaches_monitor (Some 1%nat) "MENUENT" 0 g eq_refl
              ltac:(vm_compute; discriminate) Hwf eq_refl eq_refl)
    as ((g1 & H1 & C1) & Hsend).
  assert (Hg1 : g1 = after_request (Some 1%nat) "/infopush/MENUENT" 0 g).
  { unfold after_request.
    change ("/infopush/MENUENT") with (infoPushURL ++ "MENUENT")%string.
    rewrite H1. reflexivity. }
  assert (Hwf1 : CmdQueue.wf (commandQueue g1)).
  { rewrite Hg1. constructor; vm_compute; repeat split;
      first [reflexivity | discriminate]. }
  destruct (Hsend g1 [] Hwf1 C1) as (g3 & H3 & C3 & W3);
    [rewrite Hg1; reflexivity | rewrite Hg1; reflexivity |].
  exists g1, g3. split; [exact H1|]. split; [exact H3|].
  rewrite W3, Hg1. reflexivity.
Defined.

(** ** What the tasks write *)

Lemma send_frame_kept st g r g' :
  send_frame st g = Done (r, g') ->
  web_side_kept g g' /\ commandQueue g' = commandQueue g /\
  currentState g' = currentState g /\ statusUpdated g' = statusUpdated g /\
  lastStatusUpdate_ms g' = lastStatusUpdate_ms g /\
  (written (monitorClient g') = written (monitorClient g) \/
   exists frame,
     written (monitorClient g') = written (monitorClient g) ++ [frame]).
Proof.
  destruct st as [buf dl]. unfold send_frame.
  destruct (dl >? sizeof_packetBuf); [discriminate|].
  generalize (Z.to_nat RECV_TIMEOUT) as n.
  generalize (Z.to_nat sizeof_button_response) as m. intros m n.
  unfold client_write.
  change (monitorClient (set_packetBuf buf g)) with (monitorClient g).
  destruct (accepts (monitorClient g)).
  - destruct (_ =? dl).
    + set (cl0 := mkClient _ _ _ _).
      pose proof (written_wait n sizeof_button_response cl0 0) as Hw.
      destruct (wait_available n sizeof_button_response cl0 0) as [cl1 w1].
      cbn [fst written cl0] in Hw.
      destruct (w1 >=? RECV_TIMEOUT).
      * intros E. injection E as _ <-. unfold web_side_kept. cbn.
        repeat split; try reflexivity. right. eexists. exact Hw.
      * pose proof (written_read m 0 cl1
                      (button_response (set_packetBuf buf g))) as Hr.
        destruct (read_into m 0 cl1 (button_response (set_packetBuf buf g)))
          as [cl2 resp].
        cbn [fst] in Hr.
        intros E. injection E as _ <-. unfold web_side_kept. cbn.
        repeat split; try reflexivity. right. eexists.
        rewrite Hr. exact Hw.
    + intros E. injection E as _ <-. unfold web_side_kept. cbn.
      repeat split; try reflexivity. right. eexists. reflexivity.
  - destruct (0 =? dl).
    + set (cl0 := monitorClient g).
      pose proof (written_wait n sizeof_button_response cl0 0) as Hw.
      destruct (wait_available n sizeof_button_response cl0 0) as [cl1 w1].
      cbn [fst] in Hw.
      destruct (w1 >=? RECV_TIMEOUT).
      * intros E. injection E as _ <-. unfold web_side_kept. cbn.
        repeat split; try reflexivity. left. exact Hw.
      * pose proof (written_read m 0 cl1
                      (button_response (set_packetBuf buf g))) as Hr.
        destruct (read_into m 0 cl1 (button_response (set_packetBuf buf g)))
          as [cl2 resp].
        cbn [fst] in Hr.
        intros E. injection E as _ <-. unfold web_side_kept. cbn.
        repeat split; try reflexivity. left. rewrite Hr. exact Hw.
    + intros E. injection E as _ <-. unfold web_side_kept. cbn.
      repeat split; try reflexivity. left. reflexivity.
Qed.

Lemma loop_command_kept g g' :
  loop_command g = Done g' ->
  web_side_kept g g' /\
  commandQueue g' = snd (CmdQueue.pop (commandQueue g)) /\
  currentState g' = currentState g /\ statusUpdated g' = statusUpdated g /\
  lastStatusUpdate_ms g' = lastStatusUpdate_ms g /\
  (written (monitorClient g') = written (monitorClient g) \/
   exists frame,
     written (monitorClient g') = written (monitorClient g) ++ [frame]).
Proof.
  unfold loop_command. destruct (CmdQueue.pop (commandQueue g)) as [cmd q].
  destruct cmd as [c|].
  - set (g1 := set_commandQueue q g).
    assert (Hsend : forall st r, send_frame st g1 = Done (r, g') ->
              web_side_kept g g' /\ commandQueue g' = q /\
              currentState g' = currentState g /\
              statusUpdated g' = statusUpdated g /\
              lastStatusUpdate_ms g' = lastStatusUpdate_ms g /\
              (written (monitorClient g') = written (monitorClient g) \/
               exists frame,
                 written (monitorClient g')
                 = written (monitorClient g) ++ [frame])).
    { intros st r E. apply send_frame_kept in E. exact E. }
    destruct (m_commandType c);
      [unfold sendStatusButtonTogglePacket
      |unfold sendInfoButtonPacket
      |unfold sendInfoKnobPacket];
      match goal with
      | |- match send_frame ?st _ with _ => _ end = _ -> _ =>
          destruct (send_frame st g1) as [[r g2]|] eqn:E;
            [intros E1; injection E1 as <-; exact (Hsend _ _ E)|discriminate]
      end.
  - intros E. injection E as <-. unfold web_side_kept. cbn.
    repeat split; try reflexivity. left. reflexivity.
Qed.

(** X5.  The command at the front leaves the queue before it is sent, and
    [loop] does not look at what the send function returns: whether the
    monitor acknowledged the frame, stayed silent for [RECV_TIMEOUT]
    milliseconds or did not take the frame at all, the command is gone
    and the commands behind it are kept in their order; at most one frame
    was handed to the connection. *)
Theorem command_sent_at_most_once g g' c rest :
  CmdQueue.wf (commandQueue g) ->
  CmdQueue.contents (commandQueue g) = c :: rest ->
  loop_command g = Done g' ->
  CmdQueue.contents (commandQueue g') = rest /\
  (written (monitorClient g') = written (monitorClient g) \/
   exists frame,
     written (monitorClient g') = written (monitorClient g) ++ [frame]) /\
  (accepts (monitorClient g) = false ->
   written (monitorClient g') = written (monitorClient g)).
Proof.
  intros Hwf Hc Hrun.
  destruct (loop_command_front g c rest Hwf Hc) as (q' & Hpop & Hrest).
  destruct (loop_command_kept g g' Hrun) as (_ & Hq & _ & _ & _ & Hw).
  rewrite Hpop in Hq. simpl in Hq.
  split; [rewrite Hq; exact Hrest|]. split; [exact Hw|].
  intros Hacc. revert Hrun. unfold loop_command. rewrite Hpop.
  assert (Hsend : forall st r g2,
            send_frame st (set_commandQueue q' g) = Done (r, g2) ->
            written (monitorClient g2) = written (monitorClient g)).
  { intros [buf dl] r g2. unfold send_frame.
    destruct (dl >? sizeof_packetBuf); [discriminate|].
    generalize (Z.to_nat RECV_TIMEOUT) as n.
    generalize (Z.to_nat sizeof_button_response) as m. intros m n.
    unfold client_write.
    change (monitorClient (set_packetBuf buf (set_commandQueue q' g)))
      with (monitorClient g).
    rewrite Hacc.
    destruct (0 =? dl).
    - set (cl0 := monitorClient g).
      pose proof (written_wait n sizeof_button_response cl0 0) as Hw0.
      destruct (wait_available n sizeof_button_response cl0 0) as [cl1 w1].
      cbn [fst] in Hw0.
      destruct (w1 >=? RECV_TIMEOUT).
      + intros E. injection E as _ <-. exact Hw0.
      + match goal with
        | |- context [read_into m 0 cl1 ?b] =>
            pose proof (written_read m 0 cl1 b) as Hr;
            destruct (read_into m 0 cl1 b) as [cl2 resp]
        end.
        cbn [fst] in Hr. intros E. injection E as _ <-.
        cbn. rewrite Hr. exact Hw0.
    - intros E. injection E as _ <-. reflexivity. }
  destruct (m_commandType c);
    [unfold sendStatusButtonTogglePacket
    |unfold sendInfoButtonPacket
    |unfold sendInfoKnobPacket];
    match goal with
    | |- match send_frame ?st ?g1 with _ => _ end = _ -> _ =>
        destruct (send_frame st g1) as [[r g2]|] eqn:E;
          [intros E1; injection E1 as <-; exact (Hsend _ _ _ E)|discriminate]
    end.
Qed.

Lemma command_sent_at_most_once_witness :
  let g := after_request (Some 1%nat) "/infopush/MENU" 0
             (after_request (Some 1%nat) "/toggle/POWER" 0
                (boot true (replicate 8 inhabitant) idle_client)) in
  exists g',
    loop_command g = Done g' /\
    wait_ms g' = RECV_TIMEOUT /\
    CmdQueue.contents (commandQueue g') = [mkCommand CT_INFO "MENU"] /\
    length (written (monitorClient g')) = 1%nat.
Proof.
  intros g.
  assert (Hwf : CmdQueue.wf (commandQueue g)).
  { constructor; vm_compute; repeat split; first [reflexivity | discriminate]. }
  assert (Hrun : exists g', loop_command g = Done g').
  { eexists. vm_compute. reflexivity. }
  destruct Hrun as (g' & Hrun). exists g'.
  destruct (command_sent_at_most_once g g' (mkCommand CT_STATUS "POWER")
              [mkCommand CT_INFO "MENU"] Hwf eq_refl Hrun) as (Hc & _ & _).
  split; [exact Hrun|]. split; [|split; [exact Hc|]].
  - assert (E : Done g' = loop_command g) by (symmetry; exact Hrun).
    vm_compute in E. injection E as ->. reflexivity.
  - assert (E : Done g' = loop_command g) by (symmetry; exact Hrun).
    vm_compute in E. injection E as ->. reflexivity.
Defined.

Lemma updateStatus_kept g :
  web_side_kept g (updateStatus g) /\
  commandQueue (updateStatus g) = commandQueue g /\
  lastStatusUpdate_ms (updateStatus g) = lastStatusUpdate_ms g.
Proof.
  unfold updateStatus, web_side_kept.
  destruct (recv_status (monitorClient g) (status_response g)) as [cl [resp|]].
  - destruct (words_differ _); cbn; repeat split; reflexivity.
  - cbn. repeat split; reflexivity.
Qed.

Lemma web_side_kept_trans g1 g2 g3 :
  web_side_kept g1 g2 -> web_side_kept g2 g3 -> web_side_kept g1 g3.
Proof.
  unfold web_side_kept. intros (A1 & A2 & A3 & A4) (B1 & B2 & B3 & B4).
  repeat split; congruence.
Qed.

Lemma connectMonitor_kept now cl g :
  web_side_kept g (connectMonitor now (set_monitorClient cl g)) /\
  commandQueue (connectMonitor now (set_monitorClient cl g)) = commandQueue g.
Proof.
  unfold connectMonitor.
  set (g1 := connect_phase (set_monitorClient cl g)).
  assert (H1 : web_side_kept g g1 /\ commandQueue g1 = commandQueue g).
  { subst g1. unfold connect_phase, web_side_kept.
    destruct (m_connected _); cbn; repeat split; reflexivity. }
  destruct H1 as (H1 & Q1).
  destruct (updateStatus_kept g1) as (H2 & Q2 & _).
  split.
  - apply (web_side_kept_trans g g1); [exact H1|].
    revert H2. unfold web_side_kept. cbn. auto.
  - cbn. rewrite Q2. exact Q1.
Qed.

(** X6.  The monitor task, that is every turn of [loop], writes none of the
    variables of the web task: the waiter registry, the packet counter,
    [updateWaiters] and [stateCopy] are as before.  Of the command queue
    it takes at most the front entry, and it takes none in a turn that
    has to reconnect. *)
Theorem loop_keeps_web_side linkOff connected cl now now' g g' :
  loop linkOff connected cl now now' g = Done g' ->
  web_side_kept g g' /\
  (commandQueue g' = commandQueue g \/
   commandQueue g' = snd (CmdQueue.pop (commandQueue g))) /\
  (connected = false -> commandQueue g' = commandQueue g).
Proof.
  unfold loop.
  set (g1 := if linkOff then waitLink g else g).
  assert (H1 : web_side_kept g g1 /\ commandQueue g1 = commandQueue g).
  { subst g1. destruct linkOff; unfold waitLink, web_side_kept; cbn;
      repeat split; reflexivity. }
  destruct H1 as (H1 & Q1).
  destruct connected; cbn [negb].
  - destruct (loop_command g1) as [g2|] eqn:E; [|discriminate].
    destruct (loop_command_kept g1 g2 E) as (H2 & Q2 & _).
    rewrite Q1 in Q2.
    destruct (_ >=? 150).
    + intros E1. injection E1 as <-.
      destruct (updateStatus_kept g2) as (H3 & Q3 & _).
      split; [|split; [|discriminate]].
      * apply (web_side_kept_trans g g1 _ H1).
        apply (web_side_kept_trans g1 g2 _ H2).
        revert H3. unfold web_side_kept. cbn. auto.
      * right. cbn. rewrite Q3. exact Q2.
    + intros E1. injection E1 as <-.
      split; [|split; [|discriminate]].
      * apply (web_side_kept_trans g g1 _ H1 H2).
      * right. exact Q2.
  - intros E1. injection E1 as <-.
    destruct (connectMonitor_kept now' cl g1) as (H2 & Q2).
    split; [|split].
    + apply (web_side_kept_trans g g1 _ H1 H2).
    + left. rewrite Q2. exact Q1.
    + intros _. rewrite Q2. exact Q1.
Qed.

Lemma loop_keeps_web_side_witness :
  let g := after_request (Some 1%nat) "/statuswait" 5
             (after_request (Some 1%nat) "/toggle/POWER" 0
                (boot true (replicate 8 inhabitant) idle_client)) in
  exists g',
    loop true false idle_client 100 1200 g = Done g' /\
    Waiters.held (statusWaiters g') = [1%nat] /\
    CmdQueue.contents (commandQueue g') = [mkCommand CT_STATUS "POWER"].
Proof.
  intros g.
  assert (Hrun : exists g', loop true false idle_client 100 1200 g = Done g').
  { eexists. reflexivity. }
  destruct Hrun as (g' & Hrun). exists g'.
  destruct (loop_keeps_web_side true false idle_client 100 1200 g g' Hrun)
    as ((_ & _ & _ & W) & _ & Q).
  split; [exact Hrun|]. split.
  - rewrite W. reflexivity.
  - rewrite (Q eq_refl). reflexivity.
Defined.

Lemma handleReq_kept wl url now g g' out :
  handleReq wl url now g = Done (g', out) ->
  monitor_side_kept g g' /\
  statusUpdated g' = statusUpdated g /\
  stateCopy g' = stateCopy g /\
  updateWaiters g' = updateWaiters g /\
  (commandQueue g' = commandQueue g \/
   exists cmd, commandQueue g' = CmdQueue.push cmd (commandQueue g)).
Proof.
  unfold handleReq, enqueue_text.
  repeat match goal with
  | |- context [if ?b then _ else _] =>
      lazymatch b with
      | context [if _ then _ else _] => fail
      | _ => destruct b
      end
  | |- context [match strcpy ?a ?b with _ => _ end] => destruct (strcpy a b)
  | |- context [match knob_fields ?u with _ => _ end] =>
      destruct (knob_fields u) as [[[[? ?] ?] ?]|]
  | |- context [match knob_command ?a ?b ?c ?d with _ => _ end] =>
      destruct (knob_command a b c d)
  end;
  intros E; try discriminate; injection E as <- _;
  unfold monitor_side_kept; cbn;
  repeat split; try reflexivity;
  first [left; reflexivity | right; eexists; reflexivity].
Qed.

Lemma checkStatusNotification_kept now g :
  monitor_side_kept g (fst (checkStatusNotification now g)) /\
  commandQueue (fst (checkStatusNotification now g)) = commandQueue g /\
  statusUpdated (fst (checkStatusNotification now g)) = false.
Proof.
  unfold checkStatusNotification.
  set (g1 := if statusUpdated g then _ else g).
  assert (H1 : monitor_side_kept g g1 /\ commandQueue g1 = commandQueue g /\
               statusUpdated g1 = false).
  { subst g1. destruct (statusUpdated g) eqn:E; unfold monitor_side_kept; cbn;
      repeat split; try reflexivity. exact E. }
  destruct H1 as (H1 & Q1 & U1).
  destruct (negb _); [|cbn; auto].
  destruct (updateWaiters g1).
  - destruct (deliver_all _ _ _) as [q out]. cbn.
    revert H1. unfold monitor_side_kept. cbn. auto.
  - destruct (evict_old _ _ _) as [q out]. cbn.
    revert H1. unfold monitor_side_kept. cbn. auto.
Qed.

Lemma monitor_side_kept_trans g1 g2 g3 :
  monitor_side_kept g1 g2 -> monitor_side_kept g2 g3 -> monitor_side_kept g1 g3.
Proof.
  unfold monitor_side_kept.
  intros (A1 & A2 & A3 & A4 & A5 & A6 & A7 & A8 & A9)
         (B1 & B2 & B3 & B4 & B5 & B6 & B7 & B8 & B9).
  repeat split; congruence.
Qed.

(** X7.  The web task writes none of the variables of the monitor task:
    whatever the request, [handleReq] and the [checkStatusNotification]
    that follows it leave the decoded state, the status words, the
    buffers and the connection to the monitor alone.  [handleReq] keeps
    the dirty flag and at most adds one command to the queue;
    [checkStatusNotification] keeps the queue and leaves the dirty flag
    cleared. *)
Theorem web_task_keeps_monitor_side wl url now now' g g' out :
  handleReq wl url now g = Done (g', out) ->
  let g2 := fst (checkStatusNotification now' g') in
  monitor_side_kept g g' /\
  statusUpdated g' = statusUpdated g /\
  (commandQueue g' = commandQueue g \/
   exists cmd, commandQueue g' = CmdQueue.push cmd (commandQueue g)) /\
  monitor_side_kept g g2 /\
  commandQueue g2 = commandQueue g' /\
  statusUpdated g2 = false.
Proof.
  intros Hreq g2.
  destruct (handleReq_kept wl url now g g' out Hreq) as (M1 & U1 & _ & _ & Q1).
  destruct (checkStatusNotification_kept now' g') as (M2 & Q2 & U2).
  split; [exact M1|]. split; [exact U1|]. split; [exact Q1|].
  split; [exact (monitor_side_kept_trans g g' g2 M1 M2)|].
  split; [exact Q2|exact U2].
Qed.

Lemma web_task_keeps_monitor_side_witness :
  let g := set_statusUpdated true
             (boot true (replicate 8 inhabitant) idle_client) in
  exists g',
    handleReq (Some 1%nat) "/turnknob/CHROMA/n/10/1" 0 g = Done (g', http_200_none) /\
    monitorClient (fst (checkStatusNotification 10 g')) = idle_client /\
    statusUpdated g' = true /\
    statusUpdated (fst (checkStatusNotification 10 g')) = false.
Proof.
  intros g. eexists. split; [reflexivity|].
  match goal with
  | |- context [checkStatusNotification 10 ?x] =>
      destruct (web_task_keeps_monitor_side (Some 1%nat)
                  "/turnknob/CHROMA/n/10/1" 0 10 g x http_200_none eq_refl)
        as (_ & U1 & _ & M2 & _ & U2)
  end.
  split; [|split; [exact U1|exact U2]].
  destruct M2 as (_ & _ & _ & _ & _ & _ & _ & _ & M9). exact M9.
Defined.

(** ** One waiter at a time *)

Lemma idle_shape q :
  registry_idle q ->
  exists tl hd t0 t1,
    q = Waiters.mkWaiterQueue 2 tl hd 0 [mkWaiter None t0; mkWaiter None t1] /\
    (tl = 0 \/ tl = 1).
Proof.
  destruct q as [mx tl hd ct ws]. unfold registry_idle, MAX_WAITERS. simpl.
  intros (-> & -> & Ht & Hl & Hh).
  destruct ws as [|[c0 t0] [|[c1 t1] [|]]]; try discriminate.
  unfold Waiters.held in Hh. simpl in Hh.
  destruct c0; [discriminate|]. destruct c1; [discriminate|].
  exists tl, hd, t0, t1. split; [reflexivity|lia].
Qed.

Lemma push_pop_idle q w :
  registry_idle q ->
  Waiters.getCount (Waiters.push w q) = 1 /\
  Waiters.peek (Waiters.push w q) = Some w /\
  Waiters.held (Waiters.push w q)
    = match m_client w with Some fd => [fd] | None => [] end /\
  exists q2,
    Waiters.pop (Waiters.push w q) = (Some w, q2) /\ registry_idle q2.
Proof.
  intros Hidle.
  destruct (idle_shape _ Hidle) as (tl & hd & t0 & t1 & -> & Htl).
  unfold Waiters.push, Waiters.getCount, Waiters.peek, Waiters.pop, Waiters.held.
  cbn [Waiters.m_count Waiters.m_maxCount Waiters.m_tail Waiters.m_head
       Waiters.m_waiters].
  change (0 + 1 >? 2) with false. cbv iota.
  cbn [Waiters.m_count Waiters.m_maxCount Waiters.m_tail Waiters.m_head
       Waiters.m_waiters].
  change (u8 (0 + 1)) with 1. change (1 =? 0) with false. cbv iota.
  change (u8 (1 - 1)) with 0.
  destruct w as [c t].
  unfold registry_idle, MAX_WAITERS.
  destruct Htl as [-> | ->].
  - cbn -[u8 Z.geb Z.add].
    change (u8 (0 + 1) >=? 2) with false. cbv iota. change (u8 (0 + 1)) with 1.
    split; [reflexivity|]. split; [reflexivity|]. split; [destruct c; reflexivity|].
    eexists. split; [reflexivity|]. cbn -[u8 Z.geb Z.add].
    repeat split; try reflexivity; lia.
  - cbn -[u8 Z.geb Z.add].
    change (u8 (1 + 1) >=? 2) with true. cbv iota.
    split; [reflexivity|]. split; [reflexivity|]. split; [destruct c; reflexivity|].
    eexists. split; [reflexivity|]. cbn -[u8 Z.geb Z.add].
    repeat split; try reflexivity; lia.
Qed.

Lemma deliver_lone q w content :
  registry_idle q ->
  exists q2,
    deliver_all (Z.to_nat (Waiters.getCount (Waiters.push w q))) content
      (Waiters.push w q)
    = (q2, client_print (m_client w)
             (http_200_content "application/json" content)) /\
    registry_idle q2.
Proof.
  intros Hidle.
  destruct (push_pop_idle q w Hidle) as (Hc & _ & _ & q2 & Hpop & Hidle2).
  exists q2. rewrite Hc. change (Z.to_nat 1) with 1%nat.
  cbn [deliver_all]. rewrite Hc. change (1 >? 0) with true. cbv iota.
  rewrite Hpop. rewrite app_nil_r. split; [reflexivity|exact Hidle2].
Qed.

Lemma evict_lone q w ms :
  registry_idle q ->
  exists q2,
    evict_old (Z.to_nat (Waiters.getCount (Waiters.push w q))) ms
      (Waiters.push w q)
    = (if u32 (ms - m_added_ms w) <? 30000 then (Waiters.push w q, [])
       else (q2, client_print (m_client w) http_204)) /\
    registry_idle q2.
Proof.
  intros Hidle.
  destruct (push_pop_idle q w Hidle) as (Hc & Hpeek & _ & q2 & Hpop & Hidle2).
  exists q2. rewrite Hc. change (Z.to_nat 1) with 1%nat.
  cbn [evict_old]. rewrite Hpeek.
  destruct (_ <? 30000); [split; [reflexivity|exact Hidle2]|].
  rewrite Hpop. rewrite app_nil_r. split; [reflexivity|exact Hidle2].
Qed.

(** With no waiter registered, [checkStatusNotification] prints nothing
    and moves a raised dirty flag into [updateWaiters], where it stays. *)
Lemma check_without_waiter t g :
  registry_idle (statusWaiters g) ->
  let g' := fst (checkStatusNotification t g) in
  snd (checkStatusNotification t g) = [] /\
  statusWaiters g' = statusWaiters g /\
  updateWaiters g' = statusUpdated g || updateWaiters g /\
  currentState g' = currentState g /\
  statusPacketNo g' = statusPacketNo g.
Proof.
  intros (_ & Hc & _). unfold checkStatusNotification.
  destruct (statusUpdated g); cbn; unfold Waiters.getCount; rewrite Hc; cbn;
    repeat split; reflexivity.
Qed.

Lemma after_checks_pending times : forall g,
  registry_idle (statusWaiters g) ->
  statusUpdated g = true \/ updateWaiters g = true ->
  let g' := after_checks times g in
  registry_idle (statusWaiters g') /\
  (statusUpdated g' = true \/ updateWaiters g' = true) /\
  currentState g' = currentState g /\
  statusPacketNo g' = statusPacketNo g.
Proof.
  induction times as [|t times IH]; intros g Hidle Hpend.
  - simpl. auto.
  - destruct (check_without_waiter t g Hidle) as (_ & Hw & Hu & Hs & Hn).
    simpl. unfold after_checks in IH.
    destruct (IH (fst (checkStatusNotification t g))) as (I1 & I2 & I3 & I4).
    + rewrite Hw. exact Hidle.
    + right. rewrite Hu. destruct Hpend as [-> | ->];
        [reflexivity|apply orb_true_r].
    + split; [exact I1|]. split; [exact I2|].
      split; [rewrite <- Hs; exact I3|rewrite <- Hn; exact I4].
Qed.

(** X8.  A change of the status is never lost for want of a waiter.  When the
    dirty flag or [updateWaiters] is raised while the registry is idle,
    any number of runs of [checkStatusNotification] keep it pending; the
    next client that registers is answered by the first run that follows:
    exactly one [200] with the status document of the current state on
    its own socket, after which the registry is idle again, both flags are
    cleared and the packet counter has advanced by one. *)
Theorem pending_update_reaches_next_waiter fd url times now now' g :
  startsWith url statusWaitURL = true ->
  registry_idle (statusWaiters g) ->
  statusUpdated g = true \/ updateWaiters g = true ->
  exists g1 g2,
    handleReq (Some fd) url now (after_checks times g) = Done (g1, []) /\
    Waiters.held (statusWaiters g1) = [fd] /\
    checkStatusNotification now' g1
      = (g2, client_print (Some fd)
               (http_200_content "application/json"
                  (StatusJson (currentState g) (statusPacketNo g)))) /\
    registry_idle (statusWaiters g2) /\
    statusUpdated g2 = false /\ updateWaiters g2 = false /\
    statusPacketNo g2 = i32 (statusPacketNo g + 1).
Proof.
  intros Hroute Hidle Hpend.
  destruct (after_checks_pending times g Hidle Hpend) as (I1 & I2 & I3 & I4).
  set (g0 := after_checks times g) in *. clearbody g0.
  rewrite <- I3, <- I4. clear I3 I4 Hidle Hpend g.
  rewrite (handleReq_statusWait (Some fd) url now g0 Hroute).
  destruct I1 as (Hm & Hc & Hrest).
  assert (Hidle : registry_idle (statusWaiters g0))
    by (split; [exact Hm|split; [exact Hc|exact Hrest]]).
  unfold Waiters.getCount at 1. rewrite Hc. change (0 <? MAX_WAITERS) with true.
  cbv iota.
  set (w := mkWaiter (Some fd) (u32 now)).
  destruct (push_pop_idle _ w Hidle) as (Hc1 & _ & Hheld & _).
  destruct (deliver_lone (statusWaiters g0) w
              (StatusJson (currentState g0) (statusPacketNo g0)) Hidle)
    as (q2 & Hdel & Hidle2).
  rewrite Hc1 in Hdel.
  assert (Hpend : statusUpdated g0 || updateWaiters g0 = true)
    by (destruct I2 as [-> | ->]; [reflexivity|apply orb_true_r]).
  clear I2.
  destruct g0 as [cs sc su uw w1 w2 w3 w4 w5 c1 c2 c3 c4 c5 sr br pb wm ls pn cq
                  sw mc].
  cbn [statusUpdated updateWaiters currentState statusWaiters statusPacketNo]
    in *.
  exists (mkGlobals cs sc su uw w1 w2 w3 w4 w5 c1 c2 c3 c4 c5 sr br pb wm ls pn
            cq (Waiters.push w sw) mc).
  exists (mkGlobals cs (if su then cs else sc) false false w1 w2 w3 w4 w5
            c1 c2 c3 c4 c5 sr br pb wm ls (i32 (pn + 1)) cq q2 mc).
  split; [reflexivity|]. split; [exact Hheld|].
  split; [|split; [exact Hidle2|repeat split]].
  unfold checkStatusNotification.
  destruct su.
  - cbn [statusUpdated updateWaiters set_statusWaiters set_updateWaiters
         set_statusUpdated set_stateCopy set_statusPacketNo currentState
         statusWaiters statusPacketNo stateCopy statusw1 statusw2 statusw3
         statusw4 statusw5 _statusw1 _statusw2 _statusw3 _statusw4 _statusw5
         status_response button_response packetBuf wait_ms
         lastStatusUpdate_ms commandQueue monitorClient].
    rewrite Hc1. change (negb (1 =? 0)) with true. cbv iota.
    rewrite Hdel. reflexivity.
  - simpl in Hpend. subst uw.
    cbn [statusUpdated updateWaiters set_statusWaiters set_updateWaiters
         set_statusUpdated set_stateCopy set_statusPacketNo currentState
         statusWaiters statusPacketNo stateCopy statusw1 statusw2 statusw3
         statusw4 statusw5 _statusw1 _statusw2 _statusw3 _statusw4 _statusw5
         status_response button_response packetBuf wait_ms
         lastStatusUpdate_ms commandQueue monitorClient].
    rewrite Hc1. change (negb (1 =? 0)) with true. cbv iota.
    rewrite Hdel. reflexivity.
Qed.

Lemma pending_update_reaches_next_waiter_witness :
  let g := set_statusUpdated true
             (boot true (replicate 8 inhabitant) idle_client) in
  exists g1 g2,
    handleReq (Some 7%nat) "/statuswait" 900 (after_checks [10; 20; 30] g)
      = Done (g1, []) /\
    checkStatusNotification 910 g1
      = (g2, client_print (Some 7%nat)
               (http_200_content "application/json"
                  (StatusJson (currentState g) 0))) /\
    statusPacketNo g2 = 1.
Proof.
  intros g.
  destruct (pending_update_reaches_next_waiter 7%nat "/statuswait"
              [10; 20; 30] 900 910 g eq_refl)
    as (g1 & g2 & H1 & _ & H2 & _ & _ & _ & H3).
  - unfold registry_idle. cbn. repeat split; try reflexivity; lia.
  - left. reflexivity.
  - exists g1, g2. split; [exact H1|]. split; [exact H2|exact H3].
Defined.

(** X9.  A lone waiter and no change of the status: the run of
    [checkStatusNotification] at time [now'] leaves the waiter alone while
    fewer than 30000 milliseconds have passed since its registration at
    [now], and answers it [204] once they have.  The time passed is the
    difference of the two readings of [millis] modulo [2^32], so the rule
    holds across the roll-over of the millisecond counter. *)
Theorem lone_waiter_times_out fd url now now' g :
  startsWith url statusWaitURL = true ->
  registry_idle (statusWaiters g) ->
  statusUpdated g = false ->
  updateWaiters g = false ->
  exists g1,
    handleReq (Some fd) url now g = Done (g1, []) /\
    Waiters.held (statusWaiters g1) = [fd] /\
    (u32 (u32 now' - u32 now) < 30000 ->
     checkStatusNotification now' g1 = (g1, [])) /\
    (30000 <= u32 (u32 now' - u32 now) ->
     exists g2,
       checkStatusNotification now' g1 = (g2, client_print (Some fd) http_204) /\
       registry_idle (statusWaiters g2) /\
       statusPacketNo g2 = statusPacketNo g).
Proof.
  intros Hroute Hidle Hsu Huw.
  rewrite (handleReq_statusWait (Some fd) url now g Hroute).
  pose proof Hidle as (Hm & Hc & Hrest).
  unfold Waiters.getCount at 1. rewrite Hc. change (0 <? MAX_WAITERS) with true.
  cbv iota.
  set (w := mkWaiter (Some fd) (u32 now)).
  destruct (push_pop_idle _ w Hidle) as (Hc1 & _ & Hheld & _).
  destruct (evict_lone (statusWaiters g) w (u32 now') Hidle)
    as (q2 & Hev & Hidle2).
  rewrite Hc1 in Hev.
  destruct g as [cs sc su uw w1 w2 w3 w4 w5 c1 c2 c3 c4 c5 sr br pb wm ls pn cq
                 sw mc].
  cbn [statusUpdated updateWaiters currentState statusWaiters statusPacketNo]
    in *.
  subst su uw.
  exists (mkGlobals cs sc false false w1 w2 w3 w4 w5 c1 c2 c3 c4 c5 sr br pb wm
            ls pn cq (Waiters.push w sw) mc).
  split; [reflexivity|]. split; [exact Hheld|].
  unfold checkStatusNotification.
  cbn [statusUpdated updateWaiters set_statusWaiters set_updateWaiters
       set_statusUpdated set_stateCopy set_statusPacketNo currentState
       statusWaiters statusPacketNo stateCopy statusw1 statusw2 statusw3
       statusw4 statusw5 _statusw1 _statusw2 _statusw3 _statusw4 _statusw5
       status_response button_response packetBuf wait_ms lastStatusUpdate_ms
       commandQueue monitorClient].
  rewrite Hc1. change (negb (1 =? 0)) with true. cbv iota.
  rewrite Hev. change (m_added_ms w) with (u32 now).
  split.
  - intros Hyoung. apply Z.ltb_lt in Hyoung. rewrite Hyoung. reflexivity.
  - intros Hold. apply Z.ltb_ge in Hold. rewrite Hold.
    exists (mkGlobals cs sc false false w1 w2 w3 w4 w5 c1 c2 c3 c4 c5 sr br pb
              wm ls pn cq q2 mc).
    split; [reflexivity|]. split; [exact Hidle2|reflexivity].
Qed.

Lemma lone_waiter_times_out_witness :
  let g := boot true (replicate 8 inhabitant) idle_client in
  exists g1 g2,
    handleReq (Some 7%nat) "/statuswait" 4294967000 g = Done (g1, []) /\
    checkStatusNotification 4294967200 g1 = (g1, []) /\
    checkStatusNotification (4294967296 + 29800) g1
      = (g2, client_print (Some 7%nat) http_204).
Proof.
  intros g.
  destruct (lone_waiter_times_out 7%nat "/statuswait" 4294967000 4294967200 g
              eq_refl) as (g1 & H1 & _ & Hyoung & _);
    [unfold registry_idle; cbn; repeat split; try reflexivity; lia
    | reflexivity | reflexivity |].
  destruct (lone_waiter_times_out 7%nat "/statuswait" 4294967000
              (4294967296 + 29800) g eq_refl) as (g1' & H1' & _ & _ & Hold);
    [unfold registry_idle; cbn; repeat split; try reflexivity; lia
    | reflexivity | reflexivity |].
  assert (E : g1' = g1) by congruence. subst g1'.
  destruct Hold as (g2 & H2 & _); [vm_compute; discriminate|].
  exists g1, g2. split; [exact H1|]. split; [|exact H2].
  apply Hyoung. vm_compute. reflexivity.
Defined.

(** ** Reconnecting *)

(** X10.  [connectMonitor] forgets the cached words, so the poll that ends it
    decodes the state afresh whatever was cached before: when the monitor
    answers and at least one status word is not [0xFFFF], the state is
    connected and valid, every flag is read from the new words, the cache
    holds them, and the dirty flag is raised.  This holds in particular
    when the monitor reports the very words it reported before the
    connection was lost. *)
Theorem reconnect_decodes_afresh now g cl resp :
  recv_status (monitorClient g) (status_response g) = (cl, Some resp) ->
  (status_word resp 29 30 31 32 <> 0xFFFF \/
   status_word resp 34 35 36 37 <> 0xFFFF \/
   status_word resp 39 40 41 42 <> 0xFFFF \/
   status_word resp 44 45 46 47 <> 0xFFFF \/
   status_word resp 49 50 51 52 <> 0xFFFF) ->
  let g' := connectMonitor now g in
  currentState g'
    = decoded_state (set_m_connected true (currentState g))
        (status_word resp 29 30 31 32) (status_word resp 39 40 41 42)
        (status_word resp 44 45 46 47) /\
  m_connected (currentState g') = true /\
  m_isValid (currentState g') = true /\
  m_isPowered (currentState g') = Z.testbit (status_word resp 29 30 31 32) 15 /\
  statusUpdated g' = true /\
  (_statusw1 g', _statusw2 g', _statusw3 g', _statusw4 g', _statusw5 g')
    = (status_word resp 29 30 31 32, status_word resp 34 35 36 37,
       status_word resp 39 40 41 42, status_word resp 44 45 46 47,
       status_word resp 49 50 51 52) /\
  lastStatusUpdate_ms g' = u32 now.
Proof.
  intros Hrecv Hnew g'.
  assert (Hstate :
    currentState g'
    = decoded_state (set_m_connected true (currentState g))
        (status_word resp 29 30 31 32) (status_word resp 39 40 41 42)
        (status_word resp 44 45 46 47) /\
    statusUpdated g' = true /\
    (_statusw1 g', _statusw2 g', _statusw3 g', _statusw4 g', _statusw5 g')
    = (status_word resp 29 30 31 32, status_word resp 34 35 36 37,
       status_word resp 39 40 41 42, status_word resp 44 45 46 47,
       status_word resp 49 50 51 52) /\
    lastStatusUpdate_ms g' = u32 now).
  { subst g'. unfold connectMonitor, updateStatus.
    assert (Hcl : monitorClient (connect_phase g) = monitorClient g)
      by (unfold connect_phase; destruct (m_connected _); reflexivity).
    assert (Hsr : status_response (connect_phase g) = status_response g)
      by (unfold connect_phase; destruct (m_connected _); reflexivity).
    rewrite Hcl, Hsr, Hrecv.
    set (g2 := set_statusw _ _ _ _ _ _).
    assert (Hd : words_differ g2 = true).
    { destruct (words_differ g2) eqn:E; [reflexivity|].
      apply words_differ_false in E. subst g2.
      unfold connect_phase in E. destruct (m_connected _); cbn in E;
        destruct E as (E1 & E2 & E3 & E4 & E5);
        destruct Hnew as [N | [N | [N | [N | N]]]]; contradiction. }
    rewrite Hd. subst g2. unfold connect_phase. clear.
    destruct g as [cs sc su uw w1 w2 w3 w4 w5 c1 c2 c3 c4 c5 sr br pb wm ls pn
                   cq sw mc].
    destruct cs as [lu co va po]. destruct co; cbn; repeat split; reflexivity. }
  destruct Hstate as (Hs & Hu & Hc & Hl).
  split; [exact Hs|]. rewrite Hs.
  split; [reflexivity|]. split; [reflexivity|].
  split; [apply flag_power_bit|]. split; [exact Hu|]. split; [exact Hc|exact Hl].
Qed.

Lemma reconnect_decodes_afresh_witness :
  let resp := status_block
    [0x38; 0x30; 0x30; 0x30; 0x20; 0x30; 0x30; 0x30; 0x30; 0x20;
     0x30; 0x30; 0x30; 0x30; 0x20; 0x30; 0x30; 0x30; 0x30; 0x20;
     0x30; 0x30; 0x30; 0x30] in
  let g := updateStatus
             (boot true (replicate 8 inhabitant)
                (mkClient (resp ++ resp) [] [] true)) in
  _statusw1 g = 0x8000 /\
  m_isPowered (currentState (connectMonitor 500 g)) = true /\
  m_connected (currentState (connectMonitor 500 g)) = true /\
  m_isValid (currentState (connectMonitor 500 g)) = true.
Proof.
  intros resp g.
  destruct (reconnect_decodes_afresh 500 g
              (mkClient [] [] [get_status; get_status] true) resp eq_refl)
    as (_ & Hc & Hv & Hp & _).
  - left. vm_compute. discriminate.
  - split; [reflexivity|]. split; [|split; [exact Hc|exact Hv]].
    rewrite Hp. reflexivity.
Defined.

(** ** The key scan *)

Lemma physicalKeys_bits : physicalKeys = map key_mask key_bits.
Proof. reflexivity. Qed.

Lemma land_pow2_eqb w i :
  0 <= i -> (Z.land w (2 ^ i) =? 0) = negb (Z.testbit w i).
Proof.
  intros Hi. rewrite land_pow2 by exact Hi.
  destruct (Z.testbit w i); [|reflexivity].
  apply Z.eqb_neq. pose proof (Z.pow_pos_nonneg 2 i). lia.
Qed.

Lemma testbit_key_set w i j :
  0 <= i -> 0 <= j ->
  Z.testbit (Z.lor w (2 ^ i)) j = Z.testbit w j || (i =? j).
Proof.
  intros Hi Hj. rewrite Z.lor_spec, Z.pow2_bits_eqb by lia. reflexivity.
Qed.

Lemma testbit_key_clear w i j :
  0 <= i -> 0 <= j < 32 ->
  Z.testbit (Z.land w (u32 (Z.lnot (2 ^ i)))) j = Z.testbit w j && negb (i =? j).
Proof.
  intros Hi Hj. rewrite Z.land_spec. unfold u32.
  change 4294967296 with (2 ^ 32).
  rewrite Z.mod_pow2_bits_low by lia.
  rewrite Z.lnot_spec, Z.pow2_bits_eqb by lia. reflexivity.
Qed.

(** One key: its bit follows its pin, and its command is pushed, when
    there is room, if the pin reads HIGH and the bit was clear before. *)
Lemma scan_key_spec dr pin i prev s g cmd :
  0 <= i < 32 ->
  key_command pin = Some cmd ->
  scan_key dr (pin, 2 ^ i) (mkKeyScan prev s false, g)
  = (mkKeyScan prev (keys_read dr [(pin, i)] s) false,
     if rising dr prev (pin, 2 ^ i) then push_if_room cmd g else g).
Proof.
  intros Hi Hcmd. unfold scan_key, rising, keys_read, pushButton, push_if_room.
  cbn [fst snd fold_left physicalKeyState physicalKeyState_prev ignore].
  rewrite !land_pow2_eqb by lia.
  destruct (dr pin).
  - rewrite testbit_key_set by lia. rewrite Z.eqb_refl, orb_true_r.
    cbn [negb andb].
    destruct (negb (Z.testbit prev i)); [|reflexivity].
    destruct (_ <? MAX_QUEUELEN); [|reflexivity].
    rewrite Hcmd. reflexivity.
  - rewrite testbit_key_clear by lia. rewrite Z.eqb_refl, andb_false_r.
    reflexivity.
Qed.

Lemma keys_read_cons dr e kb s :
  keys_read dr (e :: kb) s = keys_read dr kb (keys_read dr [e] s).
Proof. reflexivity. Qed.

Lemma scan_keys_spec dr prev : forall kb s g,
  Forall (fun e => 0 <= snd e < 32 /\ key_command (fst e) <> None) kb ->
  fold_left (fun acc key => scan_key dr key acc) (map key_mask kb)
    (mkKeyScan prev s false, g)
  = (mkKeyScan prev (keys_read dr kb s) false,
     fold_left (fun acc c => push_if_room c acc)
       (rising_commands dr prev (map key_mask kb)) g).
Proof.
  induction kb as [|[pin i] kb IH]; intros s g Hall; [reflexivity|].
  inversion Hall as [|e l [Hi Hcmd] Hrest]; subst. simpl in Hi, Hcmd.
  destruct (key_command pin) as [cmd|] eqn:Ec; [|contradiction].
  cbn [map fold_left]. change (key_mask (pin, i)) with (pin, 2 ^ i).
  rewrite (scan_key_spec dr pin i prev s g cmd Hi Ec).
  rewrite IH by exact Hrest. rewrite keys_read_cons.
  f_equal. unfold rising_commands. cbn [map List.filter].
  change (key_mask (pin, i)) with (pin, 2 ^ i).
  destruct (rising dr prev (pin, 2 ^ i)); [|reflexivity].
  cbn -[push_if_room rising key_command key_mask]. rewrite Ec. reflexivity.
Qed.

Lemma key_bits_ok :
  Forall (fun e => 0 <= snd e < 32 /\ key_command (fst e) <> None) key_bits.
Proof.
  unfold key_bits.
  repeat (apply List.Forall_cons; [split; [cbn; lia|cbn; discriminate]|]).
  apply List.Forall_nil.
Qed.

Lemma buttonHandler_pass_spec dr prev s g :
  buttonHandler_pass dr (mkKeyScan prev s false, g)
  = (mkKeyScan (keys_read dr key_bits s) (keys_read dr key_bits s) false,
     fold_left (fun acc c => push_if_room c acc)
       (rising_commands dr prev physicalKeys) g).
Proof.
  unfold buttonHandler_pass. rewrite physicalKeys_bits.
  rewrite (scan_keys_spec dr prev key_bits s g key_bits_ok). reflexivity.
Qed.

(** The bit of every key of the table is its pin after the pass. *)
Lemma keys_read_other dr j : forall kb s,
  0 <= j < 32 ->
  Forall (fun e => 0 <= snd e < 32 /\ snd e <> j) kb ->
  Z.testbit (keys_read dr kb s) j = Z.testbit s j.
Proof.
  induction kb as [|[pin i] kb IH]; intros s Hj Hall; [reflexivity|].
  inversion Hall as [|e l [Hi Hne] Hrest]; subst. simpl in Hi, Hne.
  rewrite keys_read_cons, IH by assumption.
  unfold keys_read. cbn [fold_left fst snd].
  destruct (dr pin).
  - rewrite testbit_key_set by lia.
    replace (i =? j) with false by (symmetry; apply Z.eqb_neq; exact Hne).
    apply orb_false_r.
  - rewrite testbit_key_clear by lia.
    replace (i =? j) with false by (symmetry; apply Z.eqb_neq; exact Hne).
    apply andb_true_r.
Qed.

Lemma keys_read_own dr : forall kb s pin i,
  NoDup (map snd kb) ->
  Forall (fun e => 0 <= snd e < 32) kb ->
  In (pin, i) kb ->
  Z.testbit (keys_read dr kb s) i = dr pin.
Proof.
  induction kb as [|[p0 i0] kb IH]; intros s pin i Hnd Hall Hin; [destruct Hin|].
  inversion Hall as [|e l Hi Hrest]; subst. simpl in Hi.
  cbn [map snd] in Hnd. apply NoDup_cons in Hnd. destruct Hnd as [Hfresh Hnd].
  rewrite keys_read_cons.
  destruct Hin as [E | Hin].
  - injection E as -> ->.
    rewrite keys_read_other.
    + unfold keys_read. cbn [fold_left fst snd].
      destruct (dr pin).
      * rewrite testbit_key_set by lia. rewrite Z.eqb_refl. apply orb_true_r.
      * rewrite testbit_key_clear by lia. rewrite Z.eqb_refl. apply andb_false_r.
    + exact Hi.
    + clear -Hfresh Hrest. induction kb as [|[p1 i1] kb IH]; [constructor|].
      inversion Hrest as [|e l Hi1 Hr]; subst. simpl in Hi1.
      constructor.
      * split; [exact Hi1|]. intros E. apply Hfresh. simpl in E. subst.
        apply elem_of_cons. left. reflexivity.
      * apply IH; [|exact Hr]. intros Hin. apply Hfresh.
        cbn [map snd]. apply elem_of_cons. right. exact Hin.
  - apply IH; assumption.
Qed.

Lemma key_bits_nodup : NoDup (map snd key_bits).
Proof.
  unfold key_bits. cbn [map snd].
  repeat (apply NoDup_cons_2;
          [rewrite ?elem_of_cons, elem_of_nil; intros Hin;
           repeat (destruct Hin as [Hin | Hin]; [discriminate|]); exact Hin|]).
  apply NoDup_nil_2.
Qed.

Lemma key_bits_range : Forall (fun e => 0 <= snd e < 32) key_bits.
Proof.
  eapply Forall_impl; [exact key_bits_ok|]. intros e [He _]. exact He.
Qed.

Lemma set_commandQueue_twice a b g :
  set_commandQueue a (set_commandQueue b g) = set_commandQueue a g.
Proof. destruct g; reflexivity. Qed.

Lemma set_commandQueue_same g : set_commandQueue (commandQueue g) g = g.
Proof. destruct g; reflexivity. Qed.

Lemma push_if_room_step c g :
  CmdQueue.wf (commandQueue g) ->
  CmdQueue.m_maxCount (commandQueue g) = MAX_QUEUELEN ->
  let g1 := push_if_room c g in
  let room := Z.to_nat (MAX_QUEUELEN - CmdQueue.getCount (commandQueue g)) in
  CmdQueue.wf (commandQueue g1) /\
  CmdQueue.m_maxCount (commandQueue g1) = MAX_QUEUELEN /\
  CmdQueue.contents (commandQueue g1)
    = CmdQueue.contents (commandQueue g) ++ take room [c] /\
  Z.to_nat (MAX_QUEUELEN - CmdQueue.getCount (commandQueue g1)) = pred room /\
  set_commandQueue (commandQueue g) g1 = g.
Proof.
  intros Hwf Hmax. pose proof Hwf as [Hm Hl Ht Hc Hh].
  unfold push_if_room, CmdQueue.getCount in *.
  destruct (_ <? MAX_QUEUELEN) eqn:E; zprop; cbn zeta.
  - cbn [commandQueue set_commandQueue].
    split; [apply CmdQueueFacts.push_wf, Hwf|].
    split; [rewrite CmdQueueFacts.push_maxCount; exact Hmax|].
    rewrite CmdQueueFacts.push_contents by (try assumption; lia).
    rewrite CmdQueueFacts.push_count by (try assumption; lia).
    replace (Z.to_nat (MAX_QUEUELEN - CmdQueue.m_count (commandQueue g)))
      with (S (Z.to_nat (MAX_QUEUELEN
                         - (CmdQueue.m_count (commandQueue g) + 1))))
      by lia.
    split; [cbn [take]; rewrite take_nil; reflexivity|].
    split; [reflexivity|].
    rewrite set_commandQueue_twice. apply set_commandQueue_same.
  - split; [exact Hwf|]. split; [exact Hmax|].
    replace (Z.to_nat (MAX_QUEUELEN - CmdQueue.m_count (commandQueue g)))
      with 0%nat by lia.
    split; [rewrite app_nil_r; reflexivity|]. split; [reflexivity|].
    apply set_commandQueue_same.
Qed.

Lemma push_if_room_fold cmds : forall g,
  CmdQueue.wf (commandQueue g) ->
  CmdQueue.m_maxCount (commandQueue g) = MAX_QUEUELEN ->
  let g' := fold_left (fun acc c => push_if_room c acc) cmds g in
  CmdQueue.contents (commandQueue g')
    = CmdQueue.contents (commandQueue g)
      ++ take (Z.to_nat (MAX_QUEUELEN - CmdQueue.getCount (commandQueue g))) cmds /\
  set_commandQueue (commandQueue g) g' = g.
Proof.
  induction cmds as [|c cmds IH]; intros g Hwf Hmax.
  - simpl. rewrite take_nil, app_nil_r. split; [reflexivity|].
    apply set_commandQueue_same.
  - cbn [fold_left].
    destruct (push_if_room_step c g Hwf Hmax) as (W1 & M1 & C1 & R1 & F1).
    destruct (IH (push_if_room c g) W1 M1) as (IH1 & IH2).
    cbv zeta in *. split.
    + rewrite IH1, C1, R1, <- app_assoc. f_equal.
      destruct (Z.to_nat (MAX_QUEUELEN - CmdQueue.getCount (commandQueue g)));
        [rewrite !take_0; reflexivity|].
      simpl. rewrite take_nil. reflexivity.
    + rewrite <- (set_commandQueue_twice _ (commandQueue (push_if_room c g))).
      rewrite IH2. exact F1.
Qed.

(** X11.  A pass of the key scan queues, in the order of the key table, the
    command of every key whose pin reads HIGH and whose bit was clear in
    the previous scan, as far as the queue has room; commands that find no
    room are dropped.  Nothing but the command queue changes. *)
Theorem key_pass_queues_rising_keys dr k g :
  ignore k = false ->
  CmdQueue.wf (commandQueue g) ->
  CmdQueue.m_maxCount (commandQueue g) = MAX_QUEUELEN ->
  let g' := snd (buttonHandler_pass dr (k, g)) in
  CmdQueue.contents (commandQueue g')
    = CmdQueue.contents (commandQueue g)
      ++ take (Z.to_nat (MAX_QUEUELEN - CmdQueue.getCount (commandQueue g)))
           (rising_commands dr (physicalKeyState_prev k) physicalKeys) /\
  set_commandQueue (commandQueue g) g' = g /\
  ignore (fst (buttonHandler_pass dr (k, g))) = false.
Proof.
  intros Hign Hwf Hmax. destruct k as [prev s ign]. simpl in Hign. subst ign.
  rewrite buttonHandler_pass_spec. cbn [fst snd ignore physicalKeyState_prev].
  destruct (push_if_room_fold (rising_commands dr prev physicalKeys) g Hwf Hmax)
    as (H1 & H2).
  split; [exact H1|]. split; [exact H2|reflexivity].
Qed.

Lemma key_pass_queues_rising_keys_witness :
  let g := boot true (replicate 8 inhabitant) idle_client in
  let dr := fun pin => (pin =? KEY_POWER) || (pin =? INPUT_KEY_3) in
  let k := mkKeyScan 0 0 false in
  CmdQueue.contents (commandQueue (snd (buttonHandler_pass dr (k, g))))
  = [mkCommand CT_INFO "3"; mkCommand CT_STATUS "POWER"].
Proof.
  intros g dr k.
  assert (Hwf : CmdQueue.wf (commandQueue g)).
  { constructor; cbn; change (u8 MAX_QUEUELEN) with 8; first [lia | reflexivity]. }
  destruct (key_pass_queues_rising_keys dr k g eq_refl Hwf eq_refl) as (H & _).
  rewrite H. reflexivity.
Defined.

Lemma rising_after_pass dr kb s :
  NoDup (map snd kb) ->
  Forall (fun e => 0 <= snd e < 32) kb ->
  rising_commands dr (keys_read dr kb s) (map key_mask kb) = [].
Proof.
  intros Hnd Hall. unfold rising_commands.
  assert (Hf : forall l, (forall e, In e l -> In e kb) ->
            List.filter (rising dr (keys_read dr kb s)) (map key_mask l) = []).
  { induction l as [|[pin i] l IH]; intros Hsub; [reflexivity|].
    cbn [map List.filter]. change (key_mask (pin, i)) with (pin, 2 ^ i).
    unfold rising at 1. cbn [fst snd].
    assert (Hin : In (pin, i) kb) by (apply Hsub; left; reflexivity).
    assert (Hi : 0 <= i < 32).
    { rewrite List.Forall_forall in Hall. exact (Hall _ Hin). }
    rewrite land_pow2_eqb by lia.
    rewrite (keys_read_own dr kb s pin i Hnd Hall Hin).
    rewrite andb_negb_r. apply IH. intros e He. apply Hsub. right. exact He. }
  rewrite Hf by auto. reflexivity.
Qed.

(** X12.  A key that stays pressed is queued once.  After a pass of the scan, a
    further pass that reads the same pins queues nothing and changes no
    variable of the sketch, whether or not the first pass found room in
    the queue for the commands of the keys that had risen: a key press
    that met a full queue is lost. *)
Theorem held_key_is_queued_once dr k g :
  ignore k = false ->
  let p := buttonHandler_pass dr (k, g) in
  snd (buttonHandler_pass dr p) = snd p /\
  physicalKeyState_prev (fst p) = physicalKeyState (fst p).
Proof.
  intros Hign. destruct k as [prev s ign]. simpl in Hign. subst ign.
  rewrite buttonHandler_pass_spec. cbv zeta.
  rewrite buttonHandler_pass_spec. cbn [fst snd physicalKeyState_prev physicalKeyState].
  rewrite physicalKeys_bits at 1.
  rewrite (rising_after_pass dr key_bits s key_bits_nodup key_bits_range).
  split; reflexivity.
Qed.

Lemma held_key_is_queued_once_witness :
  let dr := fun pin => pin =? NAV_KEY_MENU in
  let k := mkKeyScan 0 0 false in
  let p := buttonHandler_pass dr (k, full_queue_state) in
  CmdQueue.getCount (commandQueue (snd p)) = MAX_QUEUELEN /\
  snd (buttonHandler_pass dr p) = snd p.
Proof.
  intros dr k p.
  split; [vm_compute; reflexivity|].
  exact (proj1 (held_key_is_queued_once dr k full_queue_state eq_refl)).
Defined.

Lemma rising_none dr prev kb :
  Forall (fun e => 0 <= snd e < 32 /\ Z.testbit prev (snd e) = true) kb ->
  rising_commands dr prev (map key_mask kb) = [].
Proof.
  intros Hall. unfold rising_commands.
  induction Hall as [|[pin i] l [Hi Hb] _ IH]; [reflexivity|].
  cbn [map List.filter]. change (key_mask (pin, i)) with (pin, 2 ^ i).
  unfold rising at 1. cbn [fst snd] in *.
  rewrite land_pow2_eqb by lia. rewrite Hb, andb_false_r. exact IH.
Qed.

(** X13.  The first pass after boot queues nothing, whatever the pins read:
    [physicalKeyState_prev] starts with all bits set, so no key is seen to
    rise before it has read LOW in one pass. *)
Theorem first_key_pass_queues_nothing dr g :
  snd (buttonHandler_pass dr (keys_boot, g)) = g.
Proof.
  unfold keys_boot. rewrite buttonHandler_pass_spec. cbn [snd].
  rewrite physicalKeys_bits, rising_none; [reflexivity|].
  unfold key_bits.
  repeat (apply List.Forall_cons; [split; [cbn; lia|reflexivity]|]).
  apply List.Forall_nil.
Qed.

(** ** The status document *)

Lemma string_append_assoc (a b c : string) :
  ((a ++ b) ++ c)%string = (a ++ (b ++ c))%string.
Proof. induction a as [|x a IH]; simpl; [reflexivity|]. rewrite IH. reflexivity. Qed.

Lemma bool_text_inj (b b' : bool) (r r' : string) :
  ((if b then "true" else "false") ++ r)%string
  = ((if b' then "true" else "false") ++ r')%string ->
  b = b' /\ r = r'.
Proof.
  destruct b, b'; simpl; intros E; try discriminate;
    injection E as E; (split; [reflexivity|exact E]).
Qed.

Lemma lacks_split ch : forall a a' r r',
  lacks ch a = true -> lacks ch a' = true ->
  (a ++ String ch r)%string = (a' ++ String ch r')%string ->
  a = a' /\ r = r'.
Proof.
  induction a as [|x a IH]; intros [|x' a'] r r' Ha Ha' E; simpl in *.
  - injection E as E. auto.
  - injection E as Ex E. subst x'.
    rewrite Ascii.eqb_refl in Ha'. discriminate.
  - injection E as Ex E. subst x.
    rewrite Ascii.eqb_refl in Ha. discriminate.
  - injection E as Ex E. subst x'.
    apply andb_prop in Ha. apply andb_prop in Ha'.
    destruct (IH a' r r' (proj2 Ha) (proj2 Ha') E) as (-> & ->). auto.
Qed.

Lemma lacks_comma_uint d : lacks ","%char (NilEmpty.string_of_uint d) = true.
Proof. induction d; simpl; try rewrite IHd; reflexivity. Qed.

Lemma lacks_comma_fmt_d x : lacks ","%char (fmt_d x) = true.
Proof.
  unfold fmt_d. destruct (Z.to_int x) as [d|d]; simpl.
  - destruct d; try reflexivity; apply lacks_comma_uint.
  - destruct d; try reflexivity; apply lacks_comma_uint.
Qed.

Lemma fmt_d_inj x y : fmt_d x = fmt_d y -> x = y.
Proof.
  unfold fmt_d. intros E.
  apply (f_equal NilZero.int_of_string) in E.
  assert (Hnil : forall z, Z.to_int z <> Decimal.Pos Decimal.Nil /\
                           Z.to_int z <> Decimal.Neg Decimal.Nil).
  { intros [|p|p]; simpl; split; try discriminate;
      intros [= Hp]; exact (DecimalPos.Unsigned.to_uint_nonnil p Hp). }
  rewrite !NilZero.isi in E by apply Hnil.
  injection E as E. apply DecimalZ.to_int_inj, E.
Qed.

Lemma string_append_inv_head (p a b : string) :
  (p ++ a)%string = (p ++ b)%string -> a = b.
Proof.
  induction p as [|x p IH]; simpl; intros E; [exact E|].
  injection E as E. exact (IH E).
Qed.

Lemma addBool_more content key val rest :
  (addBool content key val false ++ rest)%string
  = (content ++ (DQUOTE ++ (key ++ ((DQUOTE ++ ":") ++
      ((if val then "true" else "false") ++ ("," ++ (LF ++ rest)))))))%string.
Proof. unfold addBool. cbn [negb]. rewrite !string_append_assoc. reflexivity. Qed.

Lemma addBool_last content key val rest :
  (addBool content key val true ++ rest)%string
  = (content ++ (DQUOTE ++ (key ++ ((DQUOTE ++ ":") ++
      ((if val then "true" else "false") ++ (LF ++ rest))))))%string.
Proof. unfold addBool. cbn [negb]. rewrite !string_append_assoc. reflexivity. Qed.

(** X14.  The status document tells the whole state: two states, or two packet
    numbers, that differ never give the same text.  A client can read
    every field of [State_t] and the packet number back from it. *)
Theorem status_document_determines_state (s s' : State_t) (n n' : Z) :
  status_text s n = status_text s' n' -> s = s' /\ n = n'.
Proof.
  destruct s as [a1 a2 a3 a4 a5 a6 a7 a8 a9 a10 a11 a12 a13 a14 a15 a16 a17
                 a18 a19 a20 a21 a22 a23 a24].
  destruct s' as [b1 b2 b3 b4 b5 b6 b7 b8 b9 b10 b11 b12 b13 b14 b15 b16 b17
                  b18 b19 b20 b21 b22 b23 b24].
  unfold status_text, addStatus.
  cbn [m_linkUp m_connected m_isValid m_isPowered m_scanmode m_hdelay m_vdelay
       m_charmute m_monochrome m_marker m_extsync m_apt m_chromaup m_aspect
       m_coltemp m_comb m_blueonly m_rcutoff m_gcutoff m_bcutoff m_man_phase
       m_man_chroma m_man_bright m_man_contrast].
  rewrite !string_append_assoc.
  rewrite !addBool_last. rewrite !addBool_more.
  rewrite !string_append_assoc.
  intros E.
  repeat first
    [ apply string_append_inv_head in E
    | apply bool_text_inj in E;
      let Hb := fresh "Hb" in destruct E as [Hb E]; subst ].
  apply lacks_split in E; try apply lacks_comma_fmt_d.
  destruct E as [En E]. apply fmt_d_inj in En. subst n'.
  repeat first
    [ apply string_append_inv_head in E
    | apply bool_text_inj in E;
      let Hb := fresh "Hb" in destruct E as [Hb E]; subst ].
  split; reflexivity.
Qed.

Lemma status_document_determines_state_witness :
  let s := mkState true true true true false false false true false false
                   true false false true false false false false false false
                   false false true false in
  status_text s 7 = status_text s 7 /\ (s = s /\ 7 = 7).
Proof.
  intros s. split; [reflexivity|].
  apply (status_document_determines_state s s 7 7). reflexivity.
Defined.

(** ** Reading a request *)

Lemma buffer_from_append : forall pre s,
  buffer_from (String.length pre) (pre ++ s) = s.
Proof.
  induction pre as [|y pre IH]; intros s; simpl.
  - destruct s; reflexivity.
  - apply IH.
Qed.

Lemma strchr_here ch : forall a b,
  lacks ch a = true ->
  lacks "000"%char a = true ->
  strchr (a ++ String ch b) ch = Some (String.length a).
Proof.
  induction a as [|x a IH]; intros b Ha Hnul.
  - simpl. rewrite Ascii.eqb_refl. reflexivity.
  - simpl in Ha, Hnul.
    apply andb_prop in Ha. destruct Ha as [Hx Ha].
    apply andb_prop in Hnul. destruct Hnul as [Hx0 Hnul].
    apply negb_true_iff in Hx, Hx0.
    simpl. rewrite Hx, Hx0, (IH b Ha Hnul). reflexivity.
Qed.

Lemma substring0_prefix (a b : string) :
  String.substring 0 (String.length a) (a ++ b) = a.
Proof. induction a as [|x a IH]; simpl; [destruct b|rewrite IH]; reflexivity. Qed.

Lemma indexOf_at ch pre a b :
  lacks ch a = true ->
  lacks "000"%char a = true ->
  Z.of_nat (String.length (pre ++ a ++ String ch b)) < 4294967296 ->
  indexOf ch (Z.of_nat (String.length pre)) (pre ++ a ++ String ch b)
  = Z.of_nat (String.length pre + String.length a).
Proof.
  intros Ha Hnul Hlen. unfold indexOf, u32.
  rewrite !string_length_append in *. cbn [String.length] in *.
  rewrite Z.mod_small by lia.
  destruct (_ >=? _) eqn:E; [zprop; lia|].
  rewrite Nat2Z.id, buffer_from_append, (strchr_here ch a b Ha Hnul). lia.
Qed.

Lemma substring_middle pre a b :
  Z.of_nat (String.length (pre ++ a ++ b)) < 4294967296 ->
  b <> EmptyString ->
  substring (Z.of_nat (String.length pre))
    (Z.of_nat (String.length pre + String.length a)) (pre ++ a ++ b) = a.
Proof.
  intros Hlen Hb. unfold substring, u32.
  rewrite !string_length_append in *.
  assert (Hbl : (0 < String.length b)%nat)
    by (destruct b; [contradiction|simpl; lia]).
  set (lp := String.length pre) in *. set (la := String.length a) in *.
  set (lb := String.length b) in *.
  rewrite !Z.mod_small by lia.
  replace (Z.of_nat lp >? Z.of_nat (lp + la)) with false
    by (symmetry; rewrite Z.gtb_ltb; apply Z.ltb_ge; lia).
  replace (Z.of_nat lp >=? Z.of_nat (lp + (la + lb))) with false
    by (symmetry; rewrite Z.geb_leb; apply Z.leb_gt; lia).
  replace (Z.of_nat (lp + la) >? Z.of_nat (lp + (la + lb))) with false
    by (symmetry; rewrite Z.gtb_ltb; apply Z.ltb_ge; lia).
  rewrite Nat2Z.id.
  replace (Z.to_nat (Z.of_nat (lp + la) - Z.of_nat lp)) with la by lia.
  subst lp la. rewrite string_substring_skip. apply substring0_prefix.
Qed.

Lemma lacks_append ch a b :
  lacks ch (a ++ b) = lacks ch a && lacks ch b.
Proof.
  induction a as [|x a IH]; simpl; [reflexivity|].
  rewrite IH. apply andb_assoc.
Qed.

(** The received bytes up to the end of a line are gathered in [str]. *)
Lemma read_chars_line : forall line rest r,
  lacks "010"%char line = true ->
  read_chars (line ++ String "010"%char rest) r
  = let s := (str r ++ line ++ LF)%string in
    let r1 := mkReading s (m_URL r) (m_content r) (contentLength r) in
    if String.eqb s CRLF then HeadersDone r1 rest
    else read_chars rest (header_line r1).
Proof.
  induction line as [|x line IH]; intros rest r Hl.
  - reflexivity.
  - simpl in Hl. apply andb_prop in Hl. destruct Hl as [Hx Hl].
    apply negb_true_iff in Hx.
    cbn [append read_chars]. rewrite Hx. rewrite (IH rest _ Hl).
    cbn [str m_URL m_content contentLength].
    rewrite !string_append_assoc. reflexivity.
Qed.

(** Without the end of a line everything received stays in [str]. *)
Lemma read_chars_partial : forall data r,
  lacks "010"%char data = true ->
  read_chars data r
  = MoreInput (mkReading (str r ++ data) (m_URL r) (m_content r)
                 (contentLength r)).
Proof.
  induction data as [|x data IH]; intros r Hl.
  - simpl. destruct r as [s u c n]. simpl.
    replace (s ++ EmptyString)%string with s; [reflexivity|].
    clear. induction s as [|y s IH]; simpl; [|rewrite <- IH]; reflexivity.
  - simpl in Hl. apply andb_prop in Hl. destruct Hl as [Hx Hl].
    apply negb_true_iff in Hx.
    cbn [read_chars]. rewrite Hx. rewrite (IH _ Hl).
    cbn [str m_URL m_content contentLength].
    rewrite string_append_assoc. reflexivity.
Qed.

Lemma plain_header_line h rest r :
  plain_header h = true ->
  str r = EmptyString ->
  read_chars (h ++ CRLF ++ rest) r
  = read_chars rest
      (mkReading EmptyString (m_URL r) (m_content r) (contentLength r)).
Proof.
  unfold plain_header. intros Hp Hs.
  apply andb_prop in Hp. destruct Hp as [Hp Hcl].
  apply andb_prop in Hp. destruct Hp as [Hp Hget].
  apply andb_prop in Hp. destruct Hp as [Hlf Hne].
  apply negb_true_iff in Hcl, Hget, Hne.
  replace (h ++ CRLF ++ rest)%string
    with ((h ++ CR) ++ String "010"%char rest)%string
    by (rewrite string_append_assoc; reflexivity).
  rewrite read_chars_line
    by (rewrite lacks_append, Hlf; reflexivity).
  cbv zeta. rewrite Hs. cbn [append].
  replace ((h ++ CR) ++ LF)%string with (h ++ CRLF)%string
    by (rewrite string_append_assoc; reflexivity).
  assert (Hne2 : String.eqb (h ++ CRLF) CRLF = false).
  { apply String.eqb_neq. intros E.
    apply (f_equal String.length) in E.
    rewrite string_length_append in E. simpl in E.
    destruct h; [discriminate|simpl in E; lia]. }
  rewrite Hne2. unfold header_line. cbn [str m_URL m_content contentLength].
  rewrite Hget, Hcl. reflexivity.
Qed.

Lemma headers_then_empty_line headers : forall r,
  Forall (fun h => plain_header h = true) headers ->
  str r = EmptyString ->
  read_chars (fold_right (fun h acc => h ++ CRLF ++ acc) CRLF headers)%string r
  = HeadersDone (mkReading CRLF (m_URL r) (m_content r) (contentLength r))
      EmptyString.
Proof.
  induction headers as [|h headers IH]; intros r Hall Hs.
  - simpl. rewrite Hs. reflexivity.
  - inversion Hall as [|x l Hh Hrest]; subst.
    cbn [fold_right]. rewrite (plain_header_line h _ r Hh Hs).
    rewrite IH by (try assumption; reflexivity). reflexivity.
Qed.

Lemma request_line url rest :
  lacks " "%char url = true ->
  lacks "010"%char url = true ->
  lacks "000"%char url = true ->
  Z.of_nat (String.length url) < 4294967000 ->
  read_chars ("GET " ++ url ++ " HTTP/1.1" ++ CRLF ++ rest)%string Reading_new
  = read_chars rest (mkReading EmptyString url EmptyString 0).
Proof.
  intros Hsp Hlf Hnul Hlen.
  replace ("GET " ++ url ++ " HTTP/1.1" ++ CRLF ++ rest)%string
    with (("GET " ++ url ++ " HTTP/1.1" ++ CR) ++ String "010"%char rest)%string
    by (rewrite !string_append_assoc; reflexivity).
  rewrite read_chars_line
    by (rewrite !lacks_append, Hlf; reflexivity).
  cbv zeta. cbn [Reading_new str m_URL m_content contentLength].
  change (EmptyString ++ ?x)%string with x.
  replace (("GET " ++ url ++ " HTTP/1.1" ++ CR) ++ LF)%string
    with ("GET " ++ url ++ String " " ("HTTP/1.1" ++ CRLF))%string
    by (rewrite !string_append_assoc; reflexivity).
  change (String.eqb ("GET " ++ url ++ String " " ("HTTP/1.1" ++ CRLF)) CRLF)
    with false.
  cbv iota. unfold header_line. cbn [str m_URL m_content contentLength].
  change (startsWith ("GET " ++ url ++ String " " ("HTTP/1.1" ++ CRLF)) "GET")
    with true.
  cbv iota.
  assert (Hlen2 : Z.of_nat (String.length
            ("GET " ++ url ++ String " " ("HTTP/1.1" ++ CRLF))) < 4294967296).
  { rewrite !string_length_append. simpl. lia. }
  change 4 with (Z.of_nat (String.length "GET ")).
  rewrite (indexOf_at " " "GET " url ("HTTP/1.1" ++ CRLF) Hsp Hnul Hlen2).
  rewrite (substring_middle "GET " url (String " " ("HTTP/1.1" ++ CRLF)) Hlen2)
    by discriminate.
  reflexivity.
Qed.

(** X15.  A GET request is handled as a request for its URL.  For a URL
    without blank, line feed or NUL, and whatever header lines follow the
    request line (none of them another GET line or a Content-Length
    line), once the empty line has been received [handleReq] is called
    with the text between [GET ] and the next blank, on the socket of the
    connection, and no body is read. *)
Theorem get_request_is_dispatched sock url headers evs now g :
  lacks " "%char url = true ->
  lacks "010"%char url = true ->
  lacks "000"%char url = true ->
  Z.of_nat (String.length url) < 4294967000 ->
  Forall (fun h => plain_header h = true) headers ->
  serve (mkWebClient sock (get_request url headers) evs true) now g
  = Answered (mkReading CRLF url EmptyString 0) (handleReq sock url now g).
Proof.
  intros Hsp Hlf Hnul Hlen Hall. unfold serve.
  cbn [events]. destruct (length evs) as [|k];
    cbn [serve_loop peer_open negb inbuf socket events];
    unfold get_request;
    rewrite (request_line url _ Hsp Hlf Hnul Hlen);
    rewrite (headers_then_empty_line headers
               (mkReading EmptyString url EmptyString 0) Hall eq_refl);
    reflexivity.
Qed.

Lemma get_request_is_dispatched_witness :
  let g := boot true (replicate 8 inhabitant) idle_client in
  let c := mkWebClient (Some 4%nat)
             (get_request "/toggle/POWER" ["Host: 192.168.1.20"; "Accept: */*"])
             [] true in
  exists g1,
    webserverHandler_pass (Some c) 0 10 g
      = Completed g1 (client_print (Some 4%nat) http_200_none) /\
    CmdQueue.getCount (commandQueue g1) = 1.
Proof.
  intros g c.
  pose proof (get_request_is_dispatched (Some 4%nat) "/toggle/POWER"
                ["Host: 192.168.1.20"; "Accept: */*"] [] 0 g
                eq_refl eq_refl eq_refl ltac:(vm_compute; reflexivity)) as H.
  assert (Hh : Forall (fun h => plain_header h = true)
                 ["Host: 192.168.1.20"; "Accept: */*"]).
  { repeat constructor. }
  specialize (H Hh).
  unfold webserverHandler_pass. fold c in H. rewrite H.
  eexists. split; reflexivity.
Defined.

(** Chunks without the end of a line leave the handler waiting; a
    hang-up drops the client. *)
Lemma serve_incomplete sock now g chunks : forall data r tail,
  lacks "010"%char data = true ->
  Forall (fun c => lacks "010"%char c = true) chunks ->
  serve_loop (length (map Arrive chunks ++ tail))
    (mkWebClient sock data (map Arrive chunks ++ tail) true) r now g
  = match tail with
    | [] => Stalled
    | Arrive _ :: _ =>
        serve_loop (length (map Arrive chunks ++ tail))
          (mkWebClient sock data (map Arrive chunks ++ tail) true) r now g
    | Hangup :: _ => Dropped
    end.
Proof.
  induction chunks as [|c chunks IH]; intros data r tail Hd Hall.
  - cbn [map app]. destruct tail as [|[b|] more]; [|reflexivity|].
    + cbn [length serve_loop peer_open negb inbuf].
      rewrite (read_chars_partial data r Hd). reflexivity.
    + cbn [length serve_loop peer_open negb inbuf].
      rewrite (read_chars_partial data r Hd).
      cbn [web_delay1 events socket inbuf].
      destruct (length more); reflexivity.
  - inversion Hall as [|x l Hc Hrest]; subst.
    cbn [map app length serve_loop peer_open negb inbuf].
    rewrite (read_chars_partial data r Hd).
    cbn [web_delay1 events socket inbuf peer_open append].
    rewrite (IH c _ tail Hc Hrest).
    destruct tail as [|[b|] more]; reflexivity.
Qed.

(** X16.  A request that never gets to the end of a line.  While the peer stays
    connected the handler waits for more without any limit of time: the
    pass does not end, and [checkStatusNotification] is not reached.  When
    the peer closes the connection the handler gives up, nothing is
    answered, and the pass goes on to [checkStatusNotification]. *)
Theorem unfinished_request_holds_web_task sock data chunks more now now' g :
  lacks "010"%char data = true ->
  Forall (fun c => lacks "010"%char c = true) chunks ->
  webserverHandler_pass
    (Some (mkWebClient sock data (map Arrive chunks) true)) now now' g
  = Blocked /\
  webserverHandler_pass
    (Some (mkWebClient sock data (map Arrive chunks ++ Hangup :: more) true))
    now now' g
  = Completed (fst (checkStatusNotification now' g))
              (snd (checkStatusNotification now' g)).
Proof.
  intros Hd Hall. unfold webserverHandler_pass, serve. cbn [events]. split.
  - pose proof (serve_incomplete sock now g chunks data Reading_new [] Hd Hall)
      as H.
    rewrite app_nil_r in H. rewrite H. reflexivity.
  - rewrite (serve_incomplete sock now g chunks data Reading_new
               (Hangup :: more) Hd Hall).
    destruct (checkStatusNotification now' g) as [g2 out]. reflexivity.
Qed.

Lemma unfinished_request_holds_web_task_witness :
  let g := set_statusUpdated true
             (after_request (Some 1%nat) "/statuswait" 0
                (boot true (replicate 8 inhabitant) idle_client)) in
  webserverHandler_pass
    (Some (mkWebClient (Some 2%nat) "GET /stat" [Arrive "usget HT"] true))
    5 10 g = Blocked /\
  exists g1,
    webserverHandler_pass
      (Some (mkWebClient (Some 2%nat) "GET /stat"
               [Arrive "usget HT"; Hangup] true)) 5 10 g
    = Completed g1
        (client_print (Some 1%nat)
           (http_200_content "application/json"
              (StatusJson (currentState g) 0))).
Proof.
  intros g.
  destruct (unfinished_request_holds_web_task (Some 2%nat) "GET /stat"
              ["usget HT"] [] 5 10 g eq_refl) as (H1 & H2).
  - repeat constructor.
  - split; [exact H1|]. eexists. cbn [map app] in H2. rewrite H2. reflexivity.
Defined.

(** ** Credentials *)

Lemma index_crlf_here : forall a b,
  lacks "010"%char a = true ->
  String.index 0 CRLF (a ++ CRLF ++ b) = Some (String.length a).
Proof.
  induction a as [|x a IH]; intros b Ha.
  - destruct b; reflexivity.
  - simpl in Ha. apply andb_prop in Ha. destruct Ha as [Hx Ha].
    apply negb_true_iff, Ascii.eqb_neq in Hx.
    cbn [append String.index].
    assert (Hp : String.prefix CRLF (String x (a ++ CRLF ++ b)) = false).
    { unfold CRLF. cbn [String.prefix].
      destruct (ascii_dec "013" x) as [_|_]; [|reflexivity].
      destruct a as [|y a].
      - reflexivity.
      - simpl in Ha. apply andb_prop in Ha. destruct Ha as [Hy _].
        apply negb_true_iff, Ascii.eqb_neq in Hy.
        cbn [append String.prefix].
        destruct (ascii_dec "010" y) as [E|_]; [|reflexivity].
        subst y. contradiction. }
    rewrite Hp, (IH b Ha). reflexivity.
Qed.

Lemma c_str_append_lacks : forall a b,
  lacks "000"%char a = true -> c_str (a ++ b) = (a ++ c_str b)%string.
Proof.
  induction a as [|x a IH]; intros b Ha; [reflexivity|].
  simpl in Ha. apply andb_prop in Ha. destruct Ha as [Hx Ha].
  apply negb_true_iff in Hx.
  cbn [append c_str]. rewrite Hx, (IH b Ha). reflexivity.
Qed.

Lemma indexOf_str_at pre a b :
  lacks "010"%char a = true ->
  lacks "000"%char a = true ->
  Z.of_nat (String.length (pre ++ a ++ CRLF ++ b)) < 4294967296 ->
  indexOf_str CRLF (Z.of_nat (String.length pre)) (pre ++ a ++ CRLF ++ b)
  = Z.of_nat (String.length pre + String.length a).
Proof.
  intros Ha Hnul Hlen. unfold indexOf_str, u32.
  rewrite !string_length_append in *. cbn [String.length CRLF] in *.
  rewrite Z.mod_small by lia.
  destruct (_ >=? _) eqn:E; [zprop; lia|].
  rewrite Nat2Z.id, buffer_from_append.
  rewrite (c_str_append_lacks a _ Hnul).
  change (c_str CRLF) with CRLF.
  change (c_str (CRLF ++ b)) with (CRLF ++ c_str b)%string.
  rewrite (index_crlf_here a (c_str b) Ha). lia.
Qed.

Lemma setup_fields_body S P :
  lacks "010"%char S = true ->
  lacks "010"%char P = true ->
  lacks "000"%char S = true ->
  lacks "000"%char P = true ->
  Z.of_nat (String.length S + String.length P) < 4294967000 ->
  setup_fields (setup_body S P) = (S, P).
Proof.
  intros HS HP HS0 HP0 Hlen. unfold setup_fields, setup_body.
  set (content := ("ssid=" ++ S ++ CRLF ++ "psk=" ++ P ++ CRLF)%string).
  assert (Hsmall : Z.of_nat (String.length content) < 4294967296).
  { subst content. rewrite !string_length_append. simpl. lia. }
  assert (Hb : indexOf "="%char 0 content = 4).
  { change 0 with (Z.of_nat (String.length EmptyString)).
    change content
      with (EmptyString ++ "ssid"
            ++ String "="%char (S ++ CRLF ++ "psk=" ++ P ++ CRLF))%string.
    rewrite indexOf_at; [reflexivity|reflexivity|reflexivity|exact Hsmall]. }
  rewrite Hb.
  assert (Hp : indexOf_str CRLF (4 + 1) content
               = Z.of_nat (5 + String.length S)).
  { change (4 + 1) with (Z.of_nat (String.length "ssid=")).
    change content
      with ("ssid=" ++ S ++ CRLF ++ ("psk=" ++ P ++ CRLF))%string.
    rewrite indexOf_str_at; [reflexivity|exact HS|exact HS0|exact Hsmall]. }
  rewrite Hp.
  assert (Hssid : substring (4 + 1) (Z.of_nat (5 + String.length S)) content = S).
  { change (4 + 1) with (Z.of_nat (String.length "ssid=")).
    change content
      with ("ssid=" ++ S ++ (CRLF ++ "psk=" ++ P ++ CRLF))%string.
    apply substring_middle; [exact Hsmall|discriminate]. }
  rewrite Hssid.
  assert (Hcontent2 : content
            = (("ssid=" ++ S ++ CR) ++ (LF ++ "psk")
               ++ String "="%char (P ++ CRLF))%string).
  { subst content. rewrite !string_append_assoc. reflexivity. }
  assert (Hb2 : indexOf "="%char (Z.of_nat (5 + String.length S) + 1) content
                = Z.of_nat (10 + String.length S)).
  { replace (Z.of_nat (5 + String.length S) + 1)
      with (Z.of_nat (String.length ("ssid=" ++ S ++ CR)))
      by (rewrite !string_length_append; simpl; lia).
    rewrite Hcontent2 at 1.
    rewrite indexOf_at;
      [|reflexivity|reflexivity|rewrite <- Hcontent2; exact Hsmall].
    rewrite !string_length_append. simpl. f_equal. lia. }
  rewrite Hb2.
  assert (Hcontent3 : content
            = (("ssid=" ++ S ++ CRLF ++ "psk=") ++ P ++ CRLF ++ EmptyString)%string).
  { subst content. rewrite !string_append_assoc. reflexivity. }
  assert (Hl3 : Z.of_nat (10 + String.length S) + 1
                = Z.of_nat (String.length ("ssid=" ++ S ++ CRLF ++ "psk="))).
  { rewrite !string_length_append. simpl. lia. }
  rewrite Hl3.
  assert (Hp2 : indexOf_str CRLF
                  (Z.of_nat (String.length ("ssid=" ++ S ++ CRLF ++ "psk=")))
                  content
                = Z.of_nat (String.length ("ssid=" ++ S ++ CRLF ++ "psk=")
                            + String.length P)).
  { rewrite Hcontent3 at 1.
    rewrite indexOf_str_at; [reflexivity|exact HP|exact HP0|].
    rewrite <- Hcontent3. exact Hsmall. }
  rewrite Hp2.
  assert (Hcontent4 : content
            = (("ssid=" ++ S ++ CRLF ++ "psk=") ++ P ++ CRLF)%string).
  { subst content. rewrite !string_append_assoc. reflexivity. }
  rewrite Hcontent4 at 1.
  rewrite substring_middle;
    [reflexivity|rewrite <- Hcontent4; exact Hsmall|discriminate].
Qed.

(** X17.  The credentials travel unchanged from the setup page to the next
    boot.  The body the page sends for a network name and a key without
    line feed or NUL is read back as that name and that key.  A name that is
    not empty is stored with its key, the request is answered [200] and
    the board restarts; at the next start, with neither of the two setup
    pins held low, [setup] takes the stored name and key and does not
    enter the setup mode.  An empty name is answered [400], nothing is
    stored and the board does not restart. *)
Theorem credentials_round_trip S P prefs :
  lacks "010"%char S = true ->
  lacks "010"%char P = true ->
  lacks "000"%char S = true ->
  lacks "000"%char P = true ->
  Z.of_nat (String.length S + String.length P) < 4294967000 ->
  setup_fields (setup_body S P) = (S, P) /\
  (S <> EmptyString ->
   let stored := putString KEY_PASSWORD P (putString KEY_SSID S prefs) in
   setup_request "/setup" (setup_body S P) prefs
   = ([SetupLine "HTTP/1.1 200 OK"; SetupLine "Content-Type: none";
       SetupLine "Connection: close"], stored, true) /\
   setup_credentials false false stored = mkWifiSetup true false S P) /\
  (S = EmptyString ->
   setup_request "/setup" (setup_body S P) prefs
   = ([SetupLine "HTTP/1.1 400 Bad Request"; SetupLine "Content-Type: none";
       SetupLine "Connection: close"], prefs, false)).
Proof.
  intros HS HP HS0 HP0 Hlen.
  pose proof (setup_fields_body S P HS HP HS0 HP0 Hlen) as Hf.
  split; [exact Hf|]. split.
  - intros Hne stored. apply String.eqb_neq in Hne.
    unfold setup_request.
    change (String.eqb "/setup" "/") with false.
    change (String.eqb "/setup" "/setup") with true. cbv iota.
    rewrite Hf, Hne. cbn [negb]. split; [reflexivity|].
    unfold setup_credentials, stored, putString, isKey, getString.
    cbn [negb existsb List.find fst snd].
    change (String.eqb KEY_PASSWORD KEY_SSID) with false.
    change (String.eqb KEY_SSID KEY_SSID) with true.
    change (String.eqb KEY_PASSWORD KEY_PASSWORD) with true.
    cbn [orb negb fst snd]. rewrite Hne. reflexivity.
  - intros ->. unfold setup_request.
    change (String.eqb "/setup" "/") with false.
    change (String.eqb "/setup" "/setup") with true. cbv iota.
    rewrite Hf. reflexivity.
Qed.

Lemma credentials_round_trip_witness :
  setup_fields (setup_body "workshop" "s3cret=key") = ("workshop", "s3cret=key") /\
  setup_credentials false false
    (putString KEY_PASSWORD "s3cret=key" (putString KEY_SSID "workshop" []))
  = mkWifiSetup true false "workshop" "s3cret=key".
Proof.
  destruct (credentials_round_trip "workshop" "s3cret=key" [] eq_refl eq_refl
              eq_refl eq_refl ltac:(vm_compute; reflexivity)) as (H1 & H2 & _).
  split; [exact H1|].
  exact (proj2 (H2 ltac:(discriminate))).
Defined.

(** ** Knob requests *)

Lemma knob_fields_built k0 k1 d f v :
  String.length k0 = 2%nat ->
  lacks "/"%char k1 = true ->
  lacks "/"%char d = true ->
  lacks "/"%char f = true ->
  lacks "000"%char k1 = true ->
  lacks "000"%char d = true ->
  lacks "000"%char f = true ->
  Z.of_nat (String.length k1 + String.length d + String.length f
            + String.length v) < 4294967000 ->
  knob_fields (knobURL ++ (k0 ++ k1) ++ "/" ++ d ++ "/" ++ f ++ "/" ++ v)
  = Some ((k0 ++ k1)%string, d, f, v).
Proof.
  intros Hk0 Hk1 Hd Hf Nk1 Nd Nf Hlen. unfold knob_fields.
  set (k := (k0 ++ k1)%string).
  set (url := (knobURL ++ k ++ "/" ++ d ++ "/" ++ f ++ "/" ++ v)%string).
  assert (Hlk : String.length k = (2 + String.length k1)%nat)
    by (subst k; rewrite string_length_append, Hk0; reflexivity).
  assert (Hsmall : Z.of_nat (String.length url) < 4294967296).
  { subst url. rewrite !string_length_append, Hlk. simpl. lia. }
  assert (U1 : url = ((knobURL ++ k0) ++ k1
                      ++ String "/"%char (d ++ "/" ++ f ++ "/" ++ v))%string).
  { subst url k. rewrite !string_append_assoc. reflexivity. }
  assert (U2 : url = ((knobURL ++ k ++ "/") ++ d
                      ++ String "/"%char (f ++ "/" ++ v))%string).
  { subst url. rewrite !string_append_assoc. reflexivity. }
  assert (U3 : url = ((knobURL ++ k ++ "/" ++ d ++ "/") ++ f
                      ++ String "/"%char v)%string).
  { subst url. rewrite !string_append_assoc. reflexivity. }
  assert (U4 : url = ((knobURL ++ k ++ "/" ++ d ++ "/" ++ f ++ "/") ++ v)%string).
  { subst url. rewrite !string_append_assoc. reflexivity. }
  assert (L1 : String.length (knobURL ++ k0) = 12%nat)
    by (rewrite string_length_append, Hk0; reflexivity).
  assert (P1 : indexOf "/"%char (sizeof_knobURL + 1) url
               = Z.of_nat (10 + String.length k)).
  { change (sizeof_knobURL + 1) with (Z.of_nat 12). rewrite <- L1.
    rewrite U1 at 1. rewrite indexOf_at;
      [|exact Hk1|exact Nk1|rewrite <- U1; exact Hsmall].
    rewrite L1, Hlk. f_equal. }
  rewrite P1.
  assert (L2 : Z.of_nat (10 + String.length k) + 1
               = Z.of_nat (String.length (knobURL ++ k ++ "/"))).
  { rewrite !string_length_append. simpl. lia. }
  assert (P2 : indexOf "/"%char (Z.of_nat (10 + String.length k) + 1) url
               = Z.of_nat (11 + String.length k + String.length d)).
  { rewrite L2. rewrite U2 at 1.
    rewrite indexOf_at; [|exact Hd|exact Nd|rewrite <- U2; exact Hsmall].
    rewrite !string_length_append. simpl. f_equal. lia. }
  rewrite P2.
  assert (L3 : Z.of_nat (11 + String.length k + String.length d) + 1
               = Z.of_nat (String.length (knobURL ++ k ++ "/" ++ d ++ "/"))).
  { rewrite !string_length_append. simpl. lia. }
  assert (P3 : indexOf "/"%char
                 (Z.of_nat (11 + String.length k + String.length d) + 1) url
               = Z.of_nat (12 + String.length k + String.length d
                           + String.length f)).
  { rewrite L3. rewrite U3 at 1.
    rewrite indexOf_at; [|exact Hf|exact Nf|rewrite <- U3; exact Hsmall].
    rewrite !string_length_append. simpl. f_equal. lia. }
  rewrite P3.
  replace (negb (Z.of_nat (10 + String.length k) =? -1)) with true
    by (symmetry; apply negb_true_iff, Z.eqb_neq; lia).
  replace (negb (Z.of_nat (11 + String.length k + String.length d) =? -1))
    with true by (symmetry; apply negb_true_iff, Z.eqb_neq; lia).
  replace (negb (Z.of_nat (12 + String.length k + String.length d
                           + String.length f) =? -1))
    with true by (symmetry; apply negb_true_iff, Z.eqb_neq; lia).
  cbn [andb].
  assert (S1 : substring (strlen knobURL) (Z.of_nat (10 + String.length k)) url
               = k).
  { change (strlen knobURL) with (Z.of_nat (String.length knobURL)).
    change (10 + String.length k)%nat
      with (String.length knobURL + String.length k)%nat.
    apply substring_middle; [exact Hsmall|discriminate]. }
  assert (S2 : substring (Z.of_nat (10 + String.length k) + 1)
                 (Z.of_nat (11 + String.length k + String.length d)) url = d).
  { rewrite L2.
    replace (11 + String.length k + String.length d)%nat
      with (String.length (knobURL ++ k ++ "/") + String.length d)%nat
      by (rewrite !string_length_append; simpl; lia).
    rewrite U2 at 1.
    apply substring_middle; [rewrite <- U2; exact Hsmall|discriminate]. }
  assert (S3 : substring
                 (Z.of_nat (11 + String.length k + String.length d) + 1)
                 (Z.of_nat (12 + String.length k + String.length d
                            + String.length f)) url = f).
  { rewrite L3.
    replace (12 + String.length k + String.length d + String.length f)%nat
      with (String.length (knobURL ++ k ++ "/" ++ d ++ "/")
            + String.length f)%nat
      by (rewrite !string_length_append; simpl; lia).
    rewrite U3 at 1.
    apply substring_middle; [rewrite <- U3; exact Hsmall|discriminate]. }
  assert (S4 : substring_from
                 (Z.of_nat (12 + String.length k + String.length d
                            + String.length f) + 1) url = v).
  { replace (Z.of_nat (12 + String.length k + String.length d
                       + String.length f) + 1)
      with (Z.of_nat (String.length
                        (knobURL ++ k ++ "/" ++ d ++ "/" ++ f ++ "/")))
      by (rewrite !string_length_append; simpl; lia).
    rewrite U4 at 1.
    apply substring_from_app. rewrite <- U4. exact Hsmall. }
  rewrite S1, S2, S3, S4. reflexivity.
Qed.

Lemma valid_knob_split k :
  valid_knob k = true ->
  exists k0 k1,
    k = (k0 ++ k1)%string /\ String.length k0 = 2%nat /\
    lacks "/"%char k1 = true /\ lacks "000"%char k1 = true /\
    Z.of_nat (String.length k1) <= 8.
Proof.
  intros Hk.
  destruct (valid_knob_names k Hk) as [-> | [-> | [-> | ->]]].
  - exists "PH", "ASE". repeat split; first [reflexivity | simpl; lia].
  - exists "CH", "ROMA". repeat split; first [reflexivity | simpl; lia].
  - exists "BR", "IGHTNESS". repeat split; first [reflexivity | simpl; lia].
  - exists "CO", "NTRAST". repeat split; first [reflexivity | simpl; lia].
Qed.

Lemma fmt_d_opp x : 0 < x -> fmt_d (- x) = String "-"%char (fmt_d x).
Proof.
  intros Hx. destruct x as [|p|p]; try lia. reflexivity.
Qed.

Lemma atol_digit c r :
  isdigit c = true ->
  atol (String c r) = saturate_long (digits_value 0 (String c r)).
Proof.
  intros Hc.
  destruct c as [[] [] [] [] [] [] [] []];
    first [discriminate Hc | reflexivity].
Qed.

(** X18.  The sign of the factor is not checked.  A knob request with
    direction [p] and the factor written with a minus sign queues the
    same command, and is answered the same, as the request with
    direction [n] and the factor without the sign: [/p/-10/] turns the
    knob backwards just as [/n/10/] does. *)
Theorem negative_factor_reverses_turn wl k f v now g :
  valid_knob k = true ->
  lacks "/"%char f = true ->
  lacks "000"%char f = true ->
  (exists c r, f = String c r /\ isdigit c = true) ->
  0 < digits_value 0 f <= 2147483647 ->
  Z.of_nat (String.length f + String.length v) < 4294966000 ->
  handleReq wl (knobURL ++ k ++ "/p/-" ++ f ++ "/" ++ v)%string now g
  = handleReq wl (knobURL ++ k ++ "/n/" ++ f ++ "/" ++ v)%string now g.
Proof.
  intros Hk Hf Nf (c & r & Ef & Hc) Hval Hlen.
  destruct (valid_knob_split k Hk) as (k0 & k1 & Ek & Hk0 & Hk1 & Nk1 & Hl1).
  rewrite !handleReq_knob by apply startsWith_append.
  assert (F1 : knob_fields (knobURL ++ k ++ "/p/-" ++ f ++ "/" ++ v)
               = Some (k, "p", String "-"%char f, v)).
  { rewrite Ek.
    change (knobURL ++ (k0 ++ k1) ++ "/p/-" ++ f ++ "/" ++ v)%string
      with (knobURL ++ (k0 ++ k1) ++ "/" ++ "p" ++ "/"
            ++ String "-"%char f ++ "/" ++ v)%string.
    apply knob_fields_built;
      first [assumption | reflexivity
            | cbn [lacks]; rewrite Hf; reflexivity
            | cbn [lacks]; rewrite Nf; reflexivity
            | simpl String.length; lia]. }
  assert (F2 : knob_fields (knobURL ++ k ++ "/n/" ++ f ++ "/" ++ v)
               = Some (k, "n", f, v)).
  { rewrite Ek.
    change (knobURL ++ (k0 ++ k1) ++ "/n/" ++ f ++ "/" ++ v)%string
      with (knobURL ++ (k0 ++ k1) ++ "/" ++ "n" ++ "/" ++ f ++ "/" ++ v)%string.
    apply knob_fields_built;
      first [assumption | reflexivity | simpl String.length; lia]. }
  rewrite F1, F2.
  assert (T1 : toInt (String "-"%char f) = - digits_value 0 f).
  { unfold toInt, atol. cbn [skip_spaces]. change (isspace "-") with false.
    cbv iota. unfold saturate_long.
    destruct (_ >? _) eqn:E1; [zprop; lia|].
    destruct (_ <? _) eqn:E2; [zprop; lia|reflexivity]. }
  assert (T2 : toInt f = digits_value 0 f).
  { subst f. unfold toInt. rewrite (atol_digit c r Hc). unfold saturate_long.
    destruct (_ >? _) eqn:E1; [zprop; lia|].
    destruct (_ <? _) eqn:E2; [zprop; lia|reflexivity]. }
  assert (Hcmd : knob_command k "p" (String "-"%char f) v = knob_command k "n" f v).
  { unfold knob_command. rewrite Hk. cbn [negb].
    change (String.eqb "p" "n") with false. change (String.eqb "p" "p") with true.
    change (String.eqb "n" "n") with true. cbv iota.
    rewrite T1, T2.
    replace (- digits_value 0 f =? 0) with (digits_value 0 f =? 0)
      by (destruct (digits_value 0 f =? 0) eqn:E; zprop; symmetry;
          [apply Z.eqb_eq|apply Z.eqb_neq]; lia).
    unfold knob_text. rewrite fmt_d_opp by lia. reflexivity. }
  rewrite Hcmd. reflexivity.
Qed.

Lemma negative_factor_reverses_turn_witness :
  let g := boot true (replicate 8 inhabitant) idle_client in
  handleReq (Some 1%nat) "/turnknob/CHROMA/p/-10/3" 0 g
  = handleReq (Some 1%nat) "/turnknob/CHROMA/n/10/3" 0 g /\
  CmdQueue.contents
    (commandQueue (after_request (Some 1%nat) "/turnknob/CHROMA/p/-10/3" 0 g))
  = [mkCommand CT_INFOKNOB "R CHROMA 96/-10/3"].
Proof.
  intros g. split; [|reflexivity].
  apply (negative_factor_reverses_turn (Some 1%nat) "CHROMA" "10" "3" 0 g).
  - reflexivity.
  - reflexivity.
  - reflexivity.
  - exists "1"%char, "0". split; reflexivity.
  - vm_compute. split; [reflexivity|discriminate].
  - vm_compute. reflexivity.
Defined.

(** X19.  No knob request of the main page is cut short.  For each of the four
    knobs, either direction and each of the radio values 1, 10 and 100
    (sent both as factor and as ticks), the request is accepted when the
    queue has room and the command queued is the whole text
    [R <knob> 96/<v>/<v>] (with [-] before the factor for the backward
    direction); none of them has more than [COMMAND_LEN - 1]
    characters. *)
Theorem page_knob_requests_fit wl knob positive v now g :
  In knob page_knobs ->
  In v page_knob_values ->
  CmdQueue.wf (commandQueue g) ->
  CmdQueue.m_maxCount (commandQueue g) = MAX_QUEUELEN ->
  CmdQueue.getCount (commandQueue g) < MAX_QUEUELEN ->
  let text := knob_text knob positive (toInt v) (toInt v) in
  strlen text <= COMMAND_LEN - 1 /\
  exists g1,
    handleReq wl (page_knob_url knob positive v) now g = Done (g1, http_200_none) /\
    CmdQueue.contents (commandQueue g1)
      = CmdQueue.contents (commandQueue g) ++ [mkCommand CT_INFOKNOB text].
Proof.
  intros Hknob Hv Hwf Hmax Hroom text.
  assert (Hall :
    strlen text <= COMMAND_LEN - 1 /\
    startsWith (page_knob_url knob positive v) knobURL = true /\
    knob_fields (page_knob_url knob positive v)
      = Some (knob, if positive then "p" else "n", v, v) /\
    knob_command knob (if positive then "p" else "n") v v
      = Some (mkCommand CT_INFOKNOB text)).
  { subst text. unfold page_knobs, page_knob_values in *.
    cbn [In] in Hknob, Hv.
    destruct Hknob as [<- | [<- | [<- | [<- | []]]]];
      destruct Hv as [<- | [<- | [<- | []]]];
      destruct positive;
      (split; [vm_compute; discriminate|]);
      (split; [reflexivity|]); split; vm_compute; reflexivity. }
  destruct Hall as (Hlen & Hroute & Hfields & Hcmd).
  split; [exact Hlen|].
  rewrite (handleReq_knob wl _ now g Hroute), Hfields, Hcmd.
  destruct (_ <? _) eqn:E; [|zprop; lia].
  eexists. split; [reflexivity|]. simpl.
  apply CmdQueueFacts.push_contents; [exact Hwf|].
  unfold CmdQueue.getCount in Hroom. lia.
Qed.

Lemma page_knob_requests_fit_witness :
  let g := boot true (replicate 8 inhabitant) idle_client in
  strlen "R BRIGHTNESS 96/-100/100" = COMMAND_LEN - 1 /\
  exists g1,
    handleReq (Some 1%nat) (page_knob_url "BRIGHTNESS" false "100") 0 g
      = Done (g1, http_200_none) /\
    CmdQueue.contents (commandQueue g1)
      = [mkCommand CT_INFOKNOB "R BRIGHTNESS 96/-100/100"].
Proof.
  intros g. split; [reflexivity|].
  assert (Hwf : CmdQueue.wf (commandQueue g)).
  { constructor; cbn; change (u8 MAX_QUEUELEN) with 8; first [lia | reflexivity]. }
  destruct (page_knob_requests_fit (Some 1%nat) "BRIGHTNESS" false "100" 0 g)
    as (_ & g1 & H1 & C1);
    [cbn; auto | cbn; auto | exact Hwf | reflexivity | reflexivity |].
  exists g1. split; [exact H1|exact C1].
Defined.

(** ** The command store of the first revision *)

Lemma first_revision_enqueue_held c q :
  length (FirstRevision.m_commands q) = 10%nat ->
  0 <= FirstRevision.m_queueLen q <= 9 ->
  let q' := FirstRevision.enqueue c q in
  length (FirstRevision.m_commands q') = 10%nat /\
  0 <= FirstRevision.m_queueLen q' <= 9 /\
  first_revision_held q'
  = if FirstRevision.m_queueLen q <? 9 then first_revision_held q ++ [c]
    else first_revision_held q.
Proof.
  intros Hlen Hq. unfold FirstRevision.enqueue, FirstRevision.MAX_QUEUELEN.
  destruct (FirstRevision.m_queueLen q + 1 <? 10) eqn:E; zprop; cbv zeta.
  - destruct (FirstRevision.m_queueLen q <? 9) eqn:E1; zprop; [|lia].
    unfold first_revision_held. cbn [FirstRevision.m_commands FirstRevision.m_queueLen].
    rewrite length_insert, u8_small by lia.
    split; [exact Hlen|]. split; [lia|].
    replace (Z.to_nat (FirstRevision.m_queueLen q + 1))
      with (S (Z.to_nat (FirstRevision.m_queueLen q))) by lia.
    rewrite (take_S_r _ _ c) by (apply list_lookup_insert_eq; lia).
    rewrite take_insert_ge by lia. reflexivity.
  - destruct (FirstRevision.m_queueLen q <? 9) eqn:E1; zprop; [lia|].
    auto.
Qed.

Lemma first_revision_enqueue_all_held cmds : forall q,
  length (FirstRevision.m_commands q) = 10%nat ->
  0 <= FirstRevision.m_queueLen q <= 9 ->
  let q' := first_revision_enqueue_all cmds q in
  length (FirstRevision.m_commands q') = 10%nat /\
  0 <= FirstRevision.m_queueLen q' <= 9 /\
  first_revision_held q'
  = first_revision_held q
    ++ take (9 - Z.to_nat (FirstRevision.m_queueLen q)) cmds.
Proof.
  induction cmds as [|c cmds IH]; intros q Hlen Hq.
  - simpl. rewrite take_nil, app_nil_r. auto.
  - destruct (first_revision_enqueue_held c q Hlen Hq) as (L1 & Q1 & H1).
    destruct (IH (FirstRevision.enqueue c q) L1 Q1) as (L2 & Q2 & H2).
    cbv zeta in *.
    change (first_revision_enqueue_all (c :: cmds) q)
      with (first_revision_enqueue_all cmds (FirstRevision.enqueue c q)).
    split; [exact L2|]. split; [exact Q2|].
    rewrite H2, H1.
    destruct (FirstRevision.m_queueLen q <? 9) eqn:E; zprop.
    + assert (Hn : FirstRevision.m_queueLen (FirstRevision.enqueue c q)
                   = FirstRevision.m_queueLen q + 1).
      { unfold FirstRevision.enqueue, FirstRevision.MAX_QUEUELEN.
        destruct (_ <? 10) eqn:E1; zprop; [|lia].
        simpl. apply u8_small. lia. }
      rewrite Hn, <- app_assoc. f_equal.
      replace (9 - Z.to_nat (FirstRevision.m_queueLen q))%nat
        with (S (9 - Z.to_nat (FirstRevision.m_queueLen q + 1)))%nat by lia.
      reflexivity.
    + assert (Hn : FirstRevision.enqueue c q = q).
      { unfold FirstRevision.enqueue, FirstRevision.MAX_QUEUELEN.
        destruct (_ <? 10) eqn:E1; zprop; [lia|reflexivity]. }
      rewrite Hn.
      replace (9 - Z.to_nat (FirstRevision.m_queueLen q))%nat with 0%nat by lia.
      reflexivity.
Qed.

Lemma first_revision_dequeue_held : forall n q,
  0 <= FirstRevision.m_queueLen q <= 9 ->
  length (FirstRevision.m_commands q) = 10%nat ->
  n = Z.to_nat (FirstRevision.m_queueLen q) ->
  fst (first_revision_dequeue_n n q) = map Some (rev (first_revision_held q)) /\
  FirstRevision.m_queueLen (snd (first_revision_dequeue_n n q)) = 0.
Proof.
  induction n as [|n IH]; intros q Hq Hlen Hn.
  - unfold first_revision_held. rewrite <- Hn. simpl. split; [reflexivity|lia].
  - cbn [first_revision_dequeue_n]. unfold FirstRevision.dequeue.
    destruct (FirstRevision.m_queueLen q >? 0) eqn:E; zprop; [|lia].
    set (q1 := FirstRevision.mkCommandQueue _ _).
    assert (Hq1 : FirstRevision.m_queueLen q1 = FirstRevision.m_queueLen q - 1)
      by (subst q1; simpl; apply u8_small; lia).
    destruct (IH q1) as (I1 & I2); [lia|exact Hlen|lia|].
    destruct (first_revision_dequeue_n n q1) as [rs q2]. cbn [fst snd] in *.
    split; [|exact I2]. rewrite I1.
    unfold first_revision_held. rewrite Hq1.
    cbn [FirstRevision.m_commands q1].
    replace (Z.to_nat (FirstRevision.m_queueLen q))
      with (S (Z.to_nat (FirstRevision.m_queueLen q - 1))) by lia.
    assert (Hlk : FirstRevision.m_commands q
                    !! Z.to_nat (FirstRevision.m_queueLen q - 1)
                  = Some (FirstRevision.m_commands q
                            !!! Z.to_nat (FirstRevision.m_queueLen q - 1))).
    { apply list_lookup_lookup_total_lt. lia. }
    rewrite (take_S_r _ _ _ Hlk), rev_app_distr. reflexivity.
Qed.

(** X20.  The store of the first revision is a stack that holds nine commands.
    Of the commands handed to it while it holds none, the first nine are
    kept and the others dropped, although the array has ten slots; the
    turns of [loop] that follow take them newest first. *)
Theorem first_revision_store_is_a_stack_of_nine mem cmds :
  length mem = 10%nat ->
  let q := first_revision_enqueue_all cmds (FirstRevision.mkCommandQueue mem 0) in
  let n := Z.to_nat (FirstRevision.m_queueLen q) in
  first_revision_held q = take 9 cmds /\
  n = Nat.min 9 (length cmds) /\
  fst (first_revision_dequeue_n n q) = map Some (rev (take 9 cmds)) /\
  FirstRevision.m_queueLen (snd (first_revision_dequeue_n n q)) = 0.
Proof.
  intros Hlen q n.
  destruct (first_revision_enqueue_all_held cmds
              (FirstRevision.mkCommandQueue mem 0)) as (L & Q & H);
    [exact Hlen|simpl; lia|].
  fold q in L, Q, H. unfold first_revision_held at 2 in H. simpl in H.
  assert (Hn : n = Nat.min 9 (length cmds)).
  { subst n. apply (f_equal (@length Command_t)) in H.
    unfold first_revision_held in H.
    rewrite !length_take in H. lia. }
  destruct (first_revision_dequeue_held n q Q L eq_refl) as (D1 & D2).
  rewrite H in D1. auto.
Qed.

Lemma first_revision_store_is_a_stack_of_nine_witness :
  let c := fun t => mkCommand CT_INFO t in
  let cmds := [c "1"; c "2"; c "3"; c "4"; c "5"; c "6"; c "7"; c "8"; c "9";
               c "0"; c "ENTER"] in
  let q := first_revision_enqueue_all cmds
             (FirstRevision.mkCommandQueue (replicate 10 inhabitant) 0) in
  FirstRevision.m_queueLen q = 9 /\
  fst (first_revision_dequeue_n 9 q)
  = map Some [c "9"; c "8"; c "7"; c "6"; c "5"; c "4"; c "3"; c "2"; c "1"].
Proof.
  intros c cmds q.
  destruct (first_revision_store_is_a_stack_of_nine (replicate 10 inhabitant)
              cmds eq_refl) as (_ & _ & H & _).
  split; [reflexivity|]. exact H.
Defined.

(** ** Knobs in the first revision *)

Lemma fmt_d_short x :
  -128 <= x <= 255 ->
  (1 <= String.length (fmt_d x) <= 4)%nat.
Proof.
  intros Hx.
  assert (Hall : forallb (fun k =>
            let l := String.length (fmt_d (Z.of_nat k - 128)) in
            (1 <=? l)%nat && (l <=? 4)%nat) (seq 0 384) = true)
    by (vm_compute; reflexivity).
  rewrite forallb_forall in Hall.
  specialize (Hall (Z.to_nat (x + 128))).
  rewrite Z2Nat.id in Hall by lia.
  replace (x + 128 - 128) with x in Hall by lia.
  assert (Hin : In (Z.to_nat (x + 128)) (seq 0 384)) by (apply in_seq; lia).
  apply Hall in Hin. cbv zeta in Hin.
  apply andb_prop in Hin. destruct Hin as [H1 H2].
  apply Nat.leb_le in H1. apply Nat.leb_le in H2. lia.
Qed.

Lemma i8_range x : -128 <= i8 x <= 127.
Proof. unfold i8. pose proof (Z.mod_pos_bound (x + 128) 256). lia. Qed.

Lemma first_revision_knobStatus_length dir ticks :
  -128 <= dir <= 127 -> 0 <= ticks <= 255 ->
  c_str (first_revision_knobStatus dir ticks)
    = first_revision_knobStatus dir ticks /\
  6 <= strlen (first_revision_knobStatus dir ticks) <= 11.
Proof.
  intros Hd Ht. unfold first_revision_knobStatus, snprintf.
  set (full := ("96/" ++ fmt_d dir ++ "/" ++ fmt_d ticks)%string).
  assert (Hc : c_str full = full).
  { subst full.
    repeat (apply c_str_append;
            [first [reflexivity | apply c_str_fmt_d]|]).
    apply c_str_fmt_d. }
  assert (Hl : (5 <= String.length full <= 11)%nat /\
               (6 <= String.length full)%nat).
  { subst full. rewrite !string_length_append. simpl String.length.
    pose proof (fmt_d_short dir ltac:(lia)).
    pose proof (fmt_d_short ticks ltac:(lia)).
    assert (String.length (fmt_d ticks) <= 3)%nat.
    { assert (Hall : forallb (fun k =>
                (String.length (fmt_d (Z.of_nat k)) <=? 3)%nat) (seq 0 256)
                = true) by (vm_compute; reflexivity).
      rewrite forallb_forall in Hall.
      specialize (Hall (Z.to_nat ticks)).
      rewrite Z2Nat.id in Hall by lia.
      apply Nat.leb_le, Hall, in_seq. lia. }
    lia. }
  rewrite substring0_whole by (change (Z.to_nat (20 - 1)) with 19%nat; lia).
  split; [exact Hc|]. unfold strlen. rewrite Hc. lia.
Qed.

Lemma first_revision_turnKnob_length knob dir ticks buf :
  -128 <= dir <= 127 -> 0 <= ticks <= 255 ->
  snd (first_revision_turnKnob knob dir ticks buf)
  = 23 + strlen (first_revision_knobstr knob)
    + strlen (first_revision_knobStatus dir ticks).
Proof.
  intros Hd Ht.
  destruct (first_revision_knobStatus_length dir ticks Hd Ht) as (Hc & Hl).
  unfold first_revision_turnKnob, put_text.
  rewrite !put_byte_as_bytes, !put_bytes_app.
  change (Z.of_nat (length header) - 1) with 12.
  match goal with
  | |- context [put_bytes ?l (?b, ?n)] => set (bs := l)
  end.
  assert (Hks : strlen (first_revision_knobStatus dir ticks)
                = Z.of_nat (String.length (first_revision_knobStatus dir ticks)))
    by (unfold strlen; rewrite Hc; reflexivity).
  assert (Hkn : c_str (first_revision_knobstr knob) = first_revision_knobstr knob)
    by (destruct knob; reflexivity).
  assert (Hkl : strlen (first_revision_knobstr knob)
                = Z.of_nat (String.length (first_revision_knobstr knob)) /\
                7 <= strlen (first_revision_knobstr knob) <= 12).
  { unfold strlen. rewrite Hkn. destruct knob; simpl; lia. }
  destruct Hkl as (Hkl & Hkr).
  assert (Hbs : Z.of_nat (length bs)
                = 11 + strlen (first_revision_knobstr knob)
                  + strlen (first_revision_knobStatus dir ticks)).
  { subst bs. rewrite !length_app, !bytes_of_length, Hc, Hkn, Hks, Hkl.
    change (String.length (c_str INFO_KNOB)) with 8%nat. cbn [length]. lia. }
  rewrite put_bytes_count by lia. lia.
Qed.

(** X21.  In the first revision every turn of the BRIGHTNESS knob built a
    frame longer than [packetBuf]: the header, the length byte,
    [INFOknob], [R BRIGHTNESS] and the shortest status text take 41
    bytes, and the array had 40.  Whatever the factor, the direction and
    the ticks, [turnKnob] wrote between 41 and 46 bytes. *)
Theorem first_revision_brightness_overruns a buf :
  m_knob a = KNOB_BRIGHT ->
  0 <= m_value a <= 255 ->
  first_revision_sizeof_packetBuf < snd (first_revision_turn a buf) <= 46.
Proof.
  intros Hk Hv. unfold first_revision_turn, first_revision_sizeof_packetBuf.
  set (dir := i8 _).
  pose proof (i8_range (m_factor a * (if m_positive a then 1 else -1))) as Hd.
  fold dir in Hd.
  rewrite (first_revision_turnKnob_length _ dir (m_value a) buf Hd Hv), Hk.
  destruct (first_revision_knobStatus_length dir (m_value a) Hd Hv) as (_ & Hl).
  change (strlen (first_revision_knobstr KNOB_BRIGHT)) with 12. lia.
Qed.

Lemma first_revision_brightness_overruns_witness :
  first_revision_knob_action "BRIGHTNESS" "p" "1" "1"
    = Some (mkKnobAction KNOB_BRIGHT true 1 1) /\
  snd (first_revision_turn (mkKnobAction KNOB_BRIGHT true 1 1)
         (header ++ replicate 27 0)) = 41.
Proof.
  split; [reflexivity|].
  pose proof (first_revision_brightness_overruns
                (mkKnobAction KNOB_BRIGHT true 1 1) (header ++ replicate 27 0)
                eq_refl ltac:(simpl; lia)) as H.
  assert (E : snd (first_revision_turn (mkKnobAction KNOB_BRIGHT true 1 1)
                     (header ++ replicate 27 0)) <= 41)
    by (vm_compute; discriminate).
  unfold first_revision_sizeof_packetBuf in H. lia.
Defined.

(** X22.  In the first revision the factor of a knob request was checked as an
    [int] but stored in eight bits and handed on as an [int8_t].  A
    forward turn by a factor from 128 to 255 was therefore sent as a
    backward turn by 256 less the factor, and a factor of 256, although
    it passed the test against zero, was sent as no turn at all. *)
Theorem first_revision_factor_wraps knobstr factorstr valuestr a :
  first_revision_knob_action knobstr "p" factorstr valuestr = Some a ->
  let dir := i8 (m_factor a * (if m_positive a then 1 else -1)) in
  (128 <= toInt factorstr <= 255 -> dir = toInt factorstr - 256) /\
  (toInt factorstr = 256 -> dir = 0) /\
  (0 < toInt factorstr <= 127 -> dir = toInt factorstr).
Proof.
  unfold first_revision_knob_action.
  destruct (if String.eqb knobstr "PHASE" then _ else _) as [knob|];
    [|discriminate].
  change (String.eqb "p" "n") with false. change (String.eqb "p" "p") with true.
  cbv iota.
  destruct (_ || _); [discriminate|].
  intros E. injection E as <-. cbn [m_factor m_positive].
  rewrite Z.mul_1_r. unfold i8, u8.
  split; [|split]; intros H.
  - rewrite (Z.mod_small (toInt factorstr)) by lia.
    replace (toInt factorstr + 128) with ((toInt factorstr - 128) + 1 * 256)
      by lia.
    rewrite Z.mod_add by lia. rewrite Z.mod_small by lia. lia.
  - rewrite H. reflexivity.
  - rewrite (Z.mod_small (toInt factorstr)) by lia.
    rewrite Z.mod_small by lia. lia.
Qed.

Lemma first_revision_factor_wraps_witness :
  exists a,
    first_revision_knob_action "PHASE" "p" "200" "5" = Some a /\
    i8 (m_factor a * (if m_positive a then 1 else -1)) = -56 /\
    first_revision_knobStatus (-56) (m_value a) = "96/-56/5".
Proof.
  eexists. split; [reflexivity|].
  destruct (first_revision_factor_wraps "PHASE" "200" "5" _ eq_refl)
    as (H & _ & _).
  split; [|reflexivity].
  rewrite H by (vm_compute; split; discriminate). reflexivity.
Defined.

(** ** Long knob texts in the revision before the physical keys *)

(** A text of 19 characters, the longest that [snprintf] leaves, makes a
    frame of 41 bytes. *)
Lemma intermediate_sendInfoKnobPacket_overrun text g :
  c_str text = text ->
  strlen text = 19 ->
  IntermediateRevision.sendInfoKnobPacket text g
  = BufferOverflow 41 IntermediateRevision.sizeof_packetBuf.
Proof.
  intros Hnul Hlen.
  unfold IntermediateRevision.sendInfoKnobPacket, put_text.
  rewrite !put_byte_as_bytes, !put_bytes_app.
  change (Z.of_nat (length header) - 1) with 12.
  match goal with
  | |- context [put_bytes ?l (?b, ?n)] =>
      set (bs := l); pose proof (put_bytes_count bs b n) as Hspec
  end.
  assert (Hbs : Z.of_nat (length bs) = 29).
  { subst bs. rewrite !length_app, !bytes_of_length.
    unfold strlen in Hlen.
    change (String.length (c_str INFO_KNOB)) with 8%nat. cbn [length]. lia. }
  specialize (Hspec ltac:(lia) ltac:(lia)).
  destruct (put_bytes bs (packetBuf g, 12)) as [buf dl].
  cbn [snd] in Hspec. unfold IntermediateRevision.send_frame.
  destruct (dl >? IntermediateRevision.sizeof_packetBuf) eqn:E.
  - f_equal. lia.
  - zprop. unfold IntermediateRevision.sizeof_packetBuf in E. lia.
Qed.

Lemma substring0_length_exact s : forall n,
  (n <= String.length s)%nat -> String.length (String.substring 0 n s) = n.
Proof.
  induction s as [|c s IH]; intros [|n] Hn; simpl in *; try reflexivity; try lia.
  rewrite IH by lia. reflexivity.
Qed.

Lemma fmt_d_nonempty x : (1 <= String.length (fmt_d x))%nat.
Proof.
  unfold fmt_d, NilZero.string_of_int, NilZero.string_of_uint.
  destruct (Z.to_int x) as [d|d]; destruct d; simpl; lia.
Qed.

Lemma brightness_text_length pos factor value :
  19 <= Z.of_nat (String.length (knob_text "BRIGHTNESS" pos factor value)).
Proof.
  unfold knob_text. rewrite !string_length_append.
  pose proof (fmt_d_nonempty factor). pose proof (fmt_d_nonempty value).
  change (String.length "R ") with 2%nat.
  change (String.length "BRIGHTNESS") with 10%nat.
  change (String.length " 96/") with 4%nat.
  change (String.length "/") with 1%nat.
  lia.
Qed.

(** X23.  In the revision before the physical keys a knob command of 19
    characters does not fit the frame buffer.  A knob request whose text
    ["R <knob> 96/<factor>/<ticks>"] has 19 characters or more, as it has
    for every BRIGHTNESS request, is accepted and queued cut to 19
    characters; when [loop] sends it, [sendInfoKnobPacket] builds 41
    bytes, one more than the 40 of [packetBuf]. *)
Theorem intermediate_long_knob_text_overruns wl url now g k d f v :
  startsWith url knobURL = true ->
  knob_fields url = Some (k, d, f, v) ->
  valid_knob k = true ->
  d = "p" \/ d = "n" ->
  toInt f <> 0 ->
  toInt v <> 0 ->
  CmdQueue.wf (commandQueue g) ->
  CmdQueue.m_maxCount (commandQueue g) = MAX_QUEUELEN ->
  CmdQueue.getCount (commandQueue g) < MAX_QUEUELEN ->
  let full := knob_text k (String.eqb d "p") (toInt f) (toInt v) in
  let cmd := mkCommand CT_INFOKNOB (String.substring 0 19 full) in
  (k = "BRIGHTNESS" -> 19 <= Z.of_nat (String.length full)) /\
  (19 <= Z.of_nat (String.length full) ->
   (exists g1,
      IntermediateRevision.handleReq wl url now g = Done (g1, http_200_none) /\
      CmdQueue.contents (commandQueue g1)
        = CmdQueue.contents (commandQueue g) ++ [cmd]) /\
   (forall g2 rest,
      CmdQueue.wf (commandQueue g2) ->
      CmdQueue.contents (commandQueue g2) = cmd :: rest ->
      IntermediateRevision.loop_command g2
      = BufferOverflow 41 IntermediateRevision.sizeof_packetBuf)).
Proof.
  intros Hroute Hfields Hk Hd Hf Hv Hwf Hmax Hroom full cmd.
  split; [intros ->; apply brightness_text_length|].
  intros Hlong.
  destruct (snprintf_knob_text 20 k (String.eqb d "p") (toInt f) (toInt v) Hk)
    as (Hnul & _ & _); [lia|].
  fold full in Hnul. change (snprintf 20 full) with (String.substring 0 19 full) in Hnul.
  assert (Hlen : strlen (String.substring 0 19 full) = 19).
  { unfold strlen. rewrite Hnul, substring0_length_exact by lia. reflexivity. }
  split.
  - assert (Hcmd : IntermediateRevision.knob_command k d f v = Some cmd).
    { unfold IntermediateRevision.knob_command. rewrite Hk. cbn [negb].
      apply Z.eqb_neq in Hf. apply Z.eqb_neq in Hv.
      destruct Hd as [-> | ->]; cbn; rewrite Hf, Hv; reflexivity. }
    rewrite (intermediate_handleReq_knob wl url now g Hroute), Hfields, Hcmd.
    destruct (_ <? _) eqn:E; [|zprop; lia].
    eexists. split; [reflexivity|].
    apply CmdQueueFacts.push_contents; [exact Hwf|].
    unfold CmdQueue.getCount in Hroom. lia.
  - intros g2 rest Hwf2 Hc2.
    destruct (intermediate_loop_command_front g2 _ rest Hwf2 Hc2)
      as (q' & Hpop & _).
    unfold IntermediateRevision.loop_command. rewrite Hpop.
    cbn [m_commandType m_command cmd].
    rewrite (intermediate_sendInfoKnobPacket_overrun _ (set_commandQueue q' g2)
               Hnul Hlen).
    reflexivity.
Qed.

Lemma intermediate_long_knob_text_overruns_witness :
  let g := IntermediateRevision.boot true (replicate 8 inhabitant) idle_client in
  let cmd := mkCommand CT_INFOKNOB "R BRIGHTNESS 96/1/1" in
  exists g1,
    IntermediateRevision.handleReq (Some 1%nat) "/turnknob/BRIGHTNESS/p/1/1" 0 g
      = Done (g1, http_200_none) /\
    CmdQueue.contents (commandQueue g1) = [cmd] /\
    IntermediateRevision.loop_command g1
      = BufferOverflow 41 IntermediateRevision.sizeof_packetBuf.
Proof.
  intros g cmd.
  assert (Hwf : CmdQueue.wf (commandQueue g)).
  { constructor; cbn; change (u8 MAX_QUEUELEN) with 8; first [lia | reflexivity]. }
  assert (Hf : toInt "1" <> 0) by (vm_compute; discriminate).
  destruct (intermediate_long_knob_text_overruns (Some 1%nat)
              "/turnknob/BRIGHTNESS/p/1/1" 0 g "BRIGHTNESS" "p" "1" "1"
              eq_refl eq_refl eq_refl (or_introl eq_refl) Hf Hf Hwf
              eq_refl eq_refl) as (Hb & Hrun).
  destruct (Hrun (Hb eq_refl)) as ((g1 & H1 & C1) & Hsend).
  assert (Hg1 : g1 = set_commandQueue
                       (CmdQueue.push cmd (commandQueue g)) g).
  { assert (E : IntermediateRevision.handleReq (Some 1%nat)
                  "/turnknob/BRIGHTNESS/p/1/1" 0 g
                = Done (set_commandQueue
                          (CmdQueue.push cmd (commandQueue g)) g,
                        http_200_none)) by reflexivity.
    rewrite E in H1. injection H1 as <-. reflexivity. }
  assert (Hwf1 : CmdQueue.wf (commandQueue g1)).
  { rewrite Hg1. constructor; vm_compute; repeat split;
      first [reflexivity | discriminate]. }
  exists g1. split; [exact H1|]. split; [exact C1|].
  apply (Hsend g1 []); [exact Hwf1 | exact C1].
Defined.
